(** * signal-engine: the incremental ingestion pipeline

    A shallow embedding of the real-time part of the repository:
    - [trade/realtime_trader/watcher.py]  (module [LinearCSVFolderWatcher]),
    - [trade/realtime_trader/trader.py]   (module [RealTimeTrader]),
    - the start-up path of [trade/main.py] and the directory check of
      [trade/backtest/backtester.py]      (module [Main]).
    The statements use the vocabulary of module [Scenario]; the proved
    properties follow it.

    Conventions of the model.
    - File contents and lines are ASCII text, [list ascii]; a byte offset
      is then a character index.  File names are [string]s.
    - A poll of the watcher observes one snapshot of the watched
      directory: a list of entries (file name, content).
    - Python exceptions are explicit results ([Raise]).
    - pandas is outside the repository.  A bar file is seen by the window
      loader as what [pd.read_csv] returns on it ([CsvRead]); timestamps
      are UTC instants in nanoseconds, formatted and parsed in the two
      encodings the code documents. *)

From Stdlib Require Import ZArith Lia Bool Ascii String List Permutation.
From stdpp Require Import base gmap strings list.
Import ListNotations.

Local Open Scope Z_scope.

(** ** Python string operations used by the code *)

Module PyStr.

Abbreviation text := (list ascii).

Definition txt (s : string) : text := list_ascii_of_string s.

Definition LF : ascii := "010"%char.
Definition CR : ascii := "013"%char.

(** Line boundaries of [str.splitlines] on ASCII text. *)
Definition is_linebreak (c : ascii) : bool :=
  match c with
  | "010" | "011" | "012" | "013" | "028" | "029" | "030" => true
  | _ => false
  end%char.

(** Whitespace of [str.strip] / [str.isspace] on ASCII text. *)
Definition is_space (c : ascii) : bool :=
  match c with
  | "009" | "010" | "011" | "012" | "013"
  | "028" | "029" | "030" | "031" | " " => true
  | _ => false
  end%char.

Definition is_ascii7 (c : ascii) : bool := (nat_of_ascii c <? 128)%nat.

Definition is_digit (c : ascii) : bool :=
  (48 <=? nat_of_ascii c)%nat && (nat_of_ascii c <=? 57)%nat.

Definition is_char (a b : ascii) : bool := Ascii.eqb a b.

Definition is_cr (c : ascii) : bool := Ascii.eqb c CR.
Definition is_lf (c : ascii) : bool := Ascii.eqb c LF.

(** Text-mode reading (newline=None): "\r\n" and a lone "\r" become "\n". *)
Fixpoint universal_newlines (s : text) : text :=
  match s with
  | [] => []
  | c :: rest =>
      if is_cr c then
        LF :: match rest with
              | c2 :: rest2 =>
                  if is_lf c2 then universal_newlines rest2
                  else universal_newlines rest
              | [] => []
              end
      else c :: universal_newlines rest
  end.

(** [str.splitlines()]: "\r\n" is one boundary; no empty last line after a
    final boundary. *)
Fixpoint splitlines (s : text) : list text :=
  match s with
  | [] => []
  | c :: rest =>
      if is_linebreak c then
        [] :: match rest with
              | c2 :: rest2 =>
                  if is_cr c && is_lf c2 then splitlines rest2
                  else splitlines rest
              | [] => []
              end
      else
        match splitlines rest with
        | [] => [[c]]
        | l :: ls => (c :: l) :: ls
        end
  end.

Fixpoint lstrip (s : text) : text :=
  match s with
  | [] => []
  | c :: rest => if is_space c then lstrip rest else s
  end.

Definition rstrip (s : text) : text := rev (lstrip (rev s)).

(** [str.strip()] *)
Definition strip (s : text) : text := rstrip (lstrip s).

Definition lower_char (c : ascii) : ascii :=
  let n := nat_of_ascii c in
  if (65 <=? n)%nat && (n <=? 90)%nat then ascii_of_nat (n + 32) else c.

(** [str.lower()] *)
Definition lower (s : text) : text := map lower_char s.

(** [str.startswith(p)] *)
Fixpoint startswith (s p : text) : bool :=
  match p, s with
  | [], _ => true
  | _ :: _, [] => false
  | a :: p', b :: s' => Ascii.eqb a b && startswith s' p'
  end.

(** [str.endswith(p)] *)
Definition endswith (s p : text) : bool := startswith (rev s) (rev p).

(** [str.split(",")] *)
Fixpoint split_comma (s : text) : list text :=
  match s with
  | [] => [[]]
  | c :: rest =>
      if Ascii.eqb c ","%char then [] :: split_comma rest
      else match split_comma rest with
           | [] => [[c]]
           | l :: ls => (c :: l) :: ls
           end
  end.

(** [l[-k:]] for [k > 0] *)
Definition lastn {A} (k : nat) (l : list A) : list A :=
  skipn (length l - k) l.

Definition nonempty (s : text) : bool :=
  match s with [] => false | _ => true end.

(** [str.isdigit()] *)
Definition isdigit (s : text) : bool := nonempty s && forallb is_digit s.

(** [[ln.strip() for ln in text.splitlines() if ln.strip()]] *)
Definition stripped_lines (t : text) : list text :=
  List.filter nonempty (map strip (splitlines t)).

End PyStr.
Import PyStr.

(** ** The watched directory *)

Module FS.

(** One snapshot of a directory: entries (file name, what the file holds). *)
Definition Dir (A : Type) : Type := list (string * A).

Definition names {A} (d : Dir A) : list string := map fst d.

(** [folder.glob("*.csv")] *)
Definition glob_csv {A} (d : Dir A) : Dir A :=
  List.filter (fun e => endswith (txt (fst e)) (txt ".csv")) d.

Fixpoint insert_by_name {A} (e : string * A) (l : Dir A) : Dir A :=
  match l with
  | [] => [e]
  | x :: xs =>
      if String.leb (fst e) (fst x) then e :: l
      else x :: insert_by_name e xs
  end.

(** [sorted(...)] on paths of one directory: by file name. *)
Definition sorted {A} (d : Dir A) : Dir A := foldr insert_by_name [] d.

(** A missing directory lists nothing: [Path.glob] yields no entry. *)
Definition listdir {A} (folder : option (Dir A)) : Dir A :=
  match folder with Some d => d | None => [] end.

End FS.
Import FS.

(** ** watcher.py *)

Module LinearCSVFolderWatcher.

Record Watcher := mkWatcher {
  _offsets : gmap string nat;
  _known_files : gset string;
  _bootstrapped : bool
}.

(** One call [on_new_data(filename, line)]. *)
Abbreviation Event := (string * text)%type.

(** [__init__] *)
Definition init : Watcher :=
  {| _offsets := ∅; _known_files := ∅; _bootstrapped := false |}.

Definition set_offset (p : string) (n : nat) (w : Watcher) : Watcher :=
  {| _offsets := <[p := n]> (_offsets w);
     _known_files := _known_files w;
     _bootstrapped := _bootstrapped w |}.

Definition add_known (p : string) (w : Watcher) : Watcher :=
  {| _offsets := _offsets w;
     _known_files := {[p]} ∪ _known_files w;
     _bootstrapped := _bootstrapped w |}.

Definition set_bootstrapped (w : Watcher) : Watcher :=
  {| _offsets := _offsets w;
     _known_files := _known_files w;
     _bootstrapped := true |}.

(** [line.lower().startswith("open_time,")] *)
Definition _is_header (line : text) : bool :=
  startswith (lower line) (txt "open_time,").

(** [lines] and [data_lines] of [_handle_new_file_created], from the text
    read. *)
Definition data_lines (content : text) : list text :=
  let lines := stripped_lines content in
  List.filter (fun ln => negb (_is_header ln)) lines.

(** The file of the snapshot is there, so [read_text] and [stat] succeed
    and the [FileNotFoundError] handlers are not entered. *)
Definition _handle_new_file_created (path : string * text) (w : Watcher)
  : Watcher * list Event :=
  let w := set_offset (fst path) 0%nat w in
  let content := universal_newlines (snd path) in
  let fired :=
    match data_lines content with
    | first :: _ => [(fst path, first)]
    | [] => []
    end in
  (set_offset (fst path) (length (snd path)) w, fired).

(** The loop over [chunk.splitlines()]. *)
Definition appended_lines (chunk : text) : list text :=
  List.filter (fun line => negb (negb (nonempty line) || _is_header line))
              (map strip (splitlines chunk)).

(** [seek(last_offset)] then [read()] give the bytes of the snapshot from
    the stored offset, read as text; the file is there, so [stat] succeeds. *)
Definition _read_appends (path : string * text) (w : Watcher)
  : Watcher * list Event :=
  match _offsets w !! fst path with
  | None => (set_offset (fst path) (length (snd path)) w, [])
  | Some last_offset =>
      let current_size := length (snd path) in
      if (current_size <=? last_offset)%nat then (w, [])
      else
        let chunk := universal_newlines (skipn last_offset (snd path)) in
        (set_offset (fst path) current_size w,
         map (fun line => (fst path, line)) (appended_lines chunk))
  end.

(** The bootstrap loop. *)
Definition bootstrap_step (w : Watcher) (p : string * text) : Watcher :=
  set_offset (fst p) (length (snd p)) (add_known (fst p) w).

Definition bootstrap (csv_files : Dir text) (w : Watcher) : Watcher :=
  set_bootstrapped (fold_left bootstrap_step csv_files w).

(** The loop that detects new files. *)
Definition detect_step (acc : Watcher * list Event) (p : string * text)
  : Watcher * list Event :=
  let '(w, fired) := acc in
  if decide (fst p ∈ _known_files w) then (w, fired)
  else
    let '(w', e) := _handle_new_file_created p (add_known (fst p) w) in
    (w', fired ++ e).

Definition detect_new_files (csv_files : Dir text) (w : Watcher)
  : Watcher * list Event :=
  fold_left detect_step csv_files (w, []).

Definition _poll_once (dir : Dir text) (w : Watcher) : Watcher * list Event :=
  let csv_files := sorted (glob_csv dir) in
  match last csv_files with
  | None => (w, [])
  | Some latest_file =>
      if negb (_bootstrapped w) then (bootstrap csv_files w, [])
      else
        let '(w1, fired1) := detect_new_files csv_files w in
        let '(w2, fired2) := _read_appends latest_file w1 in
        (w2, fired1 ++ fired2)
  end.

(** [start]: the polling loop, one directory snapshot per poll ([None]: the
    folder does not exist); the loop has no exit of its own. *)
Fixpoint start (snapshots : list (option (Dir text))) (w : Watcher)
  : Watcher * list (list Event) :=
  match snapshots with
  | [] => (w, [])
  | folder :: later =>
      let '(w1, fired) := _poll_once (listdir folder) w in
      let '(w2, rest) := start later w1 in
      (w2, fired :: rest)
  end.

(** *** The producer, for the scenarios below *)

(** [data] is appended to the file named [f]. *)
Definition append_to (f : string) (data : text) (dir : Dir text) : Dir text :=
  map (fun e => if String.eqb (fst e) f then (fst e, snd e ++ data) else e) dir.

(** A written line: its text and its terminator ("\r\n" as [csv.writer]
    writes it, or "\n"). *)
Abbreviation Line := (text * bool)%type.

Definition eol (crlf : bool) : text := if crlf then [CR; LF] else [LF].

Definition write_lines (ls : list Line) : text :=
  concat (map (fun l => fst l ++ eol (snd l)) ls).

(** Polls interleaved with appends to [f]: each batch of lines is appended,
    then the watcher polls; the calls of [on_new_data], in order. *)
Fixpoint polls_with_appends (f : string) (batches : list (list Line))
    (dir : Dir text) (w : Watcher) : list Event :=
  match batches with
  | [] => []
  | b :: later =>
      let dir' := append_to f (write_lines b) dir in
      let '(w', fired) := _poll_once dir' w in
      fired ++ polls_with_appends f later dir' w'
  end.

End LinearCSVFolderWatcher.

(** ** pandas timestamps *)

Module Pandas.

(** A UTC instant: [Timestamp.value], nanoseconds since the epoch. *)
Definition Timestamp : Type := Z.

Definition NS_PER_SEC : Z := 1000000000.

(** [Timestamp.min.value] and [Timestamp.max.value] *)
Definition min_value : Z := -9223372036854775807.
Definition max_value : Z := 9223372036854775807.

(** Proleptic Gregorian calendar: day number since 1970-01-01 to
    (year, month, day) and back. *)
Definition civil_from_days (days : Z) : Z * Z * Z :=
  let z := days + 719468 in
  let era := z / 146097 in
  let doe := z - era * 146097 in
  let yoe := (doe - doe / 1460 + doe / 36524 - doe / 146096) / 365 in
  let doy := doe - (365 * yoe + yoe / 4 - yoe / 100) in
  let mp := (5 * doy + 2) / 153 in
  let d := doy - (153 * mp + 2) / 5 + 1 in
  let m := if mp <? 10 then mp + 3 else mp - 9 in
  let y := yoe + era * 400 in
  (if m <=? 2 then y + 1 else y, m, d).

Definition days_from_civil (y m d : Z) : Z :=
  let y := if m <=? 2 then y - 1 else y in
  let era := y / 400 in
  let yoe := y - era * 400 in
  let doy := (153 * (if 2 <? m then m - 3 else m + 9) + 2) / 5 + d - 1 in
  let doe := yoe * 365 + yoe / 4 - yoe / 100 + doy in
  era * 146097 + doe - 719468.

Definition is_leap (y : Z) : bool :=
  (y mod 4 =? 0) && (negb (y mod 100 =? 0) || (y mod 400 =? 0)).

Definition days_in_month (y m : Z) : Z :=
  if m =? 2 then (if is_leap y then 29 else 28)
  else if (m =? 4) || (m =? 6) || (m =? 9) || (m =? 11) then 30
  else 31.

(** The broken-down UTC time of a timestamp; sub-second digits are not part
    of it. *)
Record Civil := mkCivil {
  year : Z; month : Z; day : Z; hour : Z; minute : Z; second : Z
}.

Definition to_civil (ts : Timestamp) : Civil :=
  let secs := ts / NS_PER_SEC in
  let days := secs / 86400 in
  let sod := secs mod 86400 in
  let '(y, m, d) := civil_from_days days in
  {| year := y; month := m; day := d;
     hour := sod / 3600; minute := sod mod 3600 / 60; second := sod mod 60 |}.

Definition digit (n : Z) : ascii := ascii_of_nat (48 + Z.to_nat (n mod 10)).

Definition digits2 (n : Z) : text := [digit (n / 10); digit n].

Definition digits4 (n : Z) : text :=
  [digit (n / 1000); digit (n / 100); digit (n / 10); digit n].

(** ["%Y-%m-%d"] (years of four digits, as all pandas timestamps have) *)
Definition strftime_date (c : Civil) : text :=
  digits4 (year c) ++ txt "-" ++ digits2 (month c) ++ txt "-"
  ++ digits2 (day c).

(** [ts.strftime("%Y-%m-%dT%H:%M:%S%z")] of a UTC timestamp *)
Definition strftime_iso (ts : Timestamp) : text :=
  let c := to_civil ts in
  strftime_date c ++ txt "T" ++ digits2 (hour c) ++ txt ":"
  ++ digits2 (minute c) ++ txt ":" ++ digits2 (second c) ++ txt "+0000".

(** [str(ts.date())] *)
Definition date_str (ts : Timestamp) : text := strftime_date (to_civil ts).

(** *** [pd.to_datetime(s, utc=True, errors="raise")] on one string

    The model reads the two encodings the code documents,
    [YYYY-MM-DDTHH:MM:SS+HH:MM] and the same with a space, with an
    optional fraction of a second; any other text is a parse error
    ([None]), as is a value outside the nanosecond range. *)

Definition digit_val (c : ascii) : option Z :=
  if is_digit c then Some (Z.of_nat (nat_of_ascii c) - 48) else None.

Fixpoint number_from (acc : Z) (ds : text) : option Z :=
  match ds with
  | [] => Some acc
  | c :: rest =>
      match digit_val c with
      | Some v => number_from (10 * acc + v) rest
      | None => None
      end
  end.

Definition number (ds : text) : option Z := number_from 0 ds.

(** ["+HH:MM"] or ["-HH:MM"], to the end of the string: seconds east of UTC *)
Definition parse_offset (s : text) : option Z :=
  match s with
  | [sg; h1; h2; col; m1; m2] =>
      if (is_char sg "+" || is_char sg "-") && is_char col ":" then
        match number [h1; h2], number [m1; m2] with
        | Some h, Some m =>
            if (h <? 24) && (m <? 60) then
              Some ((if is_char sg "-" then -1 else 1) * (h * 3600 + m * 60))
            else None
        | _, _ => None
        end
      else None
  | _ => None
  end.

(** The digits after the decimal point, as nanoseconds, and what follows. *)
Fixpoint parse_fraction (scale : Z) (fuel : nat) (s : text) : Z * text :=
  match fuel, s with
  | S fuel', c :: rest =>
      match digit_val c with
      | Some v =>
          let '(ns, tl) := parse_fraction (scale / 10) fuel' rest in
          (v * scale + ns, tl)
      | None => (0, s)
      end
  | _, _ => (0, s)
  end.

Definition parse_seconds_tail (s : text) : option (Z * Z) :=
  match s with
  | c :: rest =>
      if is_char c "." then
        match rest with
        | d :: _ =>
            if is_digit d then
              let '(ns, tl) := parse_fraction 100000000 9 rest in
              match parse_offset tl with
              | Some off => Some (ns, off)
              | None => None
              end
            else None
        | [] => None
        end
      else
        match parse_offset s with
        | Some off => Some (0, off)
        | None => None
        end
  | [] => None
  end.

(** The date and time fields, read as digits, and what follows them. *)
Definition parse_civil (s : text) : option (Civil * text) :=
  match s with
  | y1 :: y2 :: y3 :: y4 :: c1 :: m1 :: m2 :: c2 :: d1 :: d2 :: sep
    :: h1 :: h2 :: c3 :: i1 :: i2 :: c4 :: s1 :: s2 :: tail =>
      if is_char c1 "-" && is_char c2 "-"
         && (is_char sep "T" || is_char sep " ")
         && is_char c3 ":" && is_char c4 ":" then
        match number [y1; y2; y3; y4], number [m1; m2], number [d1; d2],
              number [h1; h2], number [i1; i2], number [s1; s2] with
        | Some y, Some m, Some d, Some h, Some mi, Some sec =>
            Some ({| year := y; month := m; day := d;
                     hour := h; minute := mi; second := sec |}, tail)
        | _, _, _, _, _, _ => None
        end
      else None
  | _ => None
  end.

Definition valid_civil (c : Civil) : bool :=
  (1 <=? month c) && (month c <=? 12) && (1 <=? day c)
  && (day c <=? days_in_month (year c) (month c))
  && (hour c <? 24) && (minute c <? 60) && (second c <? 60).

Definition seconds_of_civil (c : Civil) : Z :=
  days_from_civil (year c) (month c) (day c) * 86400
  + hour c * 3600 + minute c * 60 + second c.

Definition to_datetime (s : text) : option Timestamp :=
  match parse_civil s with
  | Some (c, tail) =>
      match parse_seconds_tail tail with
      | Some (ns, off) =>
          if valid_civil c then
            let value := (seconds_of_civil c - off) * NS_PER_SEC + ns in
            if (min_value <=? value) && (value <=? max_value)
            then Some value else None
          else None
      | None => None
      end
  | None => None
  end.

End Pandas.
Import Pandas.

(** ** trader.py *)

Module RealTimeTrader.
Import LinearCSVFolderWatcher.

Inductive Error :=
  | FileNotFoundError
  | MissingTimeColumns      (* the [ValueError] raised by the loader *)
  | DateParseError          (* [pd.to_datetime(..., errors="raise")] *)
  | NoObjectsToConcatenate  (* [pd.concat] of no frame *)
  | WindowTooShort          (* the [ValueError] of [Strategy.per_step] *)
  | IndexError.

Inductive Outcome (A : Type) :=
  | Return (a : A)
  | Raise (e : Error).
Arguments Return {A} a.
Arguments Raise {A} e.

(** *** Data model *)

(** A row as [pd.read_csv] returns it: the two time cells as text, and the
    other cells.  In a frame without the time columns the two time cells
    are never read. *)
Record Row := mkRow {
  r_open_time : text;
  r_close_time : text;
  r_values : list text
}.

(** What [pd.read_csv(path)] does on a file: it raises, or returns a frame
    (with or without the two time columns). *)
Inductive CsvRead :=
  | ReadError
  | DataFrame (has_time_columns : bool) (rows : list Row).

Record Bar := mkBar {
  open_time : Timestamp;
  close_time : Timestamp;
  values : list text
}.

Inductive Signal := SELL | HOLD | BUY.

Definition signal_text (s : Signal) : text :=
  match s with
  | SELL => txt "SELL"
  | HOLD => txt "HOLD"
  | BUY => txt "BUY"
  end.

Definition HEADER : text := txt "open_time,close_time,signal" ++ [LF].

Definition _format_ts_iso_t (ts : Timestamp) : text :=
  let s := strftime_iso ts in
  let n := length s in
  if (5 <=? n)%nat
     && match nth_error s (n - 5) with
        | Some c => is_char c "+" || is_char c "-"
        | None => false
        end
     && isdigit (lastn 2 s)
  then firstn (n - 2) s ++ txt ":" ++ lastn 2 s
  else s.

(** *** Data loading *)

Fixpoint insert_by_open_time (b : Bar) (l : list Bar) : list Bar :=
  match l with
  | [] => [b]
  | x :: xs =>
      if open_time b <=? open_time x then b :: l
      else x :: insert_by_open_time b xs
  end.

(** [df.sort_values("open_time", kind="mergesort")]: a stable sort. *)
Definition sort_values (l : list Bar) : list Bar :=
  foldr insert_by_open_time [] l.

(** [df.tail(k)] *)
Definition tail (k : Z) (l : list Bar) : list Bar :=
  if 0 <=? k then lastn (Z.to_nat k) l else skipn (Z.to_nat (- k)) l.

(** The two [pd.to_datetime] calls on the time columns: every cell has to
    parse.  The cells are the texts of the file: a cell left empty, which
    pandas reads as a missing value and keeps as [NaT], is outside the
    model, as is a text in an encoding [to_datetime] does not read. *)
Fixpoint to_datetime_rows (rows : list Row) : option (list Bar) :=
  match rows with
  | [] => Some []
  | r :: rest =>
      match to_datetime (r_open_time r), to_datetime (r_close_time r),
            to_datetime_rows rest with
      | Some o, Some c, Some bars =>
          Some ({| open_time := o; close_time := c; values := r_values r |}
                :: bars)
      | _, _, _ => None
      end
  end.

(** How the loop over the files ends. *)
Inductive Scan :=
  | ScanEnd (chunks : list (list Bar)) (rows : Z)
  | ScanNone
  | ScanRaise (e : Error).

(** The loop [for path in reversed(csvs)], from the state [(chunks, rows)]. *)
Fixpoint scan (n : Z) (files : Dir CsvRead) (chunks : list (list Bar))
    (rows : Z) : Scan :=
  match files with
  | [] => ScanEnd chunks rows
  | (_, ReadError) :: _ => ScanNone
  | (_, DataFrame _ []) :: older => scan n older chunks rows
  | (_, DataFrame false (_ :: _)) :: _ => ScanRaise MissingTimeColumns
  | (_, DataFrame true df) :: older =>
      match to_datetime_rows df with
      | None => ScanRaise DateParseError
      | Some bars =>
          let df := sort_values bars in
          let need := n - rows in
          if need <=? 0 then ScanEnd chunks rows
          else
            let tl := tail need df in
            let chunks := chunks ++ [tl] in
            let rows := rows + Z.of_nat (length tl) in
            if n <=? rows then ScanEnd chunks rows
            else scan n older chunks rows
      end
  end.

Definition _load_latest_window (data_dir : Dir CsvRead) (n : Z)
  : Outcome (option (list Bar)) :=
  let csvs := sorted (glob_csv data_dir) in
  match csvs with
  | [] => Return None
  | _ :: _ =>
      match scan n (rev csvs) [] 0 with
      | ScanNone => Return None
      | ScanRaise e => Raise e
      | ScanEnd chunks rows =>
          if rows <? n then Return None
          else
            match rev chunks with
            | [] => Raise NoObjectsToConcatenate
            | cs => Return (Some (tail n (sort_values (concat cs))))
            end
      end
  end.

(** *** Signal persistence *)

(** The writer's part of the trader's state, and the files of the signal
    directory. *)
Record Writer := mkWriter {
  _last_written : option (Timestamp * Timestamp);
  signal_files : gmap string text
}.

(** The body of the loop over the tail lines: does this line hold the key? *)
Definition row_matches (open_s close_s ln : text) : bool :=
  if startswith (lower ln) (txt "open_time,") then false
  else
    let parts := split_comma ln in
    if (length parts <? 3)%nat then false
    else
      match to_datetime (nth 0 parts []), to_datetime (nth 1 parts []) with
      | Some existing_open, Some existing_close =>
          bool_decide (_format_ts_iso_t existing_open = open_s)
          && bool_decide (_format_ts_iso_t existing_close = close_s)
      | _, _ => false
      end.

Definition _row_already_written (out_file : option text)
    (open_time close_time : Timestamp) : bool :=
  match out_file with
  | None => false
  | Some bytes =>
      let lines := stripped_lines (universal_newlines bytes) in
      if (length lines <=? 1)%nat then false
      else
        let tl := lastn 200 lines in
        let open_s := _format_ts_iso_t open_time in
        let close_s := _format_ts_iso_t close_time in
        existsb (row_matches open_s close_s) tl
  end.

(** [f"{day}.csv"] *)
Definition out_path (open_time : Timestamp) : string :=
  string_of_list_ascii (date_str open_time ++ txt ".csv").

Definition signal_row (open_time close_time : Timestamp) (signal : Signal)
  : text :=
  _format_ts_iso_t open_time ++ txt "," ++ _format_ts_iso_t close_time
  ++ txt "," ++ signal_text signal ++ [LF].

Definition _append_signal_row (open_time close_time : Timestamp)
    (signal : Signal) (w : Writer) : Writer :=
  let key := (open_time, close_time) in
  if bool_decide (_last_written w = Some key) then w
  else
    let p := out_path open_time in
    let files :=
      match signal_files w !! p with
      | None => <[p := HEADER]> (signal_files w)
      | Some _ => signal_files w
      end in
    if _row_already_written (files !! p) open_time close_time then
      {| _last_written := Some key; signal_files := files |}
    else
      {| _last_written := Some key;
         signal_files :=
           alter (fun old => old ++ signal_row open_time close_time signal)
                 p files |}.

(** *** The watcher callback and the polling loop *)

Section Driver.

(** The strategy's random generator is opaque: a state and its draw. *)
Variable RNG : Type.
Variable rng_choice : RNG -> Signal * RNG.

Record Trader := mkTrader {
  window_len : Z;
  strategy_rng : RNG;
  writer : Writer
}.

(** [Strategy.per_step] *)
Definition per_step (num_past_timesteps : Z) (window : list Bar) (rng : RNG)
  : Outcome (Signal * RNG) :=
  if Z.of_nat (length window) <? num_past_timesteps then Raise WindowTooShort
  else Return (rng_choice rng).

Definition on_new_data (data_dir : Dir CsvRead) (filename : string)
    (line : text) (t : Trader) : Outcome Trader :=
  match _load_latest_window data_dir (window_len t) with
  | Raise e => Raise e
  | Return None => Return t
  | Return (Some window) =>
      if Z.of_nat (length window) <? window_len t then Return t
      else
        match per_step (window_len t) window (strategy_rng t) with
        | Raise e => Raise e
        | Return (signal, rng) =>
            match last window with
            | None => Raise IndexError
            | Some l =>
                Return {| window_len := window_len t;
                          strategy_rng := rng;
                          writer := _append_signal_row (open_time l)
                                      (close_time l) signal (writer t) |}
            end
        end
  end.

(** The watched folder at one poll: the bytes the watcher reads and what
    [pd.read_csv] returns on the same files. *)
Record Snapshot := mkSnapshot {
  raw : Dir text;
  frames : Dir CsvRead
}.

(** The calls of one poll, inline: a raising call ends the loop. *)
Fixpoint deliver (data_dir : Dir CsvRead) (fired : list Event) (t : Trader)
  : Outcome Trader :=
  match fired with
  | [] => Return t
  | (filename, line) :: later =>
      match on_new_data data_dir filename line t with
      | Raise e => Raise e
      | Return t' => deliver data_dir later t'
      end
  end.

(** Where the process is after some polls. *)
Inductive Run :=
  | StillPolling (w : Watcher) (t : Trader)
  | Died (e : Error).

(** [RealTimeTrader.start]: [watcher.start()] with the callback wired in;
    [None] is a folder that does not exist. *)
Fixpoint start (snapshots : list (option Snapshot)) (w : Watcher)
    (t : Trader) : Run :=
  match snapshots with
  | [] => StillPolling w t
  | folder :: later =>
      let '(w', fired) := _poll_once (listdir (option_map raw folder)) w in
      match deliver (listdir (option_map frames folder)) fired t with
      | Raise e => Died e
      | Return t' => start later w' t'
      end
  end.

End Driver.

Arguments mkTrader {RNG} _ _ _.
Arguments window_len {RNG} _.
Arguments strategy_rng {RNG} _.
Arguments writer {RNG} _.
Arguments per_step {RNG} _ _ _ _.
Arguments on_new_data {RNG} _ _ _ _ _.
Arguments deliver {RNG} _ _ _ _.
Arguments StillPolling {RNG} _ _.
Arguments Died {RNG} _.
Arguments start {RNG} _ _ _ _.

End RealTimeTrader.

(** ** main.py and the directory check of backtester.py *)

Module Main.
Import LinearCSVFolderWatcher RealTimeTrader.

(** [Backtester._load_ohlcv], up to the listing of the files. *)
Definition Backtester_list_csvs (data_dir : option (Dir CsvRead))
  : Outcome (Dir CsvRead) :=
  match data_dir with
  | None => Raise FileNotFoundError
  | Some d => Return (sorted (glob_csv d))
  end.

(** [main] with [--work_mode realtime]: the trader is built and started. *)
Definition main_realtime {RNG} (rng_choice : RNG -> Signal * RNG)
    (num_past_timesteps : Z) (seed : RNG)
    (signals : gmap string text) (snapshots : list (option (Snapshot)))
  : Run RNG :=
  start rng_choice snapshots init
    {| window_len := num_past_timesteps;
       strategy_rng := seed;
       writer := {| _last_written := None; signal_files := signals |} |}.

End Main.

(** ** backtester.py *)

Module Backtester.
Import RealTimeTrader.

(** [range(start, stop)] *)
Definition range (start stop : Z) : list Z :=
  map (fun i => start + Z.of_nat i) (seq 0 (Z.to_nat (stop - start))).

(** A bound of a slice, as Python reads it on [n] items. *)
Definition slice_bound (n i : Z) : Z :=
  if i <? 0 then Z.max 0 (i + n) else Z.min i n.

(** [df.iloc[a:b]] *)
Definition iloc_slice (a b : Z) (df : list Bar) : list Bar :=
  let n := Z.of_nat (length df) in
  let lo := slice_bound n a in
  let hi := slice_bound n b in
  firstn (Z.to_nat (hi - lo)) (skipn (Z.to_nat lo) df).

(** [df.iloc[t - window_len + 1 : t + 1]] *)
Definition window_at (window_len t : Z) (df : list Bar) : list Bar :=
  iloc_slice (t - window_len + 1) (t + 1) df.

(** [signals[t] = v] on the numpy array *)
Definition setitem (t : Z) (v : Signal) (signals : list (option Signal))
  : Outcome (list (option Signal)) :=
  let n := Z.of_nat (length signals) in
  if (t <? - n) || (n <=? t) then Raise IndexError
  else Return (<[Z.to_nat (if t <? 0 then t + n else t) := Some v]> signals).

Section Run.

Variable RNG : Type.
Variable rng_choice : RNG -> Signal * RNG.

(** The body of the loop [for t in range(start, n)]. *)
Definition loop_body (window_len : Z) (df : list Bar)
    (acc : Outcome (list (option Signal) * RNG)) (t : Z)
  : Outcome (list (option Signal) * RNG) :=
  match acc with
  | Raise e => Raise e
  | Return (signals, rng) =>
      match per_step rng_choice window_len (window_at window_len t df) rng with
      | Raise e => Raise e
      | Return (signal, rng') =>
          match setitem t signal signals with
          | Raise e => Raise e
          | Return signals' => Return (signals', rng')
          end
      end
  end.

(** [run], from the loaded frame [df] to the [signals] column (the files
    it then writes are not part of the model); an empty frame is returned
    as it is. *)
Definition run (window_len : Z) (df : list Bar) (rng : RNG)
  : Outcome (list (option Signal) * RNG) :=
  match df with
  | [] => Return ([], rng)
  | _ :: _ =>
      let n := Z.of_nat (length df) in
      let signals := repeat None (length df) in
      let start := window_len - 1 in
      fold_left (loop_body window_len df) (range start n)
                (Return (signals, rng))
  end.

End Run.

Arguments loop_body {RNG} _ _ _ _ _.
Arguments run {RNG} _ _ _ _.

End Backtester.

(** ** Vocabulary of the statements *)

Module Scenario.
Import LinearCSVFolderWatcher RealTimeTrader.

(** A line as a producer writes it: ASCII, without a line boundary inside. *)
Definition clean_line (l : text) : bool :=
  forallb (fun c => is_ascii7 c && negb (is_linebreak c)) l.

(** What the loop of [_read_appends] lets through. *)
Definition deliverable (line : text) : bool :=
  negb (negb (nonempty line) || _is_header line).

(** A written line that is delivered: clean, and neither blank nor a header
    once stripped. *)
Definition data_line (l : Line) : Prop :=
  clean_line (fst l) = true /\ deliverable (strip (fst l)) = true.

(** The state the appends are observed from: the watcher is bootstrapped,
    every listed file is known, [f] is the active file and its offset is its
    size. *)
Definition tracking (f : string) (dir : Dir text) (w : Watcher) : Prop :=
  _bootstrapped w = true
  /\ Forall (fun e => fst e ∈ _known_files w) (sorted (glob_csv dir))
  /\ exists c, last (sorted (glob_csv dir)) = Some (f, c)
             /\ _offsets w !! f = Some (length c).

(** The delivery the specification words: every appended line, raw. *)
Definition delivered_raw (f : string) (batches : list (list Line))
  : list Event :=
  map (fun l => (f, fst l)) (concat batches).

(** A line of the specification's wording: not empty, not a header. *)
Definition spec_line (l : Line) : Prop :=
  clean_line (fst l) = true /\ fst l <> [] /\ _is_header (fst l) = false.

(** The call made for a new file: its first data line, if it has one. *)
Definition first_row_call (p : string) (content : text) : list Event :=
  match data_lines (universal_newlines content) with
  | first :: _ => [(p, first)]
  | [] => []
  end.

(** A call that carries no content present at start: when its file was in
    the directory [d0] at start with content [c0], its line was read from
    the bytes of the file after the first [length c0] ones. *)
Definition fresh_content (d0 dir : Dir text) (ev : Event) : Prop :=
  forall c0, In (fst ev, c0) d0 ->
    exists c off,
      In (fst ev, c) dir /\ (length c0 <= off)%nat
      /\ In (snd ev) (appended_lines (universal_newlines (skipn off c))).

(** What the watcher holds on the files that were there at start. *)
Definition baseline (d0 : Dir text) (w : Watcher) : Prop :=
  forall name c0, In (name, c0) (glob_csv d0) ->
    _bootstrapped w = true /\ name ∈ _known_files w
    /\ exists off, _offsets w !! name = Some off /\ (length c0 <= off)%nat.

(** *** Timestamps *)

(** The timestamps whose second is representable: from
    1677-09-21T00:12:44 to [Timestamp.max]. *)
Definition in_range (ts : Timestamp) : Prop :=
  -9223372036 * NS_PER_SEC <= ts <= max_value.

Definition floor_second (ts : Timestamp) : Timestamp :=
  ts / NS_PER_SEC * NS_PER_SEC.

Definition whole_second (ts : Timestamp) : Prop := ts mod NS_PER_SEC = 0.

(** The second encoding: the ['T'] replaced by a space. *)
Definition space_encoding (s : text) : text :=
  firstn 10 s ++ " "%char :: skipn 11 s.

(** The calendar check of one day number, and of a run of them. *)
Definition civil_day_ok (d : Z) : bool :=
  let '(y, m, dd) := civil_from_days d in
  (1000 <=? y) && (y <=? 9999) && (1 <=? m) && (m <=? 12) && (1 <=? dd)
  && (dd <=? days_in_month y m) && (days_from_civil y m dd =? d).

Fixpoint all_days_ok (lo : Z) (n : nat) : bool :=
  match n with
  | O => true
  | S k => civil_day_ok lo && all_days_ok (lo + 1) k
  end.

(** The characters of a formatted timestamp. *)
Definition plain_char (c : ascii) : bool :=
  is_ascii7 c && negb (is_space c) && negb (is_linebreak c)
  && negb (is_char c ",").

Definition no_comma (c : ascii) : bool := negb (is_char c ",").

(** The written row without its line end, and the same row with the
    timestamps in the space encoding. *)
Definition signal_line (o c : Timestamp) (sig : Signal) : text :=
  _format_ts_iso_t o ++ txt "," ++ _format_ts_iso_t c ++ txt ","
  ++ signal_text sig.

Definition space_line (o c : Timestamp) (sig : Signal) : text :=
  space_encoding (_format_ts_iso_t o) ++ txt ","
  ++ space_encoding (_format_ts_iso_t c) ++ txt "," ++ signal_text sig.

(** The data rows of a signal file that hold the key, as the scan of
    [_row_already_written] reads them. *)
Definition key_rows (o c : Timestamp) (content : text) : list text :=
  List.filter (row_matches (_format_ts_iso_t o) (_format_ts_iso_t c))
              (stripped_lines (universal_newlines content)).

(** A destination file the writer can find: none, or a file that ends
    with a line end, has a line (its header) and does not hold the key. *)
Definition signal_file_ok (o c : Timestamp) (f : option text) : Prop :=
  match f with
  | None => True
  | Some content =>
      (exists body, content = body ++ [LF])
      /\ stripped_lines (universal_newlines content) <> []
      /\ key_rows o c content = []
  end.

(** The two timestamps read back from a row. *)
Definition reparse (ln : text) : option (Timestamp * Timestamp) :=
  let parts := split_comma ln in
  match to_datetime (nth 0 parts []), to_datetime (nth 1 parts []) with
  | Some o, Some c => Some (o, c)
  | _, _ => None
  end.

(** Example data: 2025-01-01T00:00:00Z, one hour later, and half a second
    after the first. *)
Definition t0 : Timestamp := 1735689600000000000.
Definition t1 : Timestamp := 1735693200000000000.
Definition t0_half : Timestamp := 1735689600500000000.
Definition fresh_writer : Writer :=
  {| _last_written := None; signal_files := ∅ |}.

(** Example data: a bar file as the producer leaves it. *)
Definition bar_header : text :=
  txt "open_time,close_time,open,high,low,close,volume".

Definition day1 : string := "2025-01-01.csv".
Definition day2 : string := "2025-01-02.csv".

Definition dir_day1 : Dir text :=
  [(day1, bar_header ++ [CR; LF] ++ txt "r0,1" ++ [CR; LF])].

Definition dir_day2 : Dir text :=
  (day2, bar_header ++ [CR; LF] ++ txt "r5,1" ++ [CR; LF]
         ++ txt "r6,2" ++ [CR; LF] ++ txt "r7,3" ++ [CR; LF]) :: dir_day1.

Definition padded_batches : list (list Line) :=
  [[(txt " r1,2", true)]; [(txt "  ", true)]].

Definition plain_batches : list (list Line) :=
  [[(txt "r1,2", true); (txt "r2,3", false)]; []; [(txt "r3,4", true)]].

(** *** Bar files

    The bars a file holds: none for a file that cannot be read or that
    lacks the time columns. *)
Definition file_bars (f : CsvRead) : option (list Bar) :=
  match f with
  | ReadError => None
  | DataFrame _ [] => Some []
  | DataFrame false (_ :: _) => None
  | DataFrame true rows => to_datetime_rows rows
  end.

(** The rows of a file, and of a listing. *)
Definition bar_count (f : CsvRead) : Z :=
  match f with
  | ReadError => 0
  | DataFrame _ rows => Z.of_nat (length rows)
  end.

Fixpoint total_bars (files : Dir CsvRead) : Z :=
  match files with
  | [] => 0
  | f :: rest => bar_count (snd f) + total_bars rest
  end.

(** A bar file: one that cannot be read yet, or one that holds bars. *)
Definition bar_file (f : CsvRead) : Prop :=
  f = ReadError \/ is_Some (file_bars f).

(** Non-decreasing [open_time]. *)
Fixpoint ascending (l : list Bar) : Prop :=
  match l with
  | [] => True
  | a :: rest =>
      match rest with
      | [] => True
      | b :: _ => open_time a <= open_time b
      end /\ ascending rest
  end.

(** The bars of the files of a listing, file by file. *)
Fixpoint files_bars (files : Dir CsvRead) : option (list (list Bar)) :=
  match files with
  | [] => Some []
  | f :: rest =>
      match file_bars (snd f), files_bars rest with
      | Some b, Some bs => Some (b :: bs)
      | _, _ => None
      end
  end.

(** Example data: three days of bars, a file with a malformed row, a file
    without the time columns, and a file that cannot be read yet. *)
Definition bar_row (o c : string) : Row :=
  {| r_open_time := txt o; r_close_time := txt c; r_values := [] |}.

Definition bars_day1 : CsvRead :=
  DataFrame true
    [bar_row "2025-01-01T22:00:00+00:00" "2025-01-01T23:00:00+00:00";
     bar_row "2025-01-01 23:00:00+00:00" "2025-01-02 00:00:00+00:00"].

Definition bars_day2 : CsvRead :=
  DataFrame true
    [bar_row "2025-01-02T00:00:00+00:00" "2025-01-02T01:00:00+00:00";
     bar_row "2025-01-02T01:00:00+00:00" "2025-01-02T02:00:00+00:00"].

Definition day3 : string := "2025-01-03.csv".

Definition bars_day3 : CsvRead :=
  DataFrame true
    [bar_row "2025-01-03T00:00:00+00:00" "2025-01-03T01:00:00+00:00"].

Definition three_days : Dir CsvRead :=
  [(day2, bars_day2); (day3, bars_day3); (day1, bars_day1)].

Definition bar (o c : Z) : Bar :=
  {| open_time := o; close_time := c; values := [] |}.

Definition three_days_bars : list (list Bar) :=
  [[bar 1735768800000000000 1735772400000000000;
    bar 1735772400000000000 1735776000000000000];
   [bar 1735776000000000000 1735779600000000000;
    bar 1735779600000000000 1735783200000000000];
   [bar 1735862400000000000 1735866000000000000]].

(** A strategy that always holds, for the examples. *)
Definition hold_always (rng : unit) : Signal * unit := (HOLD, tt).

Definition trader_of (n : Z) : Trader unit :=
  {| window_len := n; strategy_rng := tt; writer := fresh_writer |}.

Definition malformed_day : Dir CsvRead :=
  [(day1, DataFrame true
            [bar_row "2025-01-01T22:00:00+00:00" "2025-01-01T23:00:00+00:00";
             bar_row "not-a-time" "2025-01-02T00:00:00+00:00"])].

Definition no_time_columns_day : Dir CsvRead :=
  [(day1, DataFrame false
            [bar_row "2025-01-01T22:00:00+00:00"
                     "2025-01-01T23:00:00+00:00"])].

Definition mid_write_days : Dir CsvRead :=
  [(day2, ReadError); (day1, bars_day1)].

(** *** Vocabulary for the file check and the row read back *)

(** A line of a signal file that the scan of [_row_already_written] reads
    as the model does: a header, a line of fewer than three fields, or a
    row whose two timestamps are in the encodings of [to_datetime]. *)
Definition supported_row (ln : text) : bool :=
  startswith (lower ln) (txt "open_time,")
  || (length (split_comma ln) <? 3)%nat
  || match to_datetime (nth 0 (split_comma ln) []),
           to_datetime (nth 1 (split_comma ln) []) with
     | Some _, Some _ => true
     | _, _ => false
     end.

Definition supported_rows (f : option text) : Prop :=
  match f with
  | None => True
  | Some content =>
      forallb supported_row (stripped_lines (universal_newlines content))
      = true
  end.

(** The row read back and normalized, as the scan does it: the two
    timestamps parsed, then formatted again. *)
Definition normalized (ln : text) : option (text * text) :=
  match reparse ln with
  | Some (existing_open, existing_close) =>
      Some (_format_ts_iso_t existing_open, _format_ts_iso_t existing_close)
  | None => None
  end.

(** A destination file that exists with no byte in it. *)
Definition empty_file_writer : Writer :=
  {| _last_written := None; signal_files := {[ out_path t0 := [] ]} |}.

End Scenario.
Import Scenario.

(** ** Vocabulary of the further properties *)

Module Behaviour.
Import LinearCSVFolderWatcher RealTimeTrader.

(** The file named [f] is rewritten with [content]. *)
Definition set_content (f : string) (content : text) (dir : Dir text)
  : Dir text :=
  map (fun e => if String.eqb (fst e) f then (fst e, content) else e) dir.

(** A line without whitespace at either end. *)
Definition trimmed (s : text) : Prop :=
  match s with [] => True | a :: _ => is_space a = false end
  /\ match rev s with [] => True | z :: _ => is_space z = false end.

(** Rows as the writer leaves them, one after the other. *)
Definition written_rows (rows : list (Timestamp * Timestamp * Signal))
  : text :=
  concat (map (fun r => signal_row (fst (fst r)) (snd (fst r)) (snd r)) rows).

(** A row of another key: its timestamps are in range and differ from the
    key to the second. *)
Definition other_key (o c : Timestamp) (r : Timestamp * Timestamp * Signal)
  : Prop :=
  in_range (fst (fst r)) /\ in_range (snd (fst r))
  /\ (floor_second (fst (fst r)) <> floor_second o
      \/ floor_second (snd (fst r)) <> floor_second c).

(** A bar of one of the listed files. *)
Definition bar_of (files : Dir CsvRead) (b : Bar) : Prop :=
  exists f bars, In f files /\ file_bars (snd f) = Some bars /\ In b bars.

(** The errors a load can end with. *)
Definition load_error (n : Z) (e : Error) : Prop :=
  e = MissingTimeColumns \/ e = DateParseError
  \/ (e = NoObjectsToConcatenate /\ n <= 0).

(** A folder the trader only waits on: missing, or with readable files
    that hold fewer than [n] bars. *)
Definition short_of_bars (n : Z) (folder : option Snapshot) : Prop :=
  match folder with
  | None => True
  | Some s =>
      Forall (fun f => bar_file (snd f)) (sorted (glob_csv (frames s)))
      /\ total_bars (sorted (glob_csv (frames s))) < n
  end.

(** [k] draws of the strategy's generator, in order. *)
Fixpoint draws {RNG : Type} (rng_choice : RNG -> Signal * RNG) (k : nat)
    (rng : RNG) : list Signal * RNG :=
  match k with
  | O => ([], rng)
  | S k' =>
      let '(s, rng1) := rng_choice rng in
      let '(rest, rng2) := draws rng_choice k' rng1 in
      (s :: rest, rng2)
  end.

End Behaviour.
Import Behaviour.

(** * Properties *)

(** ** Facts on the string operations *)

Module PyStrFacts.

Lemma linebreak_not_cr c : is_linebreak c = false -> is_cr c = false.
Proof.
  unfold is_cr, CR. destruct (Ascii.eqb_spec c "013"%char) as [->|]; [|done].
  discriminate.
Qed.

Lemma clean_line_cons (c : ascii) (l : text) :
  clean_line (c :: l) = true ->
  is_linebreak c = false /\ clean_line l = true.
Proof.
  unfold clean_line; simpl. rewrite !andb_true_iff, negb_true_iff. tauto.
Qed.

Lemma universal_newlines_line (l : text) (crlf : bool) (t : text) :
  clean_line l = true ->
  universal_newlines (l ++ (if crlf then [CR; LF] else [LF]) ++ t)
  = l ++ LF :: universal_newlines t.
Proof.
  induction l as [|c l IH]; intros Hl.
  - destruct crlf; reflexivity.
  - apply clean_line_cons in Hl as [Hc Hl]. simpl.
    rewrite (linebreak_not_cr _ Hc). f_equal. auto.
Qed.

Lemma splitlines_lf t : splitlines (LF :: t) = [] :: splitlines t.
Proof. destruct t; reflexivity. Qed.

Lemma splitlines_line (l t : text) :
  clean_line l = true ->
  splitlines (l ++ LF :: t) = l :: splitlines t.
Proof.
  induction l as [|c l IH]; intros Hl.
  - apply splitlines_lf.
  - apply clean_line_cons in Hl as [Hc Hl].
    change ((c :: l) ++ LF :: t) with (c :: (l ++ LF :: t)).
    cbn [splitlines]. rewrite Hc, (IH Hl). reflexivity.
Qed.

Lemma lastn_app_last {A} k (l : list A) x :
  (0 < k)%nat -> exists l', lastn k (l ++ [x]) = l' ++ [x].
Proof.
  intros Hk. unfold lastn. rewrite length_app. simpl.
  rewrite skipn_app.
  replace (length l + 1 - k - length l)%nat with 0%nat by lia.
  eexists. reflexivity.
Qed.

Lemma lastn_incl {A} k (l : list A) x : In x (lastn k l) -> In x l.
Proof.
  unfold lastn. intros H.
  rewrite <- (firstn_skipn (length l - k) l). apply in_or_app. auto.
Qed.

Lemma lastn_all {A} k (l : list A) : (length l <= k)%nat -> lastn k l = l.
Proof.
  intros H. unfold lastn. replace (length l - k)%nat with 0%nat by lia.
  reflexivity.
Qed.

Lemma lastn_length {A} k (l : list A) :
  length (lastn k l) = Nat.min k (length l).
Proof. unfold lastn. rewrite length_skipn. lia. Qed.

End PyStrFacts.
Import PyStrFacts.

(** ** The folder watcher *)

Module WatcherFacts.
Import LinearCSVFolderWatcher.

Section NamePreserving.
Context {A : Type} (g : string * A -> string * A).
Hypothesis g_name : forall e, fst (g e) = fst e.

Lemma glob_csv_map (d : Dir A) : glob_csv (map g d) = map g (glob_csv d).
Proof.
  unfold glob_csv. induction d as [|e d IH]; [done|].
  cbn [map List.filter]. rewrite g_name, IH. by destruct (endswith _ _).
Qed.

Lemma insert_by_name_map (e : string * A) (l : Dir A) :
  insert_by_name (g e) (map g l) = map g (insert_by_name e l).
Proof.
  induction l as [|x l IH]; simpl; [done|].
  rewrite !g_name. destruct (String.leb _ _); simpl; [done|].
  by rewrite IH.
Qed.

Lemma sorted_map (d : Dir A) : sorted (map g d) = map g (sorted d).
Proof.
  unfold sorted. induction d as [|e d IH]; simpl; [done|].
  by rewrite IH, insert_by_name_map.
Qed.
End NamePreserving.

Lemma listing_append_to f data (dir : Dir text) :
  sorted (glob_csv (append_to f data dir))
  = map (fun e => if String.eqb (fst e) f then (fst e, snd e ++ data) else e)
        (sorted (glob_csv dir)).
Proof.
  unfold append_to. rewrite glob_csv_map, sorted_map; [done| |];
    intros e; by destruct (String.eqb _ _).
Qed.

Lemma detect_new_files_known (l : Dir text) w :
  Forall (fun e => fst e ∈ _known_files w) l ->
  detect_new_files l w = (w, []).
Proof.
  unfold detect_new_files. induction 1 as [|e l He _ IH]; simpl; [done|].
  by rewrite decide_True.
Qed.

Lemma read_appends_grown f (c data : text) w :
  _offsets w !! f = Some (length c) ->
  exists w',
    _read_appends (f, c ++ data) w
    = (w', map (fun line => (f, line))
               (appended_lines (universal_newlines data)))
    /\ _bootstrapped w' = _bootstrapped w
    /\ _known_files w' = _known_files w
    /\ _offsets w' !! f = Some (length (c ++ data)).
Proof.
  intros Hoff. unfold _read_appends. simpl. rewrite Hoff.
  destruct data as [|a data].
  - rewrite app_nil_r. rewrite (proj2 (Nat.leb_le _ _)) by lia.
    exists w. by rewrite Hoff.
  - rewrite (proj2 (Nat.leb_gt _ _)) by (rewrite length_app; simpl; lia).
    rewrite drop_app_length. eexists. split; [reflexivity|].
    simpl. by rewrite lookup_insert_eq.
Qed.

Lemma universal_newlines_written (b : list Line) :
  Forall (fun l => clean_line (fst l) = true) b ->
  universal_newlines (write_lines b)
  = concat (map (fun l => fst l ++ [LF]) b).
Proof.
  unfold write_lines. induction 1 as [|l b Hl _ IH]; simpl; [done|].
  rewrite <- app_assoc. unfold eol at 1.
  rewrite (universal_newlines_line _ (snd l) _ Hl), IH.
  by rewrite <- app_assoc.
Qed.

Lemma splitlines_written (b : list Line) :
  Forall (fun l => clean_line (fst l) = true) b ->
  splitlines (concat (map (fun l => fst l ++ [LF]) b)) = map fst b.
Proof.
  induction 1 as [|l b Hl _ IH]; simpl; [done|].
  rewrite <- app_assoc. simpl. by rewrite (splitlines_line _ _ Hl), IH.
Qed.

Lemma appended_lines_written (b : list Line) :
  Forall data_line b ->
  appended_lines (universal_newlines (write_lines b))
  = map (fun l => strip (fst l)) b.
Proof.
  intros Hb.
  assert (Hclean : Forall (fun l => clean_line (fst l) = true) b)
    by (eapply Forall_impl; [exact Hb|]; by intros ? [? _]).
  unfold appended_lines.
  rewrite (universal_newlines_written _ Hclean), (splitlines_written _ Hclean).
  rewrite map_map. clear Hclean.
  induction Hb as [|l b [_ Hl] _ IH]; simpl; [done|].
  fold (deliverable (strip (fst l))). by rewrite Hl, IH.
Qed.

Lemma poll_after_append f (b : list Line) dir w :
  tracking f dir w ->
  exists w',
    _poll_once (append_to f (write_lines b) dir) w
    = (w', map (fun line => (f, line))
               (appended_lines (universal_newlines (write_lines b))))
    /\ tracking f (append_to f (write_lines b) dir) w'.
Proof.
  intros (Hboot & Hknown & c & Hlast & Hoff).
  unfold _poll_once. rewrite listing_append_to.
  rewrite fmap_last, Hlast. simpl. rewrite String.eqb_refl, Hboot. simpl.
  rewrite detect_new_files_known.
  2:{ apply Forall_map. eapply Forall_impl; [exact Hknown|].
      intros e He. simpl. by destruct (String.eqb _ _). }
  destruct (read_appends_grown f c (write_lines b) w Hoff)
    as (w' & -> & Hb' & Hk' & Ho').
  exists w'. split; [done|]. split; [congruence|]. split.
  - rewrite listing_append_to. apply Forall_map.
    eapply Forall_impl; [exact Hknown|].
    intros e He. simpl. rewrite Hk'. by destruct (String.eqb _ _).
  - exists (c ++ write_lines b). split; [|done].
    rewrite listing_append_to, fmap_last, Hlast. simpl.
    by rewrite String.eqb_refl.
Qed.

Lemma polls_with_appends_tracking f batches dir w :
  tracking f dir w ->
  Forall (Forall data_line) batches ->
  polls_with_appends f batches dir w
  = map (fun l => (f, strip (fst l))) (concat batches).
Proof.
  intros Htr Hall. revert dir w Htr.
  induction Hall as [|b batches Hb _ IH]; intros dir w Htr; simpl; [done|].
  destruct (poll_after_append f b dir w Htr) as (w' & -> & Htr').
  rewrite (IH _ _ Htr'), (appended_lines_written _ Hb).
  by rewrite map_app, map_map.
Qed.

Lemma bootstrap_fold_other (l : Dir text) w :
  _bootstrapped (fold_left bootstrap_step l w) = _bootstrapped w
  /\ _known_files w ⊆ _known_files (fold_left bootstrap_step l w).
Proof.
  revert w. induction l as [|e l IH]; intros w; simpl; [done|].
  destruct (IH (bootstrap_step w e)) as [-> Hsub].
  split; [done|]. etrans; [|exact Hsub]. simpl. apply union_subseteq_r.
Qed.

Lemma bootstrap_fold_known (l : Dir text) w :
  Forall (fun e => fst e ∈ _known_files (fold_left bootstrap_step l w)) l.
Proof.
  revert w. induction l as [|e l IH]; intros w; simpl; [constructor|].
  constructor; [|apply IH].
  apply (proj2 (bootstrap_fold_other l _)). simpl.
  apply elem_of_union_l. by apply elem_of_singleton.
Qed.

Lemma bootstrap_tracking f c (dir : Dir text) :
  last (sorted (glob_csv dir)) = Some (f, c) ->
  tracking f dir (fst (_poll_once dir init)).
Proof.
  intros Hlast. unfold _poll_once. rewrite Hlast. simpl.
  unfold tracking, bootstrap. simpl. split; [done|]. split.
  - apply bootstrap_fold_known.
  - exists c. split; [done|].
    apply last_Some in Hlast as [l' ->].
    rewrite fold_left_app. simpl. by rewrite lookup_insert_eq.
Qed.

(** *** New files *)

Lemma insert_by_name_perm {A} (e : string * A) (l : Dir A) :
  Permutation (insert_by_name e l) (e :: l).
Proof.
  induction l as [|x l IH]; simpl; [done|].
  destruct (String.leb _ _); [done|].
  rewrite IH. apply perm_swap.
Qed.

Lemma sorted_perm {A} (d : Dir A) : Permutation (sorted d) d.
Proof.
  unfold sorted. induction d as [|e d IH]; simpl; [done|].
  by rewrite insert_by_name_perm, IH.
Qed.

Lemma glob_csv_In {A} (d : Dir A) (e : string * A) :
  In e (glob_csv d) <-> In e d /\ endswith (txt (fst e)) (txt ".csv") = true.
Proof. unfold glob_csv. apply filter_In. Qed.

Lemma listing_In {A} (d : Dir A) (e : string * A) :
  In e (sorted (glob_csv d))
  <-> In e d /\ endswith (txt (fst e)) (txt ".csv") = true.
Proof.
  rewrite <- glob_csv_In. split; apply Permutation_in;
    [apply sorted_perm | symmetry; apply sorted_perm].
Qed.

Lemma NoDup_names_glob {A} (d : Dir A) :
  List.NoDup (names d) -> List.NoDup (names (glob_csv d)).
Proof.
  unfold names, glob_csv. induction d as [|e d IH]; simpl; [done|].
  intros Hnd. inversion Hnd as [|? ? Hnotin Hnd']; subst.
  destruct (endswith _ _); simpl; [|auto].
  constructor; [|auto]. intros Hin. apply Hnotin.
  apply in_map_iff in Hin as (x & Hx & Hin).
  apply filter_In in Hin as [Hin _]. apply in_map_iff. eauto.
Qed.

Lemma NoDup_names_listing {A} (d : Dir A) :
  List.NoDup (names d) -> List.NoDup (names (sorted (glob_csv d))).
Proof.
  intros Hnd. apply NoDup_names_glob in Hnd.
  eapply Permutation_NoDup; [|exact Hnd].
  unfold names. apply Permutation_map. symmetry. apply sorted_perm.
Qed.

Lemma NoDup_names_content {A} (d : Dir A) (p : string) (a b : A) :
  List.NoDup (names d) -> In (p, a) d -> In (p, b) d -> a = b.
Proof.
  unfold names. induction d as [|e d IH]; simpl; [done|].
  intros Hnd Ha Hb. inversion Hnd as [|? ? Hnotin Hnd']; subst.
  destruct Ha as [->|Ha], Hb as [Hb|Hb].
  - congruence.
  - exfalso. apply Hnotin. apply in_map_iff. exists (p, b). auto.
  - subst e. exfalso. apply Hnotin. apply in_map_iff. exists (p, a). auto.
  - auto.
Qed.

Lemma detect_step_known (w : Watcher) (evs : list Event) (e : string * text) :
  fst e ∈ _known_files w -> detect_step (w, evs) e = (w, evs).
Proof. intros Hk. unfold detect_step. by rewrite decide_True. Qed.

Lemma detect_step_unknown (w : Watcher) (evs : list Event)
    (e : string * text) :
  fst e ∉ _known_files w ->
  detect_step (w, evs) e
  = (set_offset (fst e) (length (snd e))
       (set_offset (fst e) 0%nat (add_known (fst e) w)),
     evs ++ first_row_call (fst e) (snd e)).
Proof. intros Hk. unfold detect_step. by rewrite decide_False. Qed.

Lemma detect_fold_spec (l : Dir text) (w : Watcher) (evs : list Event) :
  exists w' new,
    fold_left detect_step l (w, evs) = (w', evs ++ new)
    /\ _bootstrapped w' = _bootstrapped w
    /\ _known_files w ⊆ _known_files w'
    /\ (forall q, q ∈ _known_files w -> _offsets w' !! q = _offsets w !! q)
    /\ Forall (fun ev => fst ev ∉ _known_files w) new
    /\ Forall (fun ev => In (fst ev) (names l)) new.
Proof.
  revert w evs. induction l as [|e l IH]; intros w evs; cbn [fold_left].
  - exists w, []. rewrite app_nil_r. by repeat split.
  - destruct (decide (fst e ∈ _known_files w)) as [Hk|Hk].
    { rewrite detect_step_known by done.
      destruct (IH w evs) as (w' & new & Hfold & Hb & Hsub & Hoff & Hnew & Hnm).
      exists w', new. do 5 (split; [done|]).
      eapply Forall_impl; [exact Hnm|]. intros ev Hev. by right. }
    rewrite detect_step_unknown by done.
    destruct (IH (set_offset (fst e) (length (snd e))
                    (set_offset (fst e) 0%nat (add_known (fst e) w)))
                 (evs ++ first_row_call (fst e) (snd e)))
      as (w' & new & Hfold & Hb & Hsub & Hoff & Hnew & Hnm).
    exists w', (first_row_call (fst e) (snd e) ++ new).
    rewrite Hfold, <- app_assoc. split; [done|]. split; [done|].
    simpl in Hsub, Hoff, Hnew.
    assert (Hsub' : _known_files w ⊆ _known_files w').
    { etrans; [|exact Hsub]. apply union_subseteq_r. }
    split; [done|]. split; [|split].
    + intros q Hq. rewrite Hoff by (by apply elem_of_union_r).
      assert (fst e <> q) by (intros Heq; apply Hk; by rewrite Heq).
      by rewrite !lookup_insert_ne.
    + apply Forall_app. split.
      * unfold first_row_call. destruct (data_lines _); by repeat constructor.
      * eapply Forall_impl; [exact Hnew|]. intros ev Hev Hin. apply Hev.
        by apply elem_of_union_r.
    + apply Forall_app. split.
      * unfold first_row_call.
        destruct (data_lines _); repeat constructor.
      * eapply Forall_impl; [exact Hnm|]. intros ev Hev. by right.
Qed.

Lemma filter_name_none (K : gset string) (p : string) (new : list Event) :
  Forall (fun ev => fst ev ∉ K) new -> p ∈ K ->
  List.filter (fun ev => String.eqb (fst ev) p) new = [].
Proof.
  induction 1 as [|ev new Hev _ IH]; intros Hp; simpl; [done|].
  destruct (String.eqb_spec (fst ev) p) as [Heq|]; [|auto].
  by rewrite Heq in Hev.
Qed.

Lemma detect_fold_new_file (l : Dir text) (w : Watcher) (evs : list Event)
    (p : string) (content : text) :
  List.NoDup (names l) -> In (p, content) l -> p ∉ _known_files w ->
  exists w' new,
    fold_left detect_step l (w, evs) = (w', evs ++ new)
    /\ List.filter (fun ev => String.eqb (fst ev) p) new
       = first_row_call p content
    /\ _offsets w' !! p = Some (length content)
    /\ _bootstrapped w' = _bootstrapped w.
Proof.
  revert w evs. induction l as [|e l IH]; intros w evs Hnd Hin Hp; [done|].
  inversion Hnd as [|? ? Hnotin Hnd']; subst. cbn [fold_left].
  destruct (decide (fst e ∈ _known_files w)) as [Hk|Hk].
  - rewrite detect_step_known by done.
    destruct Hin as [->|Hin]; [done|]. by apply IH.
  - rewrite detect_step_unknown by done.
    set (w1 := set_offset (fst e) (length (snd e))
                 (set_offset (fst e) 0%nat (add_known (fst e) w))).
    destruct (String.eqb_spec (fst e) p) as [Heq|Hne].
    + assert (snd e = content) as Hc.
      { destruct Hin as [->|Hin]; [done|]. exfalso. apply Hnotin.
        apply in_map_iff. exists (p, content). auto. }
      destruct (detect_fold_spec l w1 (evs ++ first_row_call (fst e) (snd e)))
        as (w' & new & Hfold & Hb & Hsub & Hoff & Hnew & _).
      exists w', (first_row_call (fst e) (snd e) ++ new).
      rewrite Hfold, <- app_assoc. split; [done|].
      rewrite List.filter_app.
      rewrite (filter_name_none (_known_files w1) p new Hnew)
        by (subst w1; simpl; rewrite <- Heq; apply elem_of_union_l;
            by apply elem_of_singleton).
      rewrite app_nil_r, Heq, Hc. repeat split.
      * unfold first_row_call. destruct (data_lines _); [done|].
        simpl. by rewrite String.eqb_refl.
      * rewrite Hoff
          by (subst w1; simpl; rewrite <- Heq; apply elem_of_union_l;
              by apply elem_of_singleton).
        subst w1. simpl. rewrite <- Heq, <- Hc. apply lookup_insert_eq.
      * done.
    + destruct Hin as [->|Hin]; [done|].
      destruct (IH w1 (evs ++ first_row_call (fst e) (snd e)) Hnd' Hin)
        as (w' & new & Hfold & Hfil & Hoff & Hb).
      { subst w1. simpl. intros [H%elem_of_singleton|H]%elem_of_union;
          [by apply Hne | by apply Hp]. }
      exists w', (first_row_call (fst e) (snd e) ++ new).
      rewrite Hfold, <- app_assoc. split; [done|].
      rewrite List.filter_app, Hfil. repeat split; [|done..].
      unfold first_row_call at 1. destruct (data_lines _); [done|].
      simpl. by rewrite (proj2 (String.eqb_neq _ _) Hne).
Qed.

Lemma read_appends_spec (path : string * text) (w : Watcher) :
  exists w' evs,
    _read_appends path w = (w', evs)
    /\ _bootstrapped w' = _bootstrapped w
    /\ _known_files w' = _known_files w
    /\ (forall q, q <> fst path -> _offsets w' !! q = _offsets w !! q)
    /\ Forall (fun ev => fst ev = fst path) evs
    /\ (forall off, _offsets w !! fst path = Some off ->
          (exists off', _offsets w' !! fst path = Some off'
                        /\ (off <= off')%nat)
          /\ Forall (fun ev =>
                       In (snd ev)
                          (appended_lines
                             (universal_newlines (skipn off (snd path)))))
                    evs).
Proof.
  unfold _read_appends. destruct (_offsets w !! fst path) as [off|] eqn:Hoff.
  - destruct (Nat.leb_spec (length (snd path)) off) as [Hle|Hgt].
    + exists w, []. do 5 (split; [done|]).
      intros ? [= <-]. split; [|constructor]. eauto.
    + eexists _, _. split; [reflexivity|]. simpl.
      do 2 (split; [done|]). split; [|split].
      * intros q Hq. by rewrite lookup_insert_ne.
      * apply Forall_map. by apply Forall_forall.
      * intros ? [= <-]. split.
        -- rewrite lookup_insert_eq. eexists. split; [done|lia].
        -- apply Forall_map. apply Forall_forall. intros x Hx. simpl.
           by apply list_elem_of_In.
  - eexists _, _. split; [reflexivity|]. simpl.
    do 2 (split; [done|]). split; [|split; [constructor|done]].
    intros q Hq. by rewrite lookup_insert_ne.
Qed.

Lemma filter_name_other (p q : string) (evs : list Event) :
  q <> p -> Forall (fun ev => fst ev = q) evs ->
  List.filter (fun ev => String.eqb (fst ev) p) evs = [].
Proof.
  intros Hne. induction 1 as [|ev evs Hev _ IH]; simpl; [done|].
  rewrite Hev, (proj2 (String.eqb_neq _ _) Hne). exact IH.
Qed.

Lemma poll_new_file (dir : Dir text) (w : Watcher) (p : string)
    (content : text) :
  List.NoDup (names dir) ->
  _bootstrapped w = true ->
  In (p, content) (glob_csv dir) ->
  p ∉ _known_files w ->
  List.filter (fun ev => String.eqb (fst ev) p) (snd (_poll_once dir w))
  = first_row_call p content
  /\ _offsets (fst (_poll_once dir w)) !! p = Some (length content).
Proof.
  intros Hnd Hboot Hin Hp.
  assert (Hin' : In (p, content) (sorted (glob_csv dir))).
  { eapply Permutation_in; [symmetry; apply sorted_perm|done]. }
  pose proof (NoDup_names_listing dir Hnd) as Hnd'.
  unfold _poll_once.
  destruct (last (sorted (glob_csv dir))) as [latest|] eqn:Hlast.
  2:{ apply last_None in Hlast. by rewrite Hlast in Hin'. }
  rewrite Hboot. simpl. unfold detect_new_files.
  destruct (detect_fold_new_file _ w [] p content Hnd' Hin' Hp)
    as (w1 & new & -> & Hfil & Hoff & _).
  simpl.
  assert (Hlatest : In latest (sorted (glob_csv dir))).
  { apply last_Some in Hlast as [l' ->]. apply in_or_app. right. by left. }
  destruct (String.eqb_spec (fst latest) p) as [Heq|Hne].
  - assert (snd latest = content) as Hc.
    { eapply (NoDup_names_content _ p); [exact Hnd'| |exact Hin'].
      rewrite <- Heq. by destruct latest. }
    unfold _read_appends. rewrite Heq, Hoff, Hc, Nat.leb_refl. simpl.
    by rewrite app_nil_r.
  - destruct (read_appends_spec latest w1)
      as (w2 & evs & -> & _ & _ & Hother & Hnames & _).
    simpl. rewrite List.filter_app, Hfil.
    rewrite (filter_name_other p (fst latest) evs Hne Hnames), app_nil_r.
    split; [done|]. rewrite Hother; [done|]. by intros ->.
Qed.

(** *** Bootstrap *)

Lemma bootstrap_fold_offsets_other (l : Dir text) (w : Watcher) (q : string) :
  ~ In q (names l) ->
  _offsets (fold_left bootstrap_step l w) !! q = _offsets w !! q.
Proof.
  revert w. induction l as [|e l IH]; intros w Hq; simpl; [done|].
  rewrite IH by (intros H; apply Hq; by right).
  simpl. apply lookup_insert_ne. intros Heq. apply Hq. by left.
Qed.

Lemma bootstrap_fold_offsets (l : Dir text) (w : Watcher) (name : string)
    (c0 : text) :
  List.NoDup (names l) -> In (name, c0) l ->
  _offsets (fold_left bootstrap_step l w) !! name = Some (length c0).
Proof.
  revert w. induction l as [|e l IH]; intros w Hnd Hin; [done|].
  inversion Hnd as [|? ? Hnotin Hnd']; subst. simpl.
  destruct Hin as [->|Hin]; [|by apply IH].
  rewrite bootstrap_fold_offsets_other by done.
  simpl. apply lookup_insert_eq.
Qed.

Lemma first_poll_baseline (d0 : Dir text) :
  List.NoDup (names d0) ->
  snd (_poll_once d0 init) = []
  /\ baseline d0 (fst (_poll_once d0 init)).
Proof.
  intros Hnd. unfold _poll_once.
  destruct (last (sorted (glob_csv d0))) as [latest|] eqn:Hlast; simpl.
  - split; [done|]. intros name c0 Hin. simpl.
    assert (Hin' : In (name, c0) (sorted (glob_csv d0))).
    { eapply Permutation_in; [symmetry; apply sorted_perm|done]. }
    split; [done|]. split.
    + pose proof (bootstrap_fold_known (sorted (glob_csv d0)) init) as Hk.
      rewrite List.Forall_forall in Hk. exact (Hk _ Hin').
    + exists (length c0). split; [|done].
      apply bootstrap_fold_offsets; [|done]. by apply NoDup_names_listing.
  - split; [done|]. intros name c0 Hin. exfalso.
    apply last_None in Hlast.
    assert (Hin' : In (name, c0) (sorted (glob_csv d0))).
    { eapply Permutation_in; [symmetry; apply sorted_perm|done]. }
    by rewrite Hlast in Hin'.
Qed.

Lemma poll_baseline (d0 dir : Dir text) (w : Watcher) :
  baseline d0 w ->
  baseline d0 (fst (_poll_once dir w))
  /\ Forall (fresh_content d0 dir) (snd (_poll_once dir w)).
Proof.
  intros Hbase. unfold _poll_once.
  destruct (last (sorted (glob_csv dir))) as [latest|] eqn:Hlast;
    [|by split].
  destruct (_bootstrapped w) eqn:Hboot; simpl.
  2:{ split; [|constructor]. intros name c0 Hin.
      destruct (Hbase name c0 Hin) as [Hb _]. congruence. }
  unfold detect_new_files.
  destruct (detect_fold_spec (sorted (glob_csv dir)) w [])
    as (w1 & new & -> & Hb1 & Hsub1 & Hoff1 & Hnew & Hnames).
  destruct (read_appends_spec latest w1)
    as (w2 & evs & -> & Hb2 & Hk2 & Hother & Hev & Hread).
  simpl.
  assert (Hlatest : In latest dir
                    /\ endswith (txt (fst latest)) (txt ".csv") = true).
  { apply listing_In. apply last_Some in Hlast as [l' ->].
    apply in_or_app. right. by left. }
  split.
  - intros name c0 Hin. destruct (Hbase name c0 Hin) as (_ & Hk & off & Ho & Hle).
    split; [congruence|]. split; [rewrite Hk2; by apply Hsub1|].
    destruct (decide (name = fst latest)) as [->|Hne].
    + destruct (Hread off) as [(off' & Ho' & Hle') _];
        [by rewrite Hoff1|].
      exists off'. split; [done|lia].
    + exists off. split; [|done]. by rewrite Hother, Hoff1.
  - apply Forall_app. split.
    + apply List.Forall_forall. intros ev Hin c0 Hc0. exfalso.
      rewrite List.Forall_forall in Hnew, Hnames.
      apply (Hnew ev Hin).
      assert (Hcsv : endswith (txt (fst ev)) (txt ".csv") = true).
      { specialize (Hnames ev Hin). apply in_map_iff in Hnames
          as (e & <- & He). by apply listing_In in He as [_ He]. }
      destruct (Hbase (fst ev) c0) as (_ & Hk & _); [|done].
      by apply glob_csv_In.
    + apply List.Forall_forall. intros ev Hin c0 Hc0.
      rewrite List.Forall_forall in Hev. pose proof (Hev ev Hin) as Hname.
      destruct Hlatest as [Hdir Hcsv].
      destruct (Hbase (fst latest) c0) as (_ & Hk & off & Ho & Hle).
      { apply glob_csv_In. split; [by rewrite <- Hname|done]. }
      destruct (Hread off) as [_ Hlines]; [by rewrite Hoff1|].
      rewrite List.Forall_forall in Hlines.
      exists (snd latest), off. split; [|split; [done|by apply Hlines]].
      rewrite Hname. by destruct latest.
Qed.

Lemma start_baseline (d0 : Dir text) (later : list (option (Dir text)))
    (w : Watcher) :
  baseline d0 w ->
  baseline d0 (fst (start later w))
  /\ Forall2 (fun folder fired =>
                Forall (fresh_content d0 (listdir folder)) fired)
             later (snd (start later w)).
Proof.
  revert w. induction later as [|folder later IH]; intros w Hbase; simpl.
  - split; [done|constructor].
  - destruct (poll_baseline d0 (listdir folder) w Hbase) as [Hbase1 Hfresh].
    destruct (_poll_once (listdir folder) w) as [w1 fired].
    destruct (IH w1 Hbase1) as [Hbase2 Hrest].
    destruct (start later w1) as [w2 rest]. simpl in *.
    split; [done|]. by constructor.
Qed.

(** *** A poll after a poll

    After a poll of a bootstrapped watcher every listed file is known and
    the offset of the active file is at least its size. *)

Lemma detect_all_known (l : Dir text) (w : Watcher) (evs : list Event) :
  Forall (fun e => fst e ∈ _known_files (fst (fold_left detect_step l (w, evs))))
         l.
Proof.
  revert w evs. induction l as [|e l IH]; intros w evs; [constructor|].
  cbn [fold_left].
  destruct (decide (fst e ∈ _known_files w)) as [Hk|Hk].
  - rewrite detect_step_known by done. constructor; [|apply IH].
    destruct (detect_fold_spec l w evs) as (w' & new & -> & _ & Hsub & _).
    by apply Hsub.
  - rewrite detect_step_unknown by done. constructor; [|apply IH].
    destruct (detect_fold_spec l
                (set_offset (fst e) (length (snd e))
                   (set_offset (fst e) 0%nat (add_known (fst e) w)))
                (evs ++ first_row_call (fst e) (snd e)))
      as (w' & new & -> & _ & Hsub & _).
    apply Hsub. simpl. apply elem_of_union_l. by apply elem_of_singleton.
Qed.

Lemma read_appends_offset (path : string * text) (w : Watcher) :
  exists o, _offsets (fst (_read_appends path w)) !! fst path = Some o
            /\ (length (snd path) <= o)%nat.
Proof.
  unfold _read_appends. destruct (_offsets w !! fst path) as [off|] eqn:Hoff.
  - destruct (Nat.leb_spec (length (snd path)) off).
    + exists off. by split.
    + eexists. simpl. rewrite lookup_insert_eq. by split.
  - eexists. simpl. rewrite lookup_insert_eq. by split.
Qed.

Lemma read_appends_idle (path : string * text) (w : Watcher) (o : nat) :
  _offsets w !! fst path = Some o -> (length (snd path) <= o)%nat ->
  _read_appends path w = (w, []).
Proof.
  intros Hoff Hle. unfold _read_appends. rewrite Hoff.
  by rewrite (proj2 (Nat.leb_le _ _) Hle).
Qed.

Lemma poll_settled (dir : Dir text) (w : Watcher) (latest : string * text)
    (o : nat) :
  last (sorted (glob_csv dir)) = Some latest ->
  _bootstrapped w = true ->
  Forall (fun e => fst e ∈ _known_files w) (sorted (glob_csv dir)) ->
  _offsets w !! fst latest = Some o -> (length (snd latest) <= o)%nat ->
  _poll_once dir w = (w, []).
Proof.
  intros Hlast Hboot Hknown Hoff Hle. unfold _poll_once.
  rewrite Hlast, Hboot. simpl.
  rewrite (detect_new_files_known _ _ Hknown).
  by rewrite (read_appends_idle latest w o Hoff Hle).
Qed.

Lemma poll_bootstrapped (dir : Dir text) (w : Watcher)
    (latest : string * text) :
  last (sorted (glob_csv dir)) = Some latest ->
  _bootstrapped w = true ->
  _poll_once dir w
  = (let '(w1, fired1) := detect_new_files (sorted (glob_csv dir)) w in
     let '(w2, fired2) := _read_appends latest w1 in
     (w2, fired1 ++ fired2)).
Proof. intros Hlast Hboot. unfold _poll_once. by rewrite Hlast, Hboot. Qed.

Lemma poll_all_known (dir : Dir text) (w : Watcher) :
  _bootstrapped w = true ->
  _bootstrapped (fst (_poll_once dir w)) = true
  /\ Forall (fun e => fst e ∈ _known_files (fst (_poll_once dir w)))
            (sorted (glob_csv dir)).
Proof.
  intros Hboot.
  destruct (last (sorted (glob_csv dir))) as [latest|] eqn:Hlast.
  2:{ unfold _poll_once. rewrite Hlast. split; [done|].
      apply last_None in Hlast. rewrite Hlast. constructor. }
  rewrite (poll_bootstrapped dir w latest Hlast Hboot).
  pose proof (detect_all_known (sorted (glob_csv dir)) w []) as Hall.
  destruct (detect_fold_spec (sorted (glob_csv dir)) w [])
    as (w1 & new & Hfold & Hb1 & _).
  unfold detect_new_files. rewrite Hfold in *. cbn [fst] in Hall.
  destruct (read_appends_spec latest w1)
    as (w2 & evs & -> & Hb2 & Hk2 & _). cbn [fst].
  split; [congruence|]. by rewrite Hk2.
Qed.

Lemma poll_latest_offset (dir : Dir text) (w : Watcher)
    (latest : string * text) :
  last (sorted (glob_csv dir)) = Some latest ->
  _bootstrapped w = true ->
  exists o, _offsets (fst (_poll_once dir w)) !! fst latest = Some o
            /\ (length (snd latest) <= o)%nat.
Proof.
  intros Hlast Hboot. rewrite (poll_bootstrapped dir w latest Hlast Hboot).
  destruct (detect_new_files (sorted (glob_csv dir)) w) as [w1 fired1].
  destruct (read_appends_offset latest w1) as (o & Ho & Hle).
  destruct (_read_appends latest w1) as [w2 fired2]. by exists o.
Qed.

Lemma repoll_idle (dir : Dir text) (w : Watcher) :
  _bootstrapped w = true ->
  _poll_once dir (fst (_poll_once dir w)) = (fst (_poll_once dir w), []).
Proof.
  intros Hboot.
  destruct (last (sorted (glob_csv dir))) as [latest|] eqn:Hlast.
  2:{ unfold _poll_once. by rewrite Hlast. }
  destruct (poll_all_known dir w Hboot) as [Hboot' Hknown].
  destruct (poll_latest_offset dir w latest Hlast Hboot) as (o & Ho & Hle).
  by apply (poll_settled dir _ latest o).
Qed.

Lemma repolls_idle (dir : Dir text) (w : Watcher) (k : nat) :
  _poll_once dir w = (w, []) ->
  LinearCSVFolderWatcher.start (repeat (Some dir) k) w = (w, repeat [] k).
Proof.
  intros Hidle. induction k as [|k IH]; [done|].
  cbn [repeat LinearCSVFolderWatcher.start listdir]. by rewrite Hidle, IH.
Qed.

End WatcherFacts.

Module WatcherClaims.
Import LinearCSVFolderWatcher WatcherFacts.

(** C1, the claim as worded fails: an appended line made of blanks is not
    empty and not a header, yet no call is made for it, and a line with
    blanks around it is delivered stripped, not raw. *)
Lemma exactly_once_raw_fails :
  last (sorted (glob_csv dir_day1)) = Some (day1, snd (hd (day1, []) dir_day1))
  /\ Forall (Forall spec_line) padded_batches
  /\ polls_with_appends day1 padded_batches dir_day1
        (fst (_poll_once dir_day1 init))
      = [(day1, txt "r1,2")]
  /\ polls_with_appends day1 padded_batches dir_day1
        (fst (_poll_once dir_day1 init))
      <> delivered_raw day1 padded_batches.
Proof.
  split; [reflexivity|]. split.
  - repeat constructor; discriminate.
  - split; [vm_compute; reflexivity|]. vm_compute. discriminate.
Qed.

(** C1, amended: after bootstrap, for lines appended to the active file
    over any number of polls, each line free of line boundaries whose
    stripped text is neither empty nor a header, [on_new_data] is called
    once per line, in append order, with the file name and the line
    stripped of surrounding whitespace: N calls for N lines. *)
Theorem exactly_once_delivery (dir : Dir text) (f : string) (c : text)
    (batches : list (list Line)) :
  last (sorted (glob_csv dir)) = Some (f, c) ->
  Forall (Forall data_line) batches ->
  polls_with_appends f batches dir (fst (_poll_once dir init))
  = map (fun l => (f, strip (fst l))) (concat batches)
  /\ length (polls_with_appends f batches dir (fst (_poll_once dir init)))
     = length (concat batches).
Proof.
  intros Hlast Hall.
  rewrite (polls_with_appends_tracking f batches dir _
             (bootstrap_tracking f c dir Hlast) Hall).
  split; [done|]. by rewrite length_map.
Qed.

(** The theorem on three batches, one of them empty. *)
Lemma exactly_once_delivery_witness :
  polls_with_appends day1 plain_batches dir_day1
    (fst (_poll_once dir_day1 init))
  = [(day1, txt "r1,2"); (day1, txt "r2,3"); (day1, txt "r3,4")].
Proof.
  refine (proj1 (exactly_once_delivery dir_day1 day1 _ plain_batches _ _)).
  - reflexivity.
  - repeat constructor.
Defined.

(** C5: when a poll after bootstrap finds a new file that already holds
    more than one data row, it calls [on_new_data] for that file exactly
    once, with the first data row; the file's offset is then its size and
    the file is known, so that the polls that follow on the unchanged
    folder, however many, make no call: the other rows are never
    delivered. *)
Theorem new_file_first_row_only (dir : Dir text) (w : Watcher) (p : string)
    (content first : text) (more : list text) (k : nat) :
  List.NoDup (names dir) ->
  _bootstrapped w = true ->
  In (p, content) (glob_csv dir) ->
  p ∉ _known_files w ->
  data_lines (universal_newlines content) = first :: more ->
  (1 < length (first :: more))%nat ->
  let w' := fst (_poll_once dir w) in
  List.filter (fun ev => String.eqb (fst ev) p) (snd (_poll_once dir w))
  = [(p, first)]
  /\ _offsets w' !! p = Some (length content)
  /\ p ∈ _known_files w'
  /\ LinearCSVFolderWatcher.start (repeat (Some dir) k) w'
     = (w', repeat [] k).
Proof.
  intros Hnd Hboot Hin Hp Hdata _. cbv zeta.
  destruct (poll_new_file dir w p content Hnd Hboot Hin Hp) as [Hfil Hoff].
  destruct (poll_all_known dir w Hboot) as [_ Hknown].
  split; [rewrite Hfil; unfold first_row_call; by rewrite Hdata|].
  split; [done|]. split.
  - rewrite List.Forall_forall in Hknown.
    apply (Hknown (p, content)).
    eapply Permutation_in; [symmetry; apply sorted_perm|done].
  - apply repolls_idle. by apply repoll_idle.
Qed.

(** The theorem on a new day file that holds three rows, with three more
    polls. *)
Lemma new_file_first_row_only_witness :
  let w' := fst (_poll_once dir_day2 (fst (_poll_once dir_day1 init))) in
  List.filter (fun ev => String.eqb (fst ev) day2)
    (snd (_poll_once dir_day2 (fst (_poll_once dir_day1 init))))
  = [(day2, txt "r5,1")]
  /\ _offsets w' !! day2 = Some 67%nat
  /\ day2 ∈ _known_files w'
  /\ LinearCSVFolderWatcher.start (repeat (Some dir_day2) 3) w'
     = (w', repeat [] 3).
Proof.
  refine (new_file_first_row_only dir_day2 (fst (_poll_once dir_day1 init))
            day2 (snd (hd (day2, []) dir_day2)) (txt "r5,1")
            [txt "r6,2"; txt "r7,3"] 3 _ _ _ _ _ _).
  - repeat constructor; simpl; intuition discriminate.
  - reflexivity.
  - left. reflexivity.
  - vm_compute. discriminate.
  - reflexivity.
  - simpl. lia.
Defined.

(** C4, the claim as worded fails: started on an empty directory, the
    watcher does not bootstrap on its first poll; it does on the poll that
    first lists a file, and no call is made for that file although it
    appeared after [start()]. *)
Lemma bootstrap_not_on_first_poll :
  _bootstrapped (fst (start [Some []] init)) = false
  /\ _bootstrapped (fst (start [Some []; Some dir_day1] init)) = true
  /\ snd (start [Some []; Some dir_day1; Some dir_day1] init) = [[]; []; []].
Proof. repeat split; vm_compute; reflexivity. Qed.

(** C4, amended: the first poll makes no call; when the directory holds a
    data file at [start()], bootstrap happens on that first poll and the
    watcher stays bootstrapped; and whatever the later polls see, no call
    is ever made for content present at [start()]: a call for a file that
    was there carries a line read from the bytes after its size at
    start. *)
Theorem bootstrap_skips_existing (d0 : Dir text)
    (later : list (option (Dir text))) :
  List.NoDup (names d0) ->
  hd [] (snd (start (Some d0 :: later) init)) = []
  /\ (glob_csv d0 <> [] ->
      _bootstrapped (fst (_poll_once d0 init)) = true
      /\ _bootstrapped (fst (start (Some d0 :: later) init)) = true)
  /\ Forall2 (fun folder fired =>
                Forall (fresh_content d0 (listdir folder)) fired)
             later (List.tl (snd (start (Some d0 :: later) init))).
Proof.
  intros Hnd. destruct (first_poll_baseline d0 Hnd) as [Hfirst Hbase].
  destruct (start_baseline d0 later _ Hbase) as [Hbase' Hfresh].
  simpl. destruct (_poll_once d0 init) as [w1 fired]. simpl in *.
  destruct (start later w1) as [w2 rest]. simpl in *.
  split; [done|]. split; [|done].
  intros Hne. destruct (glob_csv d0) as [|[name c0] l] eqn:Hglob; [done|].
  assert (Hin : In (name, c0) (glob_csv d0)) by (rewrite Hglob; by left).
  split.
  - by destruct (Hbase name c0 Hin) as [Hb _].
  - by destruct (Hbase' name c0 Hin) as [Hb _].
Qed.

(** The theorem on a directory with one file, then a second one. *)
Lemma bootstrap_skips_existing_witness :
  hd [] (snd (start (Some dir_day1 :: [Some dir_day2]) init)) = []
  /\ (glob_csv dir_day1 <> [] ->
      _bootstrapped (fst (_poll_once dir_day1 init)) = true
      /\ _bootstrapped (fst (start (Some dir_day1 :: [Some dir_day2]) init))
         = true)
  /\ Forall2 (fun folder fired =>
                Forall (fresh_content dir_day1 (listdir folder)) fired)
             [Some dir_day2]
             (List.tl (snd (start (Some dir_day1 :: [Some dir_day2]) init))).
Proof.
  apply (bootstrap_skips_existing dir_day1 [Some dir_day2]).
  repeat constructor; simpl; intuition discriminate.
Defined.

End WatcherClaims.

(** ** Timestamps: formatting and parsing *)

Module PandasFacts.
Import LinearCSVFolderWatcher RealTimeTrader.

Lemma all_days_ok_spec (n : nat) (lo d : Z) :
  all_days_ok lo n = true -> lo <= d < lo + Z.of_nat n ->
  civil_day_ok d = true.
Proof.
  revert lo. induction n as [|n IH]; intros lo Hall Hd; [lia|].
  simpl in Hall. apply andb_true_iff in Hall as [H0 Hall].
  destruct (Z.eq_dec d lo) as [->|Hne]; [done|].
  apply (IH (lo + 1)); [done|lia].
Qed.

Lemma pandas_days_ok : all_days_ok (-106752) (Z.to_nat 213504) = true.
Proof. vm_cast_no_check (eq_refl true). Qed.

Lemma civil_day_ok_range (d : Z) :
  -106752 <= d <= 106751 -> civil_day_ok d = true.
Proof.
  intros Hd. apply (all_days_ok_spec _ _ _ pandas_days_ok).
  rewrite Z2Nat.id by lia. lia.
Qed.

Lemma digit_ind (P : ascii -> Prop) :
  P "0"%char -> P "1"%char -> P "2"%char -> P "3"%char -> P "4"%char ->
  P "5"%char -> P "6"%char -> P "7"%char -> P "8"%char -> P "9"%char ->
  forall n, P (digit n).
Proof.
  intros H0 H1 H2 H3 H4 H5 H6 H7 H8 H9 n. unfold digit.
  pose proof (Z.mod_pos_bound n 10 eq_refl) as Hr.
  assert (n mod 10 = 0 \/ n mod 10 = 1 \/ n mod 10 = 2 \/ n mod 10 = 3
          \/ n mod 10 = 4 \/ n mod 10 = 5 \/ n mod 10 = 6 \/ n mod 10 = 7
          \/ n mod 10 = 8 \/ n mod 10 = 9) as Hc by lia.
  repeat (destruct Hc as [->|Hc]; [assumption|]). by rewrite Hc.
Qed.

Lemma digit_val_digit (n : Z) : digit_val (digit n) = Some (n mod 10).
Proof.
  unfold digit.
  pose proof (Z.mod_pos_bound n 10 eq_refl) as Hr.
  assert (n mod 10 = 0 \/ n mod 10 = 1 \/ n mod 10 = 2 \/ n mod 10 = 3
          \/ n mod 10 = 4 \/ n mod 10 = 5 \/ n mod 10 = 6 \/ n mod 10 = 7
          \/ n mod 10 = 8 \/ n mod 10 = 9) as Hc by lia.
  repeat (destruct Hc as [->|Hc]; [reflexivity|]). by rewrite Hc.
Qed.

Lemma number_digits2 (n : Z) : 0 <= n < 100 -> number (digits2 n) = Some n.
Proof.
  intros Hn. unfold number, digits2. cbn [number_from].
  rewrite !digit_val_digit. f_equal.
  Z.div_mod_to_equations. lia.
Qed.

Lemma number_digits4 (n : Z) : 0 <= n < 10000 -> number (digits4 n) = Some n.
Proof.
  intros Hn. unfold number, digits4. cbn [number_from].
  rewrite !digit_val_digit. f_equal.
  Z.div_mod_to_equations. lia.
Qed.

Lemma parse_civil_fields (c : Civil) (sep : ascii) (tail : text) :
  sep = "T"%char \/ sep = " "%char ->
  0 <= year c < 10000 -> 0 <= month c < 100 -> 0 <= day c < 100 ->
  0 <= hour c < 100 -> 0 <= minute c < 100 -> 0 <= second c < 100 ->
  parse_civil (strftime_date c ++ sep :: digits2 (hour c) ++ ":"%char
               :: digits2 (minute c) ++ ":"%char :: digits2 (second c)
               ++ tail)
  = Some (c, tail).
Proof.
  intros Hsep Hy Hm Hd Hh Hi Hs.
  change (parse_civil _) with
    (if is_char "-" "-" && is_char "-" "-"
         && (is_char sep "T" || is_char sep " ")
         && is_char ":" ":" && is_char ":" ":" then
       match number (digits4 (year c)), number (digits2 (month c)),
             number (digits2 (day c)), number (digits2 (hour c)),
             number (digits2 (minute c)), number (digits2 (second c)) with
       | Some y, Some m, Some d, Some h, Some mi, Some sec =>
           Some ({| year := y; month := m; day := d;
                    hour := h; minute := mi; second := sec |}, tail)
       | _, _, _, _, _, _ => None
       end
     else None).
  rewrite number_digits4, !number_digits2 by done.
  destruct Hsep as [-> | ->]; by destruct c.
Qed.

Lemma in_range_days (ts : Timestamp) :
  in_range ts -> -106752 <= ts / NS_PER_SEC / 86400 <= 106751.
Proof.
  unfold in_range, NS_PER_SEC, max_value. intros H.
  Z.div_mod_to_equations. lia.
Qed.

Lemma to_civil_facts (ts : Timestamp) :
  in_range ts ->
  let c := to_civil ts in
  1000 <= year c <= 9999 /\ 0 <= month c < 100 /\ 0 <= day c < 100
  /\ 0 <= hour c < 100 /\ 0 <= minute c < 100 /\ 0 <= second c < 100
  /\ valid_civil c = true
  /\ seconds_of_civil c = ts / NS_PER_SEC.
Proof.
  intros Hr. pose proof (civil_day_ok_range _ (in_range_days ts Hr)) as Hok.
  unfold to_civil, civil_day_ok in *.
  set (secs := ts / NS_PER_SEC) in *.
  destruct (civil_from_days (secs / 86400)) as [[y m] d].
  rewrite !andb_true_iff in Hok.
  destruct Hok as ((((((H1 & H2) & H3) & H4) & H5) & H6) & H7).
  apply Z.leb_le in H1, H2, H3, H4, H5, H6. apply Z.eqb_eq in H7.
  assert (Hdim : days_in_month y m <= 31).
  { unfold days_in_month. repeat destruct (_ =? _); simpl; try lia.
    destruct (is_leap y); lia. }
  unfold valid_civil, seconds_of_civil. cbn [year month day hour minute second].
  rewrite H7.
  pose proof (Z.mod_pos_bound secs 86400 eq_refl) as Hsod.
  set (sod := secs mod 86400) in *.
  assert (Hsecs : secs = secs / 86400 * 86400 + sod).
  { subst sod. pose proof (Z.div_mod secs 86400). lia. }
  assert (0 <= sod / 3600 < 24) by (Z.div_mod_to_equations; lia).
  assert (0 <= sod mod 3600 / 60 < 60) by (Z.div_mod_to_equations; lia).
  assert (0 <= sod mod 60 < 60) by (Z.div_mod_to_equations; lia).
  assert (sod / 3600 * 3600 + sod mod 3600 / 60 * 60 + sod mod 60 = sod)
    by (Z.div_mod_to_equations; lia).
  repeat split; lia.
Qed.

Lemma format_explicit (ts : Timestamp) :
  _format_ts_iso_t ts
  = strftime_date (to_civil ts) ++ "T"%char
    :: digits2 (hour (to_civil ts)) ++ ":"%char
    :: digits2 (minute (to_civil ts)) ++ ":"%char
    :: digits2 (second (to_civil ts)) ++ txt "+00:00".
Proof.
  unfold _format_ts_iso_t, strftime_iso. generalize (to_civil ts). intros c.
  reflexivity.
Qed.

Lemma space_encoding_explicit (ts : Timestamp) :
  space_encoding (_format_ts_iso_t ts)
  = strftime_date (to_civil ts) ++ " "%char
    :: digits2 (hour (to_civil ts)) ++ ":"%char
    :: digits2 (minute (to_civil ts)) ++ ":"%char
    :: digits2 (second (to_civil ts)) ++ txt "+00:00".
Proof.
  rewrite format_explicit. generalize (to_civil ts). intros c. reflexivity.
Qed.

Lemma to_datetime_fields (c : Civil) (sep : ascii) :
  sep = "T"%char \/ sep = " "%char ->
  0 <= year c < 10000 -> 0 <= month c < 100 -> 0 <= day c < 100 ->
  0 <= hour c < 100 -> 0 <= minute c < 100 -> 0 <= second c < 100 ->
  valid_civil c = true ->
  min_value <= seconds_of_civil c * NS_PER_SEC <= max_value ->
  to_datetime (strftime_date c ++ sep :: digits2 (hour c) ++ ":"%char
               :: digits2 (minute c) ++ ":"%char :: digits2 (second c)
               ++ txt "+00:00")
  = Some (seconds_of_civil c * NS_PER_SEC).
Proof.
  intros Hsep Hy Hm Hd Hh Hi Hs Hv Hb. unfold to_datetime.
  rewrite parse_civil_fields by done.
  change (parse_seconds_tail (txt "+00:00")) with (Some (0, 0)).
  rewrite Hv. cbv zeta. rewrite Z.sub_0_r, Z.add_0_r.
  rewrite (proj2 (Z.leb_le _ _) (proj1 Hb)), (proj2 (Z.leb_le _ _) (proj2 Hb)).
  reflexivity.
Qed.

Lemma floor_second_bounds (ts : Timestamp) :
  in_range ts -> min_value <= floor_second ts <= max_value.
Proof.
  unfold in_range, floor_second, min_value, max_value, NS_PER_SEC.
  intros H. Z.div_mod_to_equations. lia.
Qed.

Lemma to_datetime_format (ts : Timestamp) :
  in_range ts ->
  to_datetime (_format_ts_iso_t ts) = Some (floor_second ts)
  /\ to_datetime (space_encoding (_format_ts_iso_t ts))
     = Some (floor_second ts).
Proof.
  intros Hr. rewrite space_encoding_explicit, format_explicit.
  destruct (to_civil_facts ts Hr) as (Hy & Hm & Hd & Hh & Hi & Hs & Hv & Hsec).
  pose proof (floor_second_bounds ts Hr) as Hb. unfold floor_second in *.
  rewrite <- Hsec in *.
  split; apply to_datetime_fields; auto; lia.
Qed.

Lemma to_civil_floor (ts : Timestamp) : to_civil (floor_second ts) = to_civil ts.
Proof.
  unfold to_civil, floor_second. by rewrite Z.div_mul.
Qed.

Lemma format_floor (ts : Timestamp) :
  _format_ts_iso_t (floor_second ts) = _format_ts_iso_t ts.
Proof. by rewrite !format_explicit, to_civil_floor. Qed.

Lemma floor_whole_second (ts : Timestamp) :
  whole_second ts -> floor_second ts = ts.
Proof.
  unfold whole_second, floor_second, NS_PER_SEC. intros H.
  Z.div_mod_to_equations. lia.
Qed.


Lemma digit_plain (n : Z) : plain_char (digit n) = true.
Proof.
  revert n. apply (digit_ind (fun c => plain_char c = true)); reflexivity.
Qed.

Lemma format_plain (ts : Timestamp) :
  forallb plain_char (_format_ts_iso_t ts) = true.
Proof.
  rewrite format_explicit. generalize (to_civil ts). intros c.
  unfold strftime_date, digits4, digits2.
  change (txt "-") with ["-"%char].
  change (txt "+00:00") with ["+"; "0"; "0"; ":"; "0"; "0"]%char.
  cbn [app forallb]. rewrite !digit_plain. reflexivity.
Qed.

Lemma space_encoding_no_comma (ts : Timestamp) :
  forallb no_comma (space_encoding (_format_ts_iso_t ts)) = true.
Proof.
  rewrite space_encoding_explicit. generalize (to_civil ts). intros c.
  unfold strftime_date, digits4, digits2.
  change (txt "-") with ["-"%char].
  change (txt "+00:00") with ["+"; "0"; "0"; ":"; "0"; "0"]%char.
  cbn [app forallb].
  assert (Hd : forall n, no_comma (digit n) = true)
    by (apply (digit_ind (fun c => no_comma c = true)); reflexivity).
  rewrite !Hd. reflexivity.
Qed.

Lemma format_head (ts : Timestamp) :
  exists rest,
    _format_ts_iso_t ts = digit (year (to_civil ts) / 1000) :: rest
    /\ space_encoding (_format_ts_iso_t ts)
       = digit (year (to_civil ts) / 1000) :: firstn 9 rest ++ " "%char :: skipn 10 rest.
Proof.
  rewrite format_explicit. eexists. split; reflexivity.
Qed.

Lemma plain_no_comma (s : text) :
  forallb plain_char s = true -> forallb no_comma s = true.
Proof.
  induction s as [|a s IH]; simpl; [done|].
  rewrite !andb_true_iff. unfold plain_char, no_comma.
  rewrite !andb_true_iff. tauto.
Qed.

Lemma plain_clean (s : text) :
  forallb plain_char s = true -> clean_line s = true.
Proof.
  unfold clean_line. induction s as [|a s IH]; simpl; [done|].
  rewrite !andb_true_iff. unfold plain_char.
  rewrite !andb_true_iff. tauto.
Qed.

Lemma split_comma_field (a rest : text) :
  forallb no_comma a = true ->
  split_comma (a ++ ","%char :: rest) = a :: split_comma rest.
Proof.
  induction a as [|x a IH]; intros Ha; [reflexivity|].
  simpl in Ha. apply andb_true_iff in Ha as [Hx Ha].
  unfold no_comma, is_char in Hx. apply negb_true_iff in Hx.
  cbn [app split_comma]. rewrite Hx, (IH Ha). reflexivity.
Qed.

Lemma split_comma_signal (sig : Signal) :
  split_comma (signal_text sig) = [signal_text sig].
Proof. destruct sig; reflexivity. Qed.

Lemma split_signal_line (o c : Timestamp) (sig : Signal) :
  split_comma (signal_line o c sig)
  = [_format_ts_iso_t o; _format_ts_iso_t c; signal_text sig].
Proof.
  unfold signal_line. change (txt ",") with [","%char]. cbn [app].
  rewrite !split_comma_field by (apply plain_no_comma, format_plain).
  by rewrite split_comma_signal.
Qed.

Lemma split_space_line (o c : Timestamp) (sig : Signal) :
  split_comma (space_line o c sig)
  = [space_encoding (_format_ts_iso_t o);
     space_encoding (_format_ts_iso_t c); signal_text sig].
Proof.
  unfold space_line. change (txt ",") with [","%char]. cbn [app].
  rewrite !split_comma_field by apply space_encoding_no_comma.
  by rewrite split_comma_signal.
Qed.

Lemma digit_not_header (n : Z) (rest : text) :
  startswith (lower (digit n :: rest)) (txt "open_time,") = false.
Proof.
  revert n.
  apply (digit_ind
           (fun c => startswith (lower (c :: rest)) (txt "open_time,")
                     = false)); reflexivity.
Qed.

Lemma signal_line_not_header (o c : Timestamp) (sig : Signal) :
  startswith (lower (signal_line o c sig)) (txt "open_time,") = false
  /\ startswith (lower (space_line o c sig)) (txt "open_time,") = false.
Proof.
  destruct (format_head o) as (rest & Hhead & Hhead').
  unfold signal_line, space_line. rewrite Hhead', Hhead. cbn [app].
  split; apply digit_not_header.
Qed.

Lemma row_matches_written (o c : Timestamp) (sig : Signal) :
  in_range o -> in_range c ->
  row_matches (_format_ts_iso_t o) (_format_ts_iso_t c) (signal_line o c sig)
  = true
  /\ row_matches (_format_ts_iso_t o) (_format_ts_iso_t c)
       (space_line o c sig) = true.
Proof.
  intros Ho Hc.
  destruct (to_datetime_format o Ho) as [HoT HoS].
  destruct (to_datetime_format c Hc) as [HcT HcS].
  destruct (signal_line_not_header o c sig) as [Hh Hh'].
  split; unfold row_matches.
  - rewrite Hh, split_signal_line.
    cbn [length Nat.ltb Nat.leb nth]. rewrite HoT, HcT, !format_floor.
    by rewrite !bool_decide_eq_true_2.
  - rewrite Hh', split_space_line.
    cbn [length Nat.ltb Nat.leb nth]. rewrite HoS, HcS, !format_floor.
    by rewrite !bool_decide_eq_true_2.
Qed.


End PandasFacts.

(** ** The signal writer *)

Module WriterFacts.
Import LinearCSVFolderWatcher RealTimeTrader PandasFacts.

Lemma universal_newlines_cr (a c2 : ascii) (rest : text) :
  is_cr a = true ->
  universal_newlines (a :: c2 :: rest)
  = LF :: (if is_lf c2 then universal_newlines rest
           else universal_newlines (c2 :: rest)).
Proof.
  intros Ha.
  change (universal_newlines (a :: c2 :: rest))
    with (if is_cr a
          then LF :: (if is_lf c2 then universal_newlines rest
                      else universal_newlines (c2 :: rest))
          else a :: universal_newlines (c2 :: rest)).
  by rewrite Ha.
Qed.

Lemma universal_newlines_other (a : ascii) (rest : text) :
  is_cr a = false ->
  universal_newlines (a :: rest) = a :: universal_newlines rest.
Proof. intros Ha. simpl. by rewrite Ha. Qed.

Lemma universal_newlines_lf_split (n : nat) (c' : text) :
  (length c' <= n)%nat ->
  exists x, Forall (fun a => is_cr a = false) x
    /\ forall t, universal_newlines (c' ++ LF :: t)
                 = x ++ LF :: universal_newlines t.
Proof.
  revert c'. induction n as [|n IH]; intros [|a r] Hlen; simpl in Hlen;
    try lia; try (exists []; split; [constructor|reflexivity]).
  destruct (is_cr a) eqn:Ha.
  - destruct r as [|c2 r2].
    + exists []. split; [constructor|]. intros t.
      change ([a] ++ LF :: t) with (a :: LF :: t).
      by rewrite universal_newlines_cr.
    + destruct (is_lf c2) eqn:Hc2.
      * destruct (IH r2) as (x & Hx & Heq); [simpl in Hlen; lia|].
        exists (LF :: x). split; [by constructor|]. intros t.
        change ((a :: c2 :: r2) ++ LF :: t) with (a :: c2 :: (r2 ++ LF :: t)).
        rewrite universal_newlines_cr, Hc2, Heq by done. reflexivity.
      * destruct (IH (c2 :: r2)) as (x & Hx & Heq); [simpl in *; lia|].
        exists (LF :: x). split; [by constructor|]. intros t.
        change ((a :: c2 :: r2) ++ LF :: t) with (a :: c2 :: (r2 ++ LF :: t)).
        rewrite universal_newlines_cr, Hc2 by done.
        change (c2 :: r2 ++ LF :: t) with ((c2 :: r2) ++ LF :: t).
        by rewrite Heq.
  - destruct (IH r) as (x & Hx & Heq); [lia|].
    exists (a :: x). split; [by constructor|]. intros t.
    change ((a :: r) ++ LF :: t) with (a :: (r ++ LF :: t)).
    by rewrite universal_newlines_other, Heq.
Qed.

Lemma splitlines_break (a : ascii) (rest : text) :
  is_linebreak a = true -> is_cr a = false ->
  splitlines (a :: rest) = [] :: splitlines rest.
Proof. intros Hb Hc. destruct rest; simpl; by rewrite Hb, ?Hc. Qed.

Lemma splitlines_char (a : ascii) (rest : text) :
  is_linebreak a = false ->
  splitlines (a :: rest)
  = match splitlines rest with
    | [] => [[a]]
    | l :: ls => (a :: l) :: ls
    end.
Proof. intros Hb. simpl. by rewrite Hb. Qed.

Lemma splitlines_nil (s : text) : splitlines s = [] -> s = [].
Proof.
  destruct s as [|a s]; [done|]. simpl.
  destruct (is_linebreak a); [done|]. by destruct (splitlines s).
Qed.

Lemma splitlines_app_lf (x b : text) :
  Forall (fun a => is_cr a = false) x ->
  splitlines (x ++ LF :: b) = splitlines (x ++ [LF]) ++ splitlines b.
Proof.
  induction 1 as [|a x Ha _ IH].
  - simpl app. by rewrite splitlines_lf.
  - change ((a :: x) ++ LF :: b) with (a :: (x ++ LF :: b)).
    change ((a :: x) ++ [LF]) with (a :: (x ++ [LF])).
    destruct (is_linebreak a) eqn:Hb.
    + by rewrite !splitlines_break, IH.
    + rewrite !splitlines_char, IH by done.
      destruct (splitlines (x ++ [LF])) as [|l ls] eqn:Hs; [|done].
      apply splitlines_nil in Hs. by destruct x.
Qed.

Lemma stripped_lines_app_lf (body t : text) :
  stripped_lines (universal_newlines (body ++ LF :: t))
  = stripped_lines (universal_newlines (body ++ [LF]))
    ++ stripped_lines (universal_newlines t).
Proof.
  destruct (universal_newlines_lf_split (length body) body) as (x & Hx & Heq);
    [done|].
  rewrite !Heq. unfold stripped_lines. simpl universal_newlines.
  by rewrite splitlines_app_lf, map_app, List.filter_app.
Qed.

Lemma strip_plain (a : ascii) (s : text) (z : ascii) :
  is_space a = false -> is_space z = false ->
  strip (a :: s ++ [z]) = a :: s ++ [z].
Proof.
  intros Ha Hz. unfold strip, rstrip.
  assert (H1 : lstrip (a :: s ++ [z]) = a :: s ++ [z])
    by (cbn [lstrip]; by rewrite Ha).
  rewrite H1.
  assert (H2 : rev (a :: s ++ [z]) = z :: rev (a :: s)).
  { change (a :: s ++ [z]) with ((a :: s) ++ [z]). by rewrite rev_app_distr. }
  rewrite H2.
  assert (H3 : lstrip (z :: rev (a :: s)) = z :: rev (a :: s))
    by (cbn [lstrip]; by rewrite Hz).
  rewrite H3.
  change (rev (z :: rev (a :: s))) with (rev (rev (a :: s)) ++ [z]).
  by rewrite rev_involutive.
Qed.

Lemma signal_text_last (sig : Signal) :
  exists pre z, signal_text sig = pre ++ [z] /\ is_space z = false.
Proof.
  destruct sig;
    [exists (txt "SEL"), "L"%char | exists (txt "HOL"), "D"%char
    | exists (txt "BU"), "Y"%char]; split; reflexivity.
Qed.

Lemma signal_line_shape (o c : Timestamp) (sig : Signal) :
  exists a s z, signal_line o c sig = a :: s ++ [z]
    /\ is_space a = false /\ is_space z = false.
Proof.
  destruct (format_head o) as (rest & Hhead & _).
  destruct (signal_text_last sig) as (pre & z & Hsig & Hz).
  unfold signal_line. rewrite Hhead, Hsig.
  exists (digit (year (to_civil o) / 1000)),
    (rest ++ txt "," ++ _format_ts_iso_t c ++ txt "," ++ pre), z.
  split; [|split; [|exact Hz]].
  - rewrite <- !app_assoc. reflexivity.
  - generalize (year (to_civil o) / 1000).
    apply (digit_ind (fun c => is_space c = false)); reflexivity.
Qed.

Lemma clean_line_app (a b : text) :
  clean_line (a ++ b) = clean_line a && clean_line b.
Proof. apply forallb_app. Qed.

Lemma signal_line_clean (o c : Timestamp) (sig : Signal) :
  clean_line (signal_line o c sig) = true.
Proof.
  unfold signal_line. rewrite !clean_line_app.
  rewrite (plain_clean _ (format_plain o)), (plain_clean _ (format_plain c)).
  by destruct sig.
Qed.

Lemma signal_row_line (o c : Timestamp) (sig : Signal) :
  signal_row o c sig = signal_line o c sig ++ [LF].
Proof. unfold signal_row, signal_line. by rewrite <- !app_assoc. Qed.

Lemma stripped_lines_signal_row (o c : Timestamp) (sig : Signal) :
  stripped_lines (universal_newlines (signal_row o c sig))
  = [signal_line o c sig].
Proof.
  rewrite signal_row_line.
  pose proof (universal_newlines_line (signal_line o c sig) false []
                (signal_line_clean o c sig)) as Hun.
  change ((if false then [CR; LF] else [LF]) ++ []) with [LF] in Hun.
  change (universal_newlines []) with (@nil ascii) in Hun.
  rewrite Hun. unfold stripped_lines.
  rewrite (splitlines_line _ [] (signal_line_clean o c sig)).
  change (splitlines []) with (@nil text). cbn [map List.filter].
  destruct (signal_line_shape o c sig) as (a & s & z & Heq & Ha & Hz).
  rewrite Heq, strip_plain by done. reflexivity.
Qed.

Lemma row_already_written_false (content : text) (o c : Timestamp) :
  key_rows o c content = [] ->
  _row_already_written (Some content) o c = false.
Proof.
  intros Hk. unfold _row_already_written.
  destruct (_ <=? _)%nat; [done|].
  destruct (existsb _ _) eqn:E; [|done].
  apply existsb_exists in E as (x & Hin & Hx). apply lastn_incl in Hin.
  assert (Hin' : In x (key_rows o c content)) by (by apply filter_In).
  by rewrite Hk in Hin'.
Qed.

Lemma key_rows_appended (body : text) (o c : Timestamp) (sig : Signal) :
  in_range o -> in_range c ->
  key_rows o c ((body ++ [LF]) ++ signal_row o c sig)
  = key_rows o c (body ++ [LF]) ++ [signal_line o c sig].
Proof.
  intros Ho Hc. unfold key_rows.
  rewrite <- app_assoc. change ([LF] ++ signal_row o c sig)
    with (LF :: signal_row o c sig).
  rewrite stripped_lines_app_lf, stripped_lines_signal_row, List.filter_app.
  cbn [List.filter].
  by rewrite (proj1 (row_matches_written o c sig Ho Hc)).
Qed.

Lemma row_already_written_true (body : text) (o c : Timestamp)
    (sig : Signal) :
  in_range o -> in_range c ->
  stripped_lines (universal_newlines (body ++ [LF])) <> [] ->
  _row_already_written (Some ((body ++ [LF]) ++ signal_row o c sig)) o c
  = true.
Proof.
  intros Ho Hc Hne. unfold _row_already_written.
  rewrite <- app_assoc. change ([LF] ++ signal_row o c sig)
    with (LF :: signal_row o c sig).
  rewrite stripped_lines_app_lf, stripped_lines_signal_row.
  destruct (stripped_lines (universal_newlines (body ++ [LF])))
    as [|l0 ls] eqn:Hl; [done|].
  rewrite length_app. cbn [length].
  rewrite (proj2 (Nat.leb_gt _ _)) by lia.
  destruct (lastn_app_last 200 (l0 :: ls) (signal_line o c sig)) as [l' ->];
    [lia|].
  rewrite existsb_app. cbn [existsb].
  rewrite (proj1 (row_matches_written o c sig Ho Hc)).
  by rewrite orb_true_r.
Qed.

Lemma alter_present (f : text -> text) (p : string) (m : gmap string text)
    (x : text) :
  m !! p = Some x -> alter f p m = <[p := f x]> m.
Proof.
  intros Hx. apply map_eq. intros i. rewrite lookup_alter, lookup_insert.
  case_decide; [subst; by rewrite Hx|done].
Qed.

Lemma append_first (o c : Timestamp) (sig : Signal) (w : Writer) :
  in_range o -> in_range c ->
  _last_written w <> Some (o, c) ->
  signal_file_ok o c (signal_files w !! out_path o) ->
  _append_signal_row o c sig w
  = {| _last_written := Some (o, c);
       signal_files :=
         <[out_path o := default HEADER (signal_files w !! out_path o)
                         ++ signal_row o c sig]> (signal_files w) |}.
Proof.
  intros Ho Hc Hlw Hok. unfold _append_signal_row.
  rewrite bool_decide_eq_false_2 by done.
  destruct (signal_files w !! out_path o) as [content|] eqn:Hfile.
  - destruct Hok as (_ & _ & Hk).
    rewrite Hfile, (row_already_written_false _ _ _ Hk).
    by rewrite (alter_present _ _ _ _ Hfile).
  - rewrite lookup_insert_eq.
    change (_row_already_written (Some HEADER) o c) with false.
    rewrite (alter_present _ _ _ HEADER) by apply lookup_insert_eq.
    by rewrite insert_insert_eq.
Qed.

Lemma signal_file_body (o c : Timestamp) (f : option text) :
  signal_file_ok o c f ->
  exists body, default HEADER f = body ++ [LF]
    /\ stripped_lines (universal_newlines (body ++ [LF])) <> []
    /\ key_rows o c (body ++ [LF]) = [].
Proof.
  destruct f as [content|]; simpl.
  - intros ((body & ->) & Hne & Hk). by exists body.
  - intros _. exists (txt "open_time,close_time,signal").
    split; [reflexivity|]. split; [by vm_compute|].
    unfold key_rows.
    change (stripped_lines _) with [txt "open_time,close_time,signal"].
    reflexivity.
Qed.


Lemma reparse_written (o c : Timestamp) (sig : Signal) :
  in_range o -> in_range c ->
  reparse (signal_line o c sig) = Some (floor_second o, floor_second c)
  /\ reparse (space_line o c sig) = Some (floor_second o, floor_second c).
Proof.
  intros Ho Hc. unfold reparse.
  rewrite split_signal_line, split_space_line. cbn [nth].
  destruct (to_datetime_format o Ho) as [-> ->].
  by destruct (to_datetime_format c Hc) as [-> ->].
Qed.

End WriterFacts.

Module WriterClaims.
Import LinearCSVFolderWatcher RealTimeTrader PandasFacts WriterFacts.

(** C3, amended: from a destination file that is absent, or that ends
    with a line end, holds a line (its header) and no row with the key,
    and whose rows carry timestamps in the two encodings the scan is
    modelled on, appending the same key twice leaves exactly one data row
    with that key, whether the second call is made by the same process or
    by a new process that finds the file of the first. *)
Theorem write_idempotent (o c : Timestamp) (sig : Signal) (w : Writer) :
  in_range o -> in_range c ->
  _last_written w <> Some (o, c) ->
  signal_file_ok o c (signal_files w !! out_path o) ->
  supported_rows (signal_files w !! out_path o) ->
  let w1 := _append_signal_row o c sig w in
  let same_process := _append_signal_row o c sig w1 in
  let restarted :=
    _append_signal_row o c sig
      {| _last_written := None; signal_files := signal_files w1 |} in
  let written :=
    default HEADER (signal_files w !! out_path o) ++ signal_row o c sig in
  signal_files same_process !! out_path o = Some written
  /\ signal_files restarted !! out_path o = Some written
  /\ key_rows o c written = [signal_line o c sig].
Proof.
  intros Ho Hc Hlw Hok _. cbv zeta.
  rewrite (append_first o c sig w Ho Hc Hlw Hok).
  destruct (signal_file_body o c _ Hok) as (body & Hbody & Hne & Hk).
  rewrite Hbody. split; [|split].
  - unfold _append_signal_row at 1. cbn [_last_written].
    rewrite bool_decide_eq_true_2 by done. cbn [signal_files].
    apply lookup_insert_eq.
  - unfold _append_signal_row. cbn [_last_written signal_files].
    rewrite bool_decide_eq_false_2 by done.
    rewrite lookup_insert_eq. cbv beta iota zeta. rewrite lookup_insert_eq.
    rewrite (row_already_written_true body o c sig Ho Hc Hne).
    cbn [signal_files]. apply lookup_insert_eq.
  - by rewrite key_rows_appended, Hk.
Qed.

(** The theorem on a new signal directory. *)
Lemma write_idempotent_witness :
  let w1 := _append_signal_row t0 t1 BUY fresh_writer in
  let same_process := _append_signal_row t0 t1 BUY w1 in
  let restarted :=
    _append_signal_row t0 t1 BUY
      {| _last_written := None; signal_files := signal_files w1 |} in
  let written :=
    default HEADER (signal_files fresh_writer !! out_path t0)
    ++ signal_row t0 t1 BUY in
  signal_files same_process !! out_path t0 = Some written
  /\ signal_files restarted !! out_path t0 = Some written
  /\ key_rows t0 t1 written = [signal_line t0 t1 BUY].
Proof.
  apply (write_idempotent t0 t1 BUY fresh_writer).
  - unfold in_range, t0, NS_PER_SEC, max_value. lia.
  - unfold in_range, t1, NS_PER_SEC, max_value. lia.
  - discriminate.
  - unfold fresh_writer. cbn [signal_files]. rewrite lookup_empty. exact I.
  - unfold fresh_writer. cbn [signal_files]. rewrite lookup_empty. exact I.
Defined.

(** C3, the claim as worded fails: a destination file that exists with no
    byte in it gets no header; the first process appends the row, and a
    new process that finds the file with this one line takes the line for
    the header ([len(lines) <= 1]) and appends the row again: two data
    rows hold the key. *)
Lemma append_twice_on_empty_file :
  let w1 := _append_signal_row t0 t1 BUY empty_file_writer in
  let restarted :=
    _append_signal_row t0 t1 BUY
      {| _last_written := None; signal_files := signal_files w1 |} in
  signal_files w1 !! out_path t0 = Some (signal_row t0 t1 BUY)
  /\ signal_files restarted !! out_path t0
     = Some (signal_row t0 t1 BUY ++ signal_row t0 t1 BUY)
  /\ key_rows t0 t1 (signal_row t0 t1 BUY ++ signal_row t0 t1 BUY)
     = [signal_line t0 t1 BUY; signal_line t0 t1 BUY]
  /\ length (key_rows t0 t1 (signal_row t0 t1 BUY ++ signal_row t0 t1 BUY))
     <> 1%nat.
Proof.
  cbv zeta.
  assert (H1 : _append_signal_row t0 t1 BUY empty_file_writer
               = {| _last_written := Some (t0, t1);
                    signal_files := {[ out_path t0 := signal_row t0 t1 BUY ]} |}).
  { unfold _append_signal_row, empty_file_writer.
    cbn [_last_written signal_files].
    rewrite bool_decide_eq_false_2 by done.
    rewrite lookup_singleton_eq. cbv beta iota. rewrite lookup_singleton_eq.
    change (_row_already_written (Some []) t0 t1) with false.
    cbv iota. by rewrite alter_singleton_eq. }
  rewrite H1. cbn [signal_files].
  split; [apply lookup_singleton_eq|]. split.
  - unfold _append_signal_row. cbn [_last_written signal_files].
    rewrite bool_decide_eq_false_2 by done.
    rewrite lookup_singleton_eq. cbv beta iota. rewrite lookup_singleton_eq.
    replace (_row_already_written (Some (signal_row t0 t1 BUY)) t0 t1)
      with false by (vm_compute; reflexivity).
    cbv iota. cbn [signal_files].
    by rewrite alter_singleton_eq, lookup_singleton_eq.
  - split; [vm_compute; reflexivity|]. vm_compute. discriminate.
Qed.

(** C9: the row written for a pair of timestamps, read back and
    normalized as the scan of the destination file does it (parsed, then
    formatted again), gives the pair as written, in the ['T'] encoding and
    in the space encoding, and the scan recognises the row as the
    candidate key; the timestamps read back are the written ones
    truncated to the second, hence the written ones when these are whole
    seconds. *)
Theorem written_row_round_trip (o c : Timestamp) (sig : Signal) :
  in_range o -> in_range c ->
  normalized (signal_line o c sig)
  = Some (_format_ts_iso_t o, _format_ts_iso_t c)
  /\ normalized (space_line o c sig)
     = Some (_format_ts_iso_t o, _format_ts_iso_t c)
  /\ row_matches (_format_ts_iso_t o) (_format_ts_iso_t c)
       (signal_line o c sig) = true
  /\ row_matches (_format_ts_iso_t o) (_format_ts_iso_t c)
       (space_line o c sig) = true
  /\ reparse (signal_line o c sig) = Some (floor_second o, floor_second c)
  /\ reparse (space_line o c sig) = Some (floor_second o, floor_second c)
  /\ (whole_second o -> whole_second c ->
      reparse (signal_line o c sig) = Some (o, c)
      /\ reparse (space_line o c sig) = Some (o, c)).
Proof.
  intros Ho Hc. destruct (reparse_written o c sig Ho Hc) as [HT HS].
  destruct (row_matches_written o c sig Ho Hc) as [HmT HmS].
  assert (HN : forall ln, reparse ln = Some (floor_second o, floor_second c) ->
             normalized ln = Some (_format_ts_iso_t o, _format_ts_iso_t c)).
  { intros ln Hln. unfold normalized. rewrite Hln.
    rewrite (format_floor o), (format_floor c). reflexivity. }
  split; [exact (HN _ HT)|]. split; [exact (HN _ HS)|].
  split; [exact HmT|]. split; [exact HmS|].
  split; [exact HT|]. split; [exact HS|].
  intros Hwo Hwc. rewrite HT, HS.
  rewrite (floor_whole_second o Hwo), (floor_whole_second c Hwc).
  split; reflexivity.
Qed.

(** The theorem on an open time with half a second. *)
Lemma written_row_round_trip_witness :
  normalized (signal_line t0_half t1 BUY)
  = Some (_format_ts_iso_t t0_half, _format_ts_iso_t t1)
  /\ normalized (space_line t0_half t1 BUY)
     = Some (_format_ts_iso_t t0_half, _format_ts_iso_t t1)
  /\ row_matches (_format_ts_iso_t t0_half) (_format_ts_iso_t t1)
       (signal_line t0_half t1 BUY) = true
  /\ row_matches (_format_ts_iso_t t0_half) (_format_ts_iso_t t1)
       (space_line t0_half t1 BUY) = true.
Proof.
  assert (Ho : in_range t0_half)
    by (unfold in_range, t0_half, NS_PER_SEC, max_value; lia).
  assert (Hc : in_range t1)
    by (unfold in_range, t1, NS_PER_SEC, max_value; lia).
  destruct (written_row_round_trip t0_half t1 BUY Ho Hc)
    as (H1 & H2 & H3 & H4 & _).
  exact (conj H1 (conj H2 (conj H3 H4))).
Defined.

End WriterClaims.

(** ** The window loader *)

Module LoaderFacts.
Import LinearCSVFolderWatcher RealTimeTrader.

Lemma sort_values_ascending (l : list Bar) : ascending l -> sort_values l = l.
Proof.
  induction l as [|a l IH]; [done|]. intros [Hhd Hl].
  unfold sort_values in *. cbn [foldr]. rewrite (IH Hl).
  destruct l as [|b l]; [done|]. cbn [insert_by_open_time].
  by rewrite (proj2 (Z.leb_le _ _) Hhd).
Qed.

Lemma ascending_app (l1 l2 : list Bar) :
  ascending (l1 ++ l2) -> ascending l1 /\ ascending l2.
Proof.
  induction l1 as [|a l1 IH]; [by split|].
  intros [Hhd Hl]. destruct (IH Hl) as [H1 H2].
  split; [|done]. split; [|done].
  destruct l1 as [|b l1]; [done|]. exact Hhd.
Qed.

Lemma ascending_lastn (k : nat) (l : list Bar) :
  ascending l -> ascending (lastn k l).
Proof.
  intros H. unfold lastn.
  rewrite <- (firstn_skipn (length l - k) l) in H.
  by apply ascending_app in H as [_ H].
Qed.

Lemma insert_by_open_time_length (b : Bar) (l : list Bar) :
  length (insert_by_open_time b l) = S (length l).
Proof.
  induction l as [|x l IH]; [done|]. cbn [insert_by_open_time].
  destruct (_ <=? _); cbn [length]; by rewrite ?IH.
Qed.

Lemma sort_values_length (l : list Bar) : length (sort_values l) = length l.
Proof.
  unfold sort_values. induction l as [|a l IH]; [done|].
  cbn [foldr length]. by rewrite insert_by_open_time_length, IH.
Qed.

Lemma to_datetime_rows_length (rows : list Row) (bars : list Bar) :
  to_datetime_rows rows = Some bars -> length bars = length rows.
Proof.
  revert bars. induction rows as [|r rows IH]; intros bars; simpl.
  - by intros [= <-].
  - destruct (to_datetime (r_open_time r)); [|done].
    destruct (to_datetime (r_close_time r)); [|done].
    destruct (to_datetime_rows rows) as [bs|]; [|done].
    intros [= <-]. simpl. by rewrite (IH bs).
Qed.

Lemma file_bars_length (f : CsvRead) (b : list Bar) :
  file_bars f = Some b -> Z.of_nat (length b) = bar_count f.
Proof.
  destruct f as [|[] [|r rows]]; unfold file_bars, bar_count;
    try done; try (by inversion 1).
  intros H. apply to_datetime_rows_length in H. by rewrite H.
Qed.

Lemma tail_lastn (k : Z) (l : list Bar) :
  0 <= k -> tail k l = lastn (Z.to_nat k) l.
Proof. intros Hk. unfold tail. by rewrite (proj2 (Z.leb_le _ _) Hk). Qed.

Lemma lastn_app_r {A} (k : nat) (a b : list A) :
  (k <= length b)%nat -> lastn k (a ++ b) = lastn k b.
Proof.
  intros Hk. unfold lastn. rewrite length_app, skipn_app.
  replace (length a + length b - k - length a)%nat with (length b - k)%nat
    by lia.
  rewrite skipn_all2 by lia. reflexivity.
Qed.

Lemma lastn_app_l {A} (k : nat) (a b : list A) :
  (length b <= k)%nat -> lastn k (a ++ b) = lastn (k - length b) a ++ b.
Proof.
  intros Hk. unfold lastn. rewrite length_app, skipn_app.
  replace (length a + length b - k - length a)%nat with 0%nat by lia.
  replace (length a + length b - k)%nat with (length a - (k - length b))%nat
    by lia.
  reflexivity.
Qed.

(** One step of the loop on a file that holds bars. *)
Lemma scan_step (n : Z) (f : string * CsvRead) (b : list Bar)
    (older : Dir CsvRead) (chunks : list (list Bar)) (rows : Z) :
  file_bars (snd f) = Some b -> rows < n ->
  scan n (f :: older) chunks rows
  = match b with
    | [] => scan n older chunks rows
    | _ :: _ =>
        let tl := lastn (Z.to_nat (n - rows)) (sort_values b) in
        if n <=? rows + Z.of_nat (length tl)
        then ScanEnd (chunks ++ [tl]) (rows + Z.of_nat (length tl))
        else scan n older (chunks ++ [tl]) (rows + Z.of_nat (length tl))
    end.
Proof.
  intros Hb Hrows.
  destruct f as [name [|[] [|r rows']]]; unfold file_bars, snd in Hb;
    try done; try (by injection Hb as <-).
  cbn [scan]. rewrite Hb.
    assert (Hlen := to_datetime_rows_length _ _ Hb).
    destruct b as [|b0 b]; [done|].
    rewrite (proj2 (Z.leb_gt _ _)) by lia.
    rewrite tail_lastn by lia. reflexivity.
Qed.

Lemma ascending_concat (l : list (list Bar)) :
  ascending (concat l) -> Forall ascending l.
Proof.
  induction l as [|b l IH]; [constructor|]. cbn [concat]. intros H.
  apply ascending_app in H as [Hb Hl]. constructor; auto.
Qed.

Lemma length_concat_rev {A} (l : list (list A)) :
  length (concat (rev l)) = length (concat l).
Proof.
  induction l as [|b l IH]; [done|]. cbn [rev concat].
  rewrite concat_app, !length_app, IH. cbn [concat]. rewrite app_nil_r. lia.
Qed.

Lemma concat_rev_cons {A} (b : list A) (bs : list (list A)) :
  concat (rev (b :: bs)) = concat (rev bs) ++ b.
Proof. cbn [rev]. rewrite concat_app. cbn [concat]. by rewrite app_nil_r. Qed.

Lemma concat_rev_snoc {A} (chunks : list (list A)) (tl : list A) :
  concat (rev (chunks ++ [tl])) = tl ++ concat (rev chunks).
Proof. by rewrite rev_app_distr. Qed.

Lemma scan_enough (n : Z) (fs : Dir CsvRead) (bs : list (list Bar)) :
  Forall2 (fun f b => file_bars (snd f) = Some b) fs bs ->
  Forall ascending bs ->
  forall (chunks : list (list Bar)) (rows : Z),
  0 <= rows < n ->
  n - rows <= Z.of_nat (length (concat bs)) ->
  exists chunks',
    scan n fs chunks rows = ScanEnd chunks' n
    /\ concat (rev chunks')
       = lastn (Z.to_nat (n - rows)) (concat (rev bs)) ++ concat (rev chunks).
Proof.
  induction 1 as [|f b fs bs Hb _ IH]; intros Hasc chunks rows Hrows Hneed.
  { simpl in Hneed. lia. }
  inversion Hasc as [|? ? Hab Hasc']; subst.
  rewrite (scan_step n f b fs chunks rows Hb) by lia.
  rewrite concat_rev_cons.
  destruct b as [|b0 b].
  - rewrite app_nil_r. apply IH; [done|done|]. exact Hneed.
  - rewrite (sort_values_ascending _ Hab). cbv zeta.
    set (tl := lastn (Z.to_nat (n - rows)) (b0 :: b)).
    assert (Hlen : length tl
                   = Nat.min (Z.to_nat (n - rows)) (length (b0 :: b)))
      by apply lastn_length.
    destruct (Z.leb_spec n (rows + Z.of_nat (length tl))) as [Hle|Hgt].
    + exists (chunks ++ [tl]). split; [f_equal; lia|].
      rewrite concat_rev_snoc, lastn_app_r by lia. reflexivity.
    + assert (Htl : tl = b0 :: b) by (apply lastn_all; lia).
      rewrite Htl in *.
      destruct (IH Hasc' (chunks ++ [b0 :: b])
                  (rows + Z.of_nat (length (b0 :: b))))
        as (chunks' & Hscan & Hcat).
      { lia. }
      { cbn [concat] in Hneed. rewrite length_app in Hneed. lia. }
      exists chunks'. split; [done|]. rewrite Hcat.
      rewrite concat_rev_snoc, lastn_app_l by lia. rewrite <- app_assoc.
      f_equal. f_equal. lia.
Qed.

Lemma scan_rows (n : Z) (fs : Dir CsvRead) :
  forall (chunks : list (list Bar)) (rows : Z) chunks' rows',
  rows = Z.of_nat (length (concat chunks)) ->
  (chunks <> [] -> 0 < n) ->
  scan n fs chunks rows = ScanEnd chunks' rows' ->
  rows' = Z.of_nat (length (concat chunks')) /\ (chunks' <> [] -> 0 < n).
Proof.
  induction fs as [|[name [|[] [|r rs]]] fs IH];
    intros chunks rows chunks' rows' Hrows Hpos; cbn [scan];
    try discriminate; try (by apply IH).
  - by intros [= <- <-].
  - destruct (to_datetime_rows (r :: rs)) as [bars|]; [|discriminate].
    cbv zeta. destruct (Z.leb_spec (n - rows) 0) as [Hle|Hgt].
    + by intros [= <- <-].
    + set (tl := tail (n - rows) (sort_values bars)).
      assert (Hrows' : rows + Z.of_nat (length tl)
                       = Z.of_nat (length (concat (chunks ++ [tl])))).
      { rewrite concat_app, length_app. cbn [concat]. rewrite app_nil_r. lia. }
      assert (Hpos' : chunks ++ [tl] <> [] -> 0 < n) by (intros _; lia).
      destruct (n <=? rows + Z.of_nat (length tl)).
      * intros [= <- <-]. by split.
      * by apply IH.
Qed.

Lemma never_short (dir : Dir CsvRead) (n : Z) (w : list Bar) :
  _load_latest_window dir n = Return (Some w) -> Z.of_nat (length w) = n.
Proof.
  unfold _load_latest_window.
  destruct (sorted (glob_csv dir)) as [|f0 csvs]; [discriminate|].
  destruct (scan n (rev (f0 :: csvs)) [] 0) as [chunks rows| |e] eqn:Hscan;
    try discriminate.
  destruct (Z.ltb_spec rows n) as [Hlt|Hge]; [discriminate|].
  destruct (scan_rows n _ [] 0 chunks rows eq_refl ltac:(done) Hscan)
    as [Hrows Hpos].
  destruct (rev chunks) as [|c0 cs] eqn:Hrev; [discriminate|].
  intros Hw.
  assert (Hw' : tail n (sort_values (concat (c0 :: cs))) = w) by congruence.
  rewrite <- Hw', <- Hrev.
  assert (0 < n).
  { apply Hpos. intros ->. discriminate. }
  rewrite tail_lastn by lia.
  rewrite lastn_length, sort_values_length, length_concat_rev. lia.
Qed.

Lemma total_bars_nonneg (fs : Dir CsvRead) : 0 <= total_bars fs.
Proof.
  induction fs as [|[name [|cols rows]] fs IH]; cbn [total_bars snd bar_count];
    lia.
Qed.

Lemma total_bars_app (a b : Dir CsvRead) :
  total_bars (a ++ b) = total_bars a + total_bars b.
Proof. induction a as [|f a IH]; cbn [app total_bars]; lia. Qed.

Lemma total_bars_rev (fs : Dir CsvRead) : total_bars (rev fs) = total_bars fs.
Proof.
  induction fs as [|f fs IH]; [done|]. cbn [rev].
  rewrite total_bars_app, IH. cbn [total_bars]. lia.
Qed.

Lemma scan_short (n : Z) (fs : Dir CsvRead) :
  Forall (fun f => bar_file (snd f)) fs ->
  forall (chunks : list (list Bar)) (rows : Z),
  0 <= rows -> rows + total_bars fs < n ->
  scan n fs chunks rows = ScanNone
  \/ exists chunks' rows',
       scan n fs chunks rows = ScanEnd chunks' rows' /\ rows' < n.
Proof.
  induction 1 as [|f fs Hf _ IH]; intros chunks rows Hrows Htot.
  { right. exists chunks, rows. split; [done|]. simpl in Htot. lia. }
  cbn [total_bars] in Htot. pose proof (total_bars_nonneg fs) as Hnn.
  destruct Hf as [Herr|[b Hb]].
  { left. destruct f as [name rd]. simpl in Herr. by subst. }
  pose proof (file_bars_length _ _ Hb) as Hlen.
  rewrite (scan_step n f b fs chunks rows Hb) by lia.
  destruct b as [|b0 b].
  - apply IH; [done|]. simpl in Hlen. lia.
  - cbv zeta. set (tl := lastn (Z.to_nat (n - rows)) (sort_values (b0 :: b))).
    assert (Htl : (length tl <= length (b0 :: b))%nat).
    { subst tl. rewrite lastn_length, sort_values_length. lia. }
    rewrite (proj2 (Z.leb_gt _ _)) by lia.
    apply IH; lia.
Qed.

Lemma scan_prefix (n : Z) (newer : Dir CsvRead) (bs : list (list Bar))
    (rest : Dir CsvRead) :
  Forall2 (fun f b => file_bars (snd f) = Some b) newer bs ->
  forall (chunks : list (list Bar)) (rows : Z),
  0 <= rows -> rows + Z.of_nat (length (concat bs)) < n ->
  exists chunks' rows',
    rows' < n
    /\ scan n (newer ++ rest) chunks rows = scan n rest chunks' rows'.
Proof.
  induction 1 as [|f b fs bs Hb _ IH]; intros chunks rows Hrows Htot.
  { exists chunks, rows. split; [|done]. simpl in Htot. lia. }
  cbn [concat] in Htot. rewrite length_app in Htot.
  cbn [app]. rewrite (scan_step n f b _ chunks rows Hb) by lia.
  destruct b as [|b0 b].
  - apply IH; [done|]. simpl in Htot. lia.
  - cbv zeta. set (tl := lastn (Z.to_nat (n - rows)) (sort_values (b0 :: b))).
    assert (Htl : (length tl <= length (b0 :: b))%nat).
    { subst tl. rewrite lastn_length, sort_values_length. lia. }
    rewrite (proj2 (Z.leb_gt _ _)) by lia.
    apply IH; lia.
Qed.


Lemma files_bars_Forall2 (files : Dir CsvRead) (bs : list (list Bar)) :
  files_bars files = Some bs ->
  Forall2 (fun f b => file_bars (snd f) = Some b) files bs.
Proof.
  revert bs. induction files as [|f files IH]; intros bs; cbn [files_bars].
  - intros [= <-]. constructor.
  - destruct (file_bars (snd f)) as [b|] eqn:Hb; [|done].
    destruct (files_bars files) as [bs'|]; [|done].
    intros [= <-]. constructor; auto.
Qed.

Lemma Forall2_rev {A B} (P : A -> B -> Prop) (l : list A) (k : list B) :
  Forall2 P l k -> Forall2 P (rev l) (rev k).
Proof.
  induction 1 as [|x y l k Hxy _ IH]; [constructor|]. cbn [rev].
  apply Forall2_app; [done|]. by repeat constructor.
Qed.

Lemma load_enough (dir : Dir CsvRead) (n : Z) (per_file : list (list Bar)) :
  files_bars (sorted (glob_csv dir)) = Some per_file ->
  ascending (concat per_file) ->
  1 <= n <= Z.of_nat (length (concat per_file)) ->
  _load_latest_window dir n
  = Return (Some (lastn (Z.to_nat n) (concat per_file))).
Proof.
  intros Hfiles Hasc Hn. unfold _load_latest_window.
  destruct (sorted (glob_csv dir)) as [|f0 csvs] eqn:Hcsv.
  { injection Hfiles as <-. simpl in Hn. lia. }
  apply files_bars_Forall2, Forall2_rev in Hfiles.
  destruct (scan_enough n _ _ Hfiles) with (chunks := @nil (list Bar))
                                           (rows := 0)
    as (chunks' & -> & Hcat).
  { apply Forall_rev, ascending_concat, Hasc. }
  { lia. }
  { rewrite length_concat_rev. lia. }
  rewrite rev_involutive, Z.sub_0_r in Hcat. cbn [rev concat] in Hcat.
  rewrite app_nil_r in Hcat.
  rewrite Z.ltb_irrefl.
  assert (Hlen : length (concat (rev chunks')) = Z.to_nat n).
  { rewrite Hcat, lastn_length. lia. }
  destruct (rev chunks') as [|c0 cs] eqn:Hrev.
  { simpl in Hlen. lia. }
  rewrite Hcat.
  rewrite (sort_values_ascending _ (ascending_lastn _ _ Hasc)).
  rewrite tail_lastn by lia.
  rewrite (lastn_all (Z.to_nat n)); [done|]. rewrite lastn_length. lia.
Qed.

End LoaderFacts.

Module TraderClaims.
Import LinearCSVFolderWatcher RealTimeTrader LoaderFacts.

(** C2, the claim as worded fails at n = 0: at least zero bars exist, yet
    the load raises (no frame to concatenate) instead of returning the
    empty window. *)
Lemma window_fails_at_zero :
  files_bars (sorted (glob_csv three_days)) = Some three_days_bars
  /\ ascending (concat three_days_bars)
  /\ 0 <= Z.of_nat (length (concat three_days_bars))
  /\ _load_latest_window three_days 0 = Raise NoObjectsToConcatenate
  /\ _load_latest_window three_days 0
     <> Return (Some (lastn (Z.to_nat 0) (concat three_days_bars))).
Proof.
  split; [vm_compute; reflexivity|]. split; [vm_compute; intuition discriminate|].
  split; [vm_compute; discriminate|]. split; [vm_compute; reflexivity|].
  vm_compute. discriminate.
Qed.

(** C2, amended: when the bars of the files, taken in the order of the file
    names, have non-decreasing [open_time], and 1 <= n <= their number,
    [_load_latest_window n] returns exactly the last n of them, in
    ascending order, wherever the file boundaries fall. *)
Theorem window_correct (dir : Dir CsvRead) (n : Z)
    (per_file : list (list Bar)) :
  files_bars (sorted (glob_csv dir)) = Some per_file ->
  ascending (concat per_file) ->
  1 <= n <= Z.of_nat (length (concat per_file)) ->
  _load_latest_window dir n
  = Return (Some (lastn (Z.to_nat n) (concat per_file)))
  /\ Z.of_nat (length (lastn (Z.to_nat n) (concat per_file))) = n
  /\ ascending (lastn (Z.to_nat n) (concat per_file)).
Proof.
  intros Hfiles Hasc Hn. split; [by apply load_enough|]. split.
  - rewrite lastn_length. lia.
  - by apply ascending_lastn.
Qed.

(** The theorem on three files, for a window that spans two of them. *)
Lemma window_correct_witness :
  _load_latest_window three_days 2
  = Return (Some [bar 1735779600000000000 1735783200000000000;
                  bar 1735862400000000000 1735866000000000000]).
Proof.
  refine (proj1 (window_correct three_days 2 three_days_bars _ _ _)).
  - vm_compute. reflexivity.
  - vm_compute. intuition discriminate.
  - vm_compute. intuition discriminate.
Defined.




(** C7, the claim as worded fails: a row whose timestamp does not parse,
    or a file without the time columns, makes the load raise; the error
    leaves [on_new_data] and ends the polling loop. *)
Lemma malformed_file_raises :
  _load_latest_window malformed_day 1 = Raise DateParseError
  /\ on_new_data hold_always malformed_day day1 (txt "r1") (trader_of 1)
     = Raise DateParseError
  /\ _load_latest_window no_time_columns_day 1 = Raise MissingTimeColumns
  /\ start hold_always
       [Some {| raw := dir_day1; frames := three_days |};
        Some {| raw := append_to day1 (txt "r1" ++ [LF]) dir_day1;
                frames := malformed_day |}]
       init (trader_of 1)
     = Died DateParseError.
Proof. repeat split; vm_compute; reflexivity. Qed.

(** C7, amended: when [pd.read_csv] fails on a file that the scan reaches
    before n bars are gathered, the load is abandoned and returns [None];
    [on_new_data] then returns without raising and changes nothing, so the
    next call loads again. *)
Theorem unreadable_file_abandons_load (dir : Dir CsvRead) (n : Z)
    (newer : Dir CsvRead) (bad : string * CsvRead) (older : Dir CsvRead)
    (bs : list (list Bar)) :
  rev (sorted (glob_csv dir)) = newer ++ bad :: older ->
  snd bad = ReadError ->
  files_bars newer = Some bs ->
  Z.of_nat (length (concat bs)) < n ->
  _load_latest_window dir n = Return None
  /\ forall (RNG : Type) (rng_choice : RNG -> Signal * RNG)
       (filename : string) (line : text) (t : Trader RNG),
       window_len t = n ->
       on_new_data rng_choice dir filename line t = Return t.
Proof.
  intros Hrev Hbad Hnewer Hlt.
  assert (Hload : _load_latest_window dir n = Return None).
  { unfold _load_latest_window. rewrite Hrev.
    destruct (sorted (glob_csv dir)) as [|f0 csvs]; [done|].
    destruct (scan_prefix n newer bs (bad :: older)
                (files_bars_Forall2 _ _ Hnewer) [] 0)
      as (chunks' & rows' & _ & ->); [lia|lia|].
    destruct bad as [name rd]. simpl in Hbad. by subst. }
  split; [done|]. intros RNG rng_choice filename line t Ht.
  unfold on_new_data. by rewrite Ht, Hload.
Qed.

(** The theorem on a newest file that cannot be read yet. *)
Lemma unreadable_file_abandons_load_witness :
  _load_latest_window mid_write_days 1 = Return None
  /\ on_new_data hold_always mid_write_days day2 (txt "r1") (trader_of 1)
     = Return (trader_of 1).
Proof.
  destruct (unreadable_file_abandons_load mid_write_days 1 []
              (day2, ReadError) [(day1, bars_day1)] [])
    as [Hload Hcall].
  - reflexivity.
  - reflexivity.
  - reflexivity.
  - simpl. lia.
  - split; [exact Hload|]. by apply Hcall.
Defined.

(** C10: [on_new_data] ignores its [filename] and [line] arguments: with
    the same data directory, strategy state and writer state, two calls
    with different arguments give the same result (state of the strategy,
    writer state and signal files, or error); so the calls of a poll give
    the same result whatever file names and lines they carry. *)
Theorem on_new_data_ignores_arguments (RNG : Type)
    (rng_choice : RNG -> Signal * RNG) (data_dir : Dir CsvRead)
    (filename1 filename2 : string) (line1 line2 : text) (t : Trader RNG)
    (fired : list Event) :
  on_new_data rng_choice data_dir filename1 line1 t
  = on_new_data rng_choice data_dir filename2 line2 t
  /\ deliver rng_choice data_dir fired t
     = deliver rng_choice data_dir
         (map (fun _ => (filename2, line2)) fired) t.
Proof.
  split; [reflexivity|]. revert t.
  induction fired as [|[filename line] fired IH]; intros t; [reflexivity|].
  cbn [map deliver].
  change (on_new_data rng_choice data_dir filename line t)
    with (on_new_data rng_choice data_dir filename2 line2 t).
  destruct (on_new_data rng_choice data_dir filename2 line2 t) as [t'|e];
    [apply IH|reflexivity].
Qed.

(** C8, the code on a missing watch root: after any number of polls the
    real-time process is still polling, with nothing raised and nothing
    changed, while the backtest path raises [FileNotFoundError]. *)
Theorem missing_watch_root_keeps_polling (RNG : Type)
    (rng_choice : RNG -> Signal * RNG) (num_past_timesteps : Z) (seed : RNG)
    (signals : gmap string text) (polls : nat) :
  Main.main_realtime rng_choice num_past_timesteps seed signals
    (repeat None polls)
  = StillPolling init
      {| window_len := num_past_timesteps; strategy_rng := seed;
         writer := {| _last_written := None; signal_files := signals |} |}
  /\ Main.Backtester_list_csvs None = Raise FileNotFoundError.
Proof.
  split; [|reflexivity]. unfold Main.main_realtime.
  induction polls as [|k IH]; [reflexivity|]. exact IH.
Qed.

End TraderClaims.

(** * Further properties *)

(** ** The folder watcher *)

Module WatcherBehaviour.
Import LinearCSVFolderWatcher WatcherFacts.

(** X1: a second poll of the same folder finds nothing new: it makes
    no call and leaves the watcher's state as it is. *)
Theorem poll_twice_idle (dir : Dir text) (w : Watcher) :
  _poll_once dir (fst (_poll_once dir w)) = (fst (_poll_once dir w), []).
Proof.
  destruct (last (sorted (glob_csv dir))) as [latest|] eqn:Hlast.
  2:{ unfold _poll_once. by rewrite Hlast. }
  destruct (_bootstrapped w) eqn:Hboot.
  - rewrite (poll_bootstrapped dir w latest Hlast Hboot).
    destruct (detect_new_files (sorted (glob_csv dir)) w) as [w1 ev1] eqn:Hdet.
    destruct (_read_appends latest w1) as [w2 ev2] eqn:Hread.
    cbn [fst].
    destruct (read_appends_spec latest w1)
      as (w2' & evs & Hread' & Hb2 & Hk2 & _).
    rewrite Hread in Hread'. injection Hread' as <- <-.
    destruct (read_appends_offset latest w1) as (o & Ho & Hle).
    rewrite Hread in Ho. simpl in Ho.
    pose proof (detect_all_known (sorted (glob_csv dir)) w []) as Hall.
    unfold detect_new_files in Hdet. rewrite Hdet in Hall. simpl in Hall.
    destruct (detect_fold_spec (sorted (glob_csv dir)) w [])
      as (w1' & new & Hfold & Hb1 & _).
    rewrite Hdet in Hfold. injection Hfold as <- _.
    apply (poll_settled dir w2 latest o); try done.
    + congruence.
    + by rewrite Hk2.
  - assert (Hpoll : _poll_once dir w
                    = (bootstrap (sorted (glob_csv dir)) w, [])).
    { unfold _poll_once. by rewrite Hlast, Hboot. }
    rewrite Hpoll. simpl.
    apply (poll_settled dir _ latest (length (snd latest))); try done.
    + apply bootstrap_fold_known.
    + unfold bootstrap. simpl. apply last_Some in Hlast as [l' ->].
      rewrite fold_left_app. simpl. apply lookup_insert_eq.
Qed.

Lemma lstrip_head (s : text) :
  match lstrip s with [] => True | a :: _ => is_space a = false end.
Proof.
  induction s as [|a s IH]; [done|]. cbn [lstrip].
  destruct (is_space a) eqn:Ha; [exact IH|exact Ha].
Qed.

Lemma lstrip_suffix (s : text) : exists pre, s = pre ++ lstrip s.
Proof.
  induction s as [|a s [pre IH]]; [by exists []|]. cbn [lstrip].
  destruct (is_space a); [|by exists []].
  exists (a :: pre). cbn [app]. by rewrite <- IH.
Qed.

Lemma strip_trimmed (s : text) : trimmed (strip s).
Proof.
  unfold trimmed, strip, rstrip. rewrite rev_involutive.
  split; [|apply lstrip_head].
  destruct (lstrip_suffix (rev (lstrip s))) as [pre Hpre].
  destruct (rev (lstrip (rev (lstrip s)))) as [|a r] eqn:Hz; [done|].
  apply (f_equal (@rev ascii)) in Hpre.
  rewrite rev_involutive, rev_app_distr, Hz in Hpre.
  pose proof (lstrip_head s) as Hhead. rewrite Hpre in Hhead. exact Hhead.
Qed.

Lemma data_lines_In (content x : text) :
  In x (data_lines content) ->
  x <> [] /\ _is_header x = false /\ trimmed x.
Proof.
  unfold data_lines, stripped_lines. intros H.
  apply filter_In in H as [H Hh]. apply filter_In in H as [H Hne].
  apply in_map_iff in H as (raw & <- & _).
  split; [by intros Heq; rewrite Heq in Hne|].
  split; [by apply negb_true_iff|apply strip_trimmed].
Qed.

Lemma appended_lines_In (chunk x : text) :
  In x (appended_lines chunk) ->
  x <> [] /\ _is_header x = false /\ trimmed x.
Proof.
  unfold appended_lines. intros H. apply filter_In in H as [H Hf].
  apply in_map_iff in H as (raw & <- & _).
  apply negb_true_iff, orb_false_iff in Hf as [Hne Hh].
  apply negb_false_iff in Hne.
  split; [by intros Heq; rewrite Heq in Hne|].
  split; [done|apply strip_trimmed].
Qed.

Lemma first_row_call_In (p : string) (content : text) (ev : Event) :
  In ev (first_row_call p content) ->
  fst ev = p /\ In (snd ev) (data_lines (universal_newlines content)).
Proof.
  unfold first_row_call. destruct (data_lines _) as [|first rest]; [done|].
  intros [<-|[]]. split; [done|by left].
Qed.

Lemma detect_fold_events (l : Dir text) (w : Watcher) (evs : list Event) :
  exists new,
    snd (fold_left detect_step l (w, evs)) = evs ++ new
    /\ Forall (fun ev => exists e, In e l /\ fst ev = fst e
                 /\ In (snd ev) (data_lines (universal_newlines (snd e))))
              new.
Proof.
  revert w evs. induction l as [|e l IH]; intros w evs; cbn [fold_left].
  - exists []. split; [by rewrite app_nil_r|constructor].
  - destruct (decide (fst e ∈ _known_files w)) as [Hk|Hk].
    + rewrite detect_step_known by done.
      destruct (IH w evs) as (new & -> & Hnew). exists new. split; [done|].
      eapply Forall_impl; [exact Hnew|].
      intros ev (e' & He' & H). exists e'. split; [by right|done].
    + rewrite detect_step_unknown by done.
      destruct (IH (set_offset (fst e) (length (snd e))
                      (set_offset (fst e) 0%nat (add_known (fst e) w)))
                   (evs ++ first_row_call (fst e) (snd e)))
        as (new & -> & Hnew).
      exists (first_row_call (fst e) (snd e) ++ new).
      split; [by rewrite app_assoc|]. apply Forall_app. split.
      * apply List.Forall_forall. intros ev Hev.
        apply first_row_call_In in Hev as [Hn Hl].
        exists e. split; [by left|done].
      * eapply Forall_impl; [exact Hnew|].
        intros ev (e' & He' & H). exists e'. split; [by right|done].
Qed.

Lemma read_appends_events (path : string * text) (w : Watcher) :
  Forall (fun ev => fst ev = fst path
            /\ exists chunk, In (snd ev) (appended_lines chunk))
         (snd (_read_appends path w)).
Proof.
  unfold _read_appends. destruct (_offsets w !! fst path) as [off|];
    [|constructor].
  destruct (_ <=? _)%nat; [constructor|]. cbn [snd].
  apply Forall_map. apply List.Forall_forall. intros x Hx. simpl.
  split; [done|]. by eexists.
Qed.

(** X2: every call of a poll names a [*.csv] file of the folder and
    carries a line that is not empty, not a header, and stripped at both
    ends. *)
Theorem poll_calls_well_formed (dir : Dir text) (w : Watcher) (ev : Event) :
  In ev (snd (_poll_once dir w)) ->
  (exists content, In (fst ev, content) dir)
  /\ endswith (txt (fst ev)) (txt ".csv") = true
  /\ snd ev <> [] /\ _is_header (snd ev) = false /\ trimmed (snd ev).
Proof.
  unfold _poll_once.
  destruct (last (sorted (glob_csv dir))) as [latest|] eqn:Hlast; [|done].
  destruct (_bootstrapped w); simpl; [|done].
  unfold detect_new_files.
  destruct (detect_fold_events (sorted (glob_csv dir)) w [])
    as (new & Hnew & Hall).
  destruct (fold_left detect_step (sorted (glob_csv dir)) (w, []))
    as [w1 fired1]. simpl in Hnew. subst fired1.
  assert (Hlatest : In latest (sorted (glob_csv dir))).
  { apply last_Some in Hlast as [l' ->]. apply in_or_app. right. by left. }
  pose proof (read_appends_events latest w1) as Hread.
  destruct (_read_appends latest w1) as [w2 fired2]. cbn [snd] in *.
  intros Hin. apply in_app_or in Hin as [Hin|Hin].
  - rewrite List.Forall_forall in Hall.
    destruct (Hall ev Hin) as (e & He & Hn & Hl).
    apply listing_In in He as [He Hcsv]. rewrite Hn.
    split; [exists (snd e); by destruct e|]. split; [done|].
    by apply data_lines_In in Hl.
  - rewrite List.Forall_forall in Hread.
    destruct (Hread ev Hin) as (Hn & chunk & Hx).
    apply listing_In in Hlatest as [He Hcsv]. rewrite Hn.
    split; [exists (snd latest); by destruct latest|]. split; [done|].
    by apply appended_lines_In in Hx.
Qed.

Lemma poll_calls_well_formed_witness :
  (exists content, In (day2, content) dir_day2)
  /\ endswith (txt day2) (txt ".csv") = true
  /\ txt "r5,1" <> [] /\ _is_header (txt "r5,1") = false
  /\ trimmed (txt "r5,1").
Proof.
  apply (poll_calls_well_formed dir_day2 (fst (_poll_once dir_day1 init))
           (day2, txt "r5,1")).
  vm_compute. by left.
Defined.

Lemma tracking_poll_other (f g : string) (data : text) (dir : Dir text)
    (w : Watcher) :
  g <> f -> tracking f dir w ->
  _poll_once (append_to g data dir) w = (w, [])
  /\ tracking f (append_to g data dir) w.
Proof.
  intros Hne (Hboot & Hknown & c & Hlast & Hoff).
  assert (Hlast' : last (sorted (glob_csv (append_to g data dir)))
                   = Some (f, c)).
  { rewrite listing_append_to, fmap_last, Hlast. simpl.
    by rewrite (proj2 (String.eqb_neq _ _)). }
  assert (Hknown' : Forall (fun e => fst e ∈ _known_files w)
                           (sorted (glob_csv (append_to g data dir)))).
  { rewrite listing_append_to. apply Forall_map.
    eapply Forall_impl; [exact Hknown|].
    intros e He. simpl. by destruct (String.eqb _ _). }
  split.
  - by apply (poll_settled _ w (f, c) (length c)).
  - split; [done|]. split; [done|]. by exists c.
Qed.

(** X3: rows appended to a file that is not the most recent one are
    never delivered. *)
Theorem sealed_file_appends_dropped (f g : string)
    (batches : list (list Line)) (dir : Dir text) (w : Watcher) :
  g <> f -> tracking f dir w ->
  polls_with_appends g batches dir w = [].
Proof.
  intros Hne. revert dir w.
  induction batches as [|b batches IH]; intros dir w Htr; [done|].
  cbn [polls_with_appends].
  destruct (tracking_poll_other f g (write_lines b) dir w Hne Htr)
    as [-> Htr'].
  by apply IH.
Qed.

Lemma sealed_file_appends_dropped_witness :
  polls_with_appends day1 plain_batches dir_day2
    (fst (_poll_once dir_day2 init)) = [].
Proof.
  apply (sealed_file_appends_dropped day2 day1).
  - discriminate.
  - apply (bootstrap_tracking day2 (snd (hd (day2, []) dir_day2))).
    reflexivity.
Defined.

(** X4: a new file that sorts last is taken over as the active file:
    the poll that finds it makes the call of its first row, and the rows
    appended to it afterwards are each delivered once. *)
Theorem new_active_file_then_appends (dir : Dir text) (w : Watcher)
    (p : string) (content : text) (batches : list (list Line)) :
  List.NoDup (names dir) ->
  _bootstrapped w = true ->
  last (sorted (glob_csv dir)) = Some (p, content) ->
  p ∉ _known_files w ->
  Forall (Forall data_line) batches ->
  List.filter (fun ev => String.eqb (fst ev) p) (snd (_poll_once dir w))
  = first_row_call p content
  /\ polls_with_appends p batches dir (fst (_poll_once dir w))
     = map (fun l => (p, strip (fst l))) (concat batches).
Proof.
  intros Hnd Hboot Hlast Hp Hall.
  assert (Hin : In (p, content) (glob_csv dir)).
  { eapply Permutation_in; [apply sorted_perm|].
    apply last_Some in Hlast as [l' ->]. apply in_or_app. right. by left. }
  destruct (poll_new_file dir w p content Hnd Hboot Hin Hp) as [Hfil Hoff].
  destruct (poll_all_known dir w Hboot) as [Hboot' Hknown].
  split; [done|].
  apply polls_with_appends_tracking; [|done].
  split; [done|]. split; [done|]. by exists content.
Qed.

Lemma new_active_file_then_appends_witness :
  List.filter (fun ev => String.eqb (fst ev) day2)
    (snd (_poll_once dir_day2 (fst (_poll_once dir_day1 init))))
  = first_row_call day2 (snd (hd (day2, []) dir_day2))
  /\ polls_with_appends day2 plain_batches dir_day2
       (fst (_poll_once dir_day2 (fst (_poll_once dir_day1 init))))
     = map (fun l => (day2, strip (fst l))) (concat plain_batches).
Proof.
  apply (new_active_file_then_appends dir_day2
           (fst (_poll_once dir_day1 init)) day2
           (snd (hd (day2, []) dir_day2)) plain_batches).
  - repeat constructor; simpl; intuition discriminate.
  - reflexivity.
  - reflexivity.
  - vm_compute. discriminate.
  - repeat constructor.
Defined.

(** X5: when the active file is rewritten with content that is not
    longer than the recorded offset, the poll makes no call and keeps the
    offset. *)
Theorem shrunk_file_not_reread (f : string) (shorter : text)
    (dir : Dir text) (w : Watcher) (c : text) :
  _bootstrapped w = true ->
  Forall (fun e => fst e ∈ _known_files w) (sorted (glob_csv dir)) ->
  last (sorted (glob_csv dir)) = Some (f, c) ->
  _offsets w !! f = Some (length c) ->
  (length shorter <= length c)%nat ->
  _poll_once (set_content f shorter dir) w = (w, []).
Proof.
  intros Hboot Hknown Hlast Hoff Hle.
  assert (Hlisting : sorted (glob_csv (set_content f shorter dir))
            = map (fun e => if String.eqb (fst e) f then (fst e, shorter)
                            else e) (sorted (glob_csv dir))).
  { unfold set_content. rewrite glob_csv_map, sorted_map; [done| |];
      intros e; by destruct (String.eqb _ _). }
  apply (poll_settled _ w (f, shorter) (length c)); try done.
  - rewrite Hlisting, fmap_last, Hlast. simpl. by rewrite String.eqb_refl.
  - rewrite Hlisting. apply Forall_map. eapply Forall_impl; [exact Hknown|].
    intros e He. simpl. by destruct (String.eqb _ _).
Qed.

Lemma shrunk_file_not_reread_witness :
  _poll_once (set_content day1 (txt "r9,9" ++ [LF]) dir_day1)
    (fst (_poll_once dir_day1 init))
  = (fst (_poll_once dir_day1 init), []).
Proof.
  apply (shrunk_file_not_reread day1 (txt "r9,9" ++ [LF]) dir_day1
           (fst (_poll_once dir_day1 init)) (snd (hd (day1, []) dir_day1))).
  - reflexivity.
  - destruct (bootstrap_tracking day1 (snd (hd (day1, []) dir_day1)) dir_day1
                eq_refl) as (_ & Hk & _). exact Hk.
  - reflexivity.
  - vm_compute. reflexivity.
  - vm_compute. lia.
Defined.

Lemma bootstrap_fold_dom (l : Dir text) (w : Watcher) :
  dom (_offsets w) = _known_files w ->
  dom (_offsets (fold_left bootstrap_step l w))
  = _known_files (fold_left bootstrap_step l w).
Proof.
  revert w. induction l as [|e l IH]; intros w Hw; [done|].
  cbn [fold_left]. apply IH. simpl. by rewrite dom_insert_L, Hw.
Qed.

Lemma detect_fold_dom (l : Dir text) (w : Watcher) (evs : list Event) :
  dom (_offsets w) = _known_files w ->
  dom (_offsets (fst (fold_left detect_step l (w, evs))))
  = _known_files (fst (fold_left detect_step l (w, evs))).
Proof.
  revert w evs. induction l as [|e l IH]; intros w evs Hw; [done|].
  cbn [fold_left].
  destruct (decide (fst e ∈ _known_files w)) as [Hk|Hk].
  - rewrite detect_step_known by done. by apply IH.
  - rewrite detect_step_unknown by done. apply IH. simpl.
    rewrite !dom_insert_L, Hw. by rewrite (assoc_L (∪)), (idemp_L (∪)).
Qed.

Lemma poll_dom (dir : Dir text) (w : Watcher) :
  dom (_offsets w) = _known_files w ->
  dom (_offsets (fst (_poll_once dir w)))
  = _known_files (fst (_poll_once dir w)).
Proof.
  intros Hw.
  destruct (last (sorted (glob_csv dir))) as [latest|] eqn:Hlast.
  2:{ unfold _poll_once. by rewrite Hlast. }
  destruct (_bootstrapped w) eqn:Hboot.
  - rewrite (poll_bootstrapped dir w latest Hlast Hboot).
    pose proof (detect_fold_dom (sorted (glob_csv dir)) w [] Hw) as Hdom.
    pose proof (detect_all_known (sorted (glob_csv dir)) w []) as Hall.
    unfold detect_new_files.
    destruct (fold_left detect_step (sorted (glob_csv dir)) (w, []))
      as [w1 fired1]. cbn [fst] in *.
    assert (Hk : fst latest ∈ _known_files w1).
    { rewrite List.Forall_forall in Hall. apply Hall.
      apply last_Some in Hlast as [l' ->]. apply in_or_app. right. by left. }
    unfold _read_appends.
    destruct (_offsets w1 !! fst latest) as [off|]; cbn [fst].
    + destruct (_ <=? _)%nat; cbn [fst]; [done|].
      simpl. rewrite dom_insert_L, Hdom.
      by apply subseteq_union_1_L, singleton_subseteq_l.
    + simpl. rewrite dom_insert_L, Hdom.
      by apply subseteq_union_1_L, singleton_subseteq_l.
  - unfold _poll_once. rewrite Hlast, Hboot. simpl.
    by apply bootstrap_fold_dom.
Qed.

(** X6: in every state the loop reaches, the files with a recorded
    offset are the known files. *)
Theorem offsets_track_known_files (snapshots : list (option (Dir text))) :
  dom (_offsets (fst (LinearCSVFolderWatcher.start snapshots init)))
  = _known_files (fst (LinearCSVFolderWatcher.start snapshots init)).
Proof.
  assert (H : forall w, dom (_offsets w) = _known_files w ->
              dom (_offsets (fst (LinearCSVFolderWatcher.start snapshots w)))
              = _known_files (fst (LinearCSVFolderWatcher.start snapshots w))).
  { induction snapshots as [|folder later IH]; intros w Hw; [done|].
    cbn [LinearCSVFolderWatcher.start].
    pose proof (poll_dom (listdir folder) w Hw) as Hw1.
    destruct (_poll_once (listdir folder) w) as [w1 fired].
    specialize (IH w1 Hw1). destruct (LinearCSVFolderWatcher.start later w1) as [w2 rest].
    exact IH. }
  apply H. simpl. by rewrite dom_empty_L.
Qed.

End WatcherBehaviour.

(** ** The signal files *)

Module WriterBehaviour.
Import LinearCSVFolderWatcher RealTimeTrader PandasFacts WriterFacts
  LoaderFacts.

Lemma last_written_after (o c : Timestamp) (sig : Signal) (w : Writer) :
  _last_written (_append_signal_row o c sig w) = Some (o, c).
Proof.
  unfold _append_signal_row. case_bool_decide as Hk; [done|].
  by destruct (_row_already_written _ o c).
Qed.

Lemma floor_second_div (a b : Timestamp) :
  floor_second a = floor_second b <-> a / NS_PER_SEC = b / NS_PER_SEC.
Proof.
  unfold floor_second. split; [|by intros ->].
  intros H. apply (Z.mul_cancel_r _ _ NS_PER_SEC); [done|exact H].
Qed.

Lemma format_same_second (a b : Timestamp) :
  floor_second a = floor_second b -> _format_ts_iso_t a = _format_ts_iso_t b.
Proof.
  intros H. by rewrite <- (format_floor a), <- (format_floor b), H.
Qed.

Lemma format_inj (a b : Timestamp) :
  in_range a -> in_range b ->
  _format_ts_iso_t a = _format_ts_iso_t b -> floor_second a = floor_second b.
Proof.
  intros Ha Hb H.
  pose proof (proj1 (to_datetime_format a Ha)) as Ea.
  pose proof (proj1 (to_datetime_format b Hb)) as Eb.
  rewrite H in Ea. congruence.
Qed.

Lemma out_path_same_second (a b : Timestamp) :
  floor_second a = floor_second b -> out_path a = out_path b.
Proof.
  intros H. unfold out_path, date_str.
  by rewrite <- (to_civil_floor a), <- (to_civil_floor b), H.
Qed.

Lemma row_matches_other (o c o' c' : Timestamp) (sig : Signal) :
  in_range o -> in_range c -> in_range o' -> in_range c' ->
  floor_second o <> floor_second o' \/ floor_second c <> floor_second c' ->
  row_matches (_format_ts_iso_t o') (_format_ts_iso_t c')
    (signal_line o c sig) = false.
Proof.
  intros Ho Hc Ho' Hc' Hne. unfold row_matches.
  rewrite (proj1 (signal_line_not_header o c sig)), split_signal_line.
  cbn [length Nat.ltb Nat.leb nth].
  rewrite (proj1 (to_datetime_format o Ho)), (proj1 (to_datetime_format c Hc)).
  rewrite !format_floor.
  destruct Hne as [Hne|Hne].
  - rewrite (bool_decide_eq_false_2 (_format_ts_iso_t o = _format_ts_iso_t o'));
      [done|]. intros E. by apply Hne, format_inj.
  - rewrite (bool_decide_eq_false_2 (_format_ts_iso_t c = _format_ts_iso_t c'));
      [by rewrite andb_false_r|]. intros E. by apply Hne, format_inj.
Qed.


Lemma row_already_written_format (f : option text) (o c o' c' : Timestamp) :
  _format_ts_iso_t o' = _format_ts_iso_t o ->
  _format_ts_iso_t c' = _format_ts_iso_t c ->
  _row_already_written f o' c' = _row_already_written f o c.
Proof. unfold _row_already_written. by intros -> ->. Qed.

Lemma to_civil_day (ts : Timestamp) :
  in_range ts ->
  days_from_civil (year (to_civil ts)) (month (to_civil ts))
    (day (to_civil ts))
  = ts / NS_PER_SEC / 86400.
Proof.
  intros Hr. pose proof (civil_day_ok_range _ (in_range_days ts Hr)) as Hok.
  unfold to_civil, civil_day_ok in *.
  destruct (civil_from_days (ts / NS_PER_SEC / 86400)) as [[y m] d].
  rewrite !andb_true_iff in Hok. destruct Hok as [_ H7].
  apply Z.eqb_eq in H7. exact H7.
Qed.

Lemma date_str_fields (ts : Timestamp) :
  in_range ts ->
  number (firstn 4 (date_str ts)) = Some (year (to_civil ts))
  /\ number (firstn 2 (skipn 5 (date_str ts))) = Some (month (to_civil ts))
  /\ number (skipn 8 (date_str ts)) = Some (day (to_civil ts)).
Proof.
  intros Hr. destruct (to_civil_facts ts Hr) as (Hy & Hm & Hd & _).
  unfold date_str. generalize dependent (to_civil ts). intros c Hy Hm Hd.
  split; [|split].
  - change (firstn 4 (strftime_date c)) with (digits4 (year c)).
    apply number_digits4. lia.
  - change (firstn 2 (skipn 5 (strftime_date c))) with (digits2 (month c)).
    by apply number_digits2.
  - change (skipn 8 (strftime_date c)) with (digits2 (day c)).
    by apply number_digits2.
Qed.

Lemma date_str_same_day (a b : Timestamp) :
  a / NS_PER_SEC / 86400 = b / NS_PER_SEC / 86400 -> date_str a = date_str b.
Proof.
  intros H. unfold date_str, to_civil. rewrite H.
  by destruct (civil_from_days (b / NS_PER_SEC / 86400)) as [[y m] d].
Qed.


(** X7: a second call with the key just written changes nothing, whatever
    the signal. *)
Theorem append_same_key_again (o c : Timestamp) (sig1 sig2 : Signal)
    (w : Writer) :
  _append_signal_row o c sig2 (_append_signal_row o c sig1 w)
  = _append_signal_row o c sig1 w.
Proof.
  pose proof (last_written_after o c sig1 w) as Hlw.
  unfold _append_signal_row at 1.
  by rewrite bool_decide_eq_true_2.
Qed.

(** X8: the writer only appends: a file other than the day's file is left
    as it is, and an existing file keeps its content as a prefix, followed
    by nothing or by the one row. *)
Theorem append_signal_row_append_only (o c : Timestamp) (sig : Signal)
    (w : Writer) (p : string) :
  (p <> out_path o ->
   signal_files (_append_signal_row o c sig w) !! p = signal_files w !! p)
  /\ (forall old, signal_files w !! p = Some old ->
      signal_files (_append_signal_row o c sig w) !! p = Some old
      \/ signal_files (_append_signal_row o c sig w) !! p
         = Some (old ++ signal_row o c sig))
  /\ (signal_files w !! p = None ->
      signal_files (_append_signal_row o c sig w) !! p = None
      \/ p = out_path o
         /\ signal_files (_append_signal_row o c sig w) !! p
            = Some (HEADER ++ signal_row o c sig)).
Proof.
  unfold _append_signal_row. case_bool_decide as Hk.
  { split; [done|]. split; [by left|by left]. }
  destruct (signal_files w !! out_path o) as [content|] eqn:Hfile.
  - rewrite Hfile.
    destruct (_row_already_written (Some content) o c); cbn [signal_files].
    { split; [done|]. split; [by left|by left]. }
    rewrite (alter_present _ _ _ _ Hfile).
    split; [intros Hp; by rewrite lookup_insert_ne|].
    split.
    + intros old Hold. destruct (decide (p = out_path o)) as [->|Hp].
      * right. rewrite lookup_insert_eq. congruence.
      * left. by rewrite lookup_insert_ne.
    + intros Hnone. left. destruct (decide (p = out_path o)) as [->|Hp];
        [congruence|]. by rewrite lookup_insert_ne.
  - rewrite lookup_insert_eq.
    change (_row_already_written (Some HEADER) o c) with false.
    cbn [signal_files].
    rewrite (alter_present _ _ _ HEADER) by apply lookup_insert_eq.
    rewrite insert_insert_eq.
    split; [intros Hp; by rewrite lookup_insert_ne|].
    split.
    + intros old Hold. left. destruct (decide (p = out_path o)) as [->|Hp];
        [congruence|]. by rewrite lookup_insert_ne.
    + intros Hnone. destruct (decide (p = out_path o)) as [->|Hp].
      * right. by rewrite lookup_insert_eq.
      * left. by rewrite lookup_insert_ne.
Qed.

(** X9: the file check compares the keys as written, to the second: after
    a row, a key within the same seconds is not written. *)
Theorem same_second_row_dropped (o c o' c' : Timestamp) (sig sig' : Signal)
    (w : Writer) :
  in_range o -> in_range c ->
  floor_second o' = floor_second o -> floor_second c' = floor_second c ->
  _last_written w <> Some (o, c) ->
  signal_file_ok o c (signal_files w !! out_path o) ->
  signal_files (_append_signal_row o' c' sig' (_append_signal_row o c sig w))
  = signal_files (_append_signal_row o c sig w)
  /\ _last_written
       (_append_signal_row o' c' sig' (_append_signal_row o c sig w))
     = Some (o', c').
Proof.
  intros Ho Hc Eo Ec Hlw Hok. split; [|apply last_written_after].
  rewrite (append_first o c sig w Ho Hc Hlw Hok).
  destruct (signal_file_body o c _ Hok) as (body & Hbody & Hne & Hk).
  rewrite Hbody.
  unfold _append_signal_row. cbn [_last_written signal_files].
  case_bool_decide as Hkey; [done|].
  rewrite (out_path_same_second o' o Eo), !lookup_insert_eq.
  rewrite (row_already_written_format _ o c o' c'
             (format_same_second o' o Eo) (format_same_second c' c Ec)).
  by rewrite (row_already_written_true body o c sig Ho Hc Hne).
Qed.

Lemma same_second_row_dropped_witness :
  signal_files (_append_signal_row t0_half t1 SELL
                  (_append_signal_row t0 t1 BUY fresh_writer))
  = signal_files (_append_signal_row t0 t1 BUY fresh_writer)
  /\ _last_written (_append_signal_row t0_half t1 SELL
                      (_append_signal_row t0 t1 BUY fresh_writer))
     = Some (t0_half, t1).
Proof.
  apply (same_second_row_dropped t0 t1 t0_half t1 BUY SELL fresh_writer).
  - unfold in_range. vm_compute. split; discriminate.
  - unfold in_range. vm_compute. split; discriminate.
  - reflexivity.
  - reflexivity.
  - discriminate.
  - exact I.
Defined.



(** X11: the day's file is chosen by the UTC day of [open_time]. *)
Theorem out_path_by_utc_day (a b : Timestamp) :
  in_range a -> in_range b ->
  (out_path a = out_path b
   <-> a / NS_PER_SEC / 86400 = b / NS_PER_SEC / 86400).
Proof.
  intros Ha Hb. split.
  - intros H. unfold out_path in H.
    apply (f_equal list_ascii_of_string) in H.
    rewrite !list_ascii_of_string_of_list_ascii in H.
    apply app_inv_tail in H.
    destruct (date_str_fields a Ha) as (Ya & Ma & Da).
    destruct (date_str_fields b Hb) as (Yb & Mb & Db).
    rewrite H in Ya, Ma, Da.
    rewrite <- (to_civil_day a Ha), <- (to_civil_day b Hb). congruence.
  - intros H. unfold out_path. by rewrite (date_str_same_day a b H).
Qed.

Lemma out_path_by_utc_day_witness :
  out_path t0 = out_path t1
  <-> t0 / NS_PER_SEC / 86400 = t1 / NS_PER_SEC / 86400.
Proof.
  apply (out_path_by_utc_day t0 t1).
  - unfold in_range. vm_compute. split; discriminate.
  - unfold in_range. vm_compute. split; discriminate.
Defined.


Lemma stripped_lines_written_rows
    (rows : list (Timestamp * Timestamp * Signal)) :
  stripped_lines (universal_newlines (written_rows rows))
  = map (fun r => signal_line (fst (fst r)) (snd (fst r)) (snd r)) rows.
Proof.
  induction rows as [|r rows IH]; [reflexivity|].
  unfold written_rows. cbn [map concat]. fold (written_rows rows).
  rewrite signal_row_line, <- app_assoc.
  change ([LF] ++ written_rows rows) with (LF :: written_rows rows).
  rewrite (stripped_lines_app_lf (signal_line _ _ _) (written_rows rows)),
    <- signal_row_line, stripped_lines_signal_row, IH.
  reflexivity.
Qed.

(** X12: the file check reads the last 200 lines only: a row followed by
    200 rows of other keys is written again by a process that does not
    remember it. *)
Theorem row_beyond_tail_written_again (o c : Timestamp) (sig sig' : Signal)
    (body : text) (rows : list (Timestamp * Timestamp * Signal))
    (w : Writer) :
  in_range o -> in_range c ->
  Forall (other_key o c) rows -> (200 <= length rows)%nat ->
  _last_written w <> Some (o, c) ->
  signal_files w !! out_path o
  = Some ((body ++ [LF]) ++ signal_row o c sig ++ written_rows rows) ->
  signal_files (_append_signal_row o c sig' w) !! out_path o
  = Some (((body ++ [LF]) ++ signal_row o c sig ++ written_rows rows)
          ++ signal_row o c sig').
Proof.
  intros Ho Hc Hrows Hlen Hlw Hfile.
  unfold _append_signal_row.
  rewrite bool_decide_eq_false_2 by done.
  rewrite Hfile.
  assert (Hscan : _row_already_written
            (Some ((body ++ [LF]) ++ signal_row o c sig ++ written_rows rows))
            o c = false).
  { unfold _row_already_written.
    rewrite <- app_assoc. change ([LF] ++ signal_row o c sig ++ written_rows rows)
      with (LF :: signal_row o c sig ++ written_rows rows).
    rewrite stripped_lines_app_lf, signal_row_line, <- app_assoc.
    change ([LF] ++ written_rows rows) with (LF :: written_rows rows).
    rewrite (stripped_lines_app_lf (signal_line o c sig) (written_rows rows)),
      <- signal_row_line, stripped_lines_signal_row,
      stripped_lines_written_rows.
    set (lines := map _ rows).
    assert (Hl : length lines = length rows) by apply length_map.
    destruct (_ <=? 1)%nat; [done|].
    rewrite !app_assoc, lastn_app_r by lia.
    apply not_true_is_false. intros Hex.
    apply existsb_exists in Hex as (ln & Hin & Hm).
    apply lastn_incl in Hin. subst lines.
    apply in_map_iff in Hin as (r & <- & Hr).
    rewrite List.Forall_forall in Hrows.
    destruct (Hrows r Hr) as (Hro & Hrc & Hne).
    by rewrite (row_matches_other _ _ o c (snd r) Hro Hrc Ho Hc Hne) in Hm. }
  cbv beta iota. rewrite Hfile, Hscan. cbn [signal_files].
  by rewrite (alter_present _ _ _ _ Hfile), lookup_insert_eq.
Qed.

Lemma row_beyond_tail_written_again_witness :
  signal_files
    (_append_signal_row t0 t1 SELL
       {| _last_written := None;
          signal_files :=
            {[ out_path t0 :=
                 (txt "open_time,close_time,signal" ++ [LF])
                 ++ signal_row t0 t1 BUY
                 ++ written_rows (repeat (t1, t1 + 1, HOLD) 200) ]} |})
    !! out_path t0
  = Some (((txt "open_time,close_time,signal" ++ [LF])
           ++ signal_row t0 t1 BUY
           ++ written_rows (repeat (t1, t1 + 1, HOLD) 200))
          ++ signal_row t0 t1 SELL).
Proof.
  apply (row_beyond_tail_written_again t0 t1 BUY SELL
           (txt "open_time,close_time,signal")
           (repeat (t1, t1 + 1, HOLD) 200)).
  - unfold in_range. vm_compute. split; discriminate.
  - unfold in_range. vm_compute. split; discriminate.
  - apply List.Forall_forall. intros r Hr. apply repeat_spec in Hr.
    rewrite Hr. unfold other_key, in_range. vm_compute.
    repeat split; try discriminate. left. discriminate.
  - rewrite repeat_length. lia.
  - discriminate.
  - apply lookup_singleton_eq.
Defined.

End WriterBehaviour.

(** ** The load of the window and the callback *)

Module TraderBehaviour.
Import LinearCSVFolderWatcher RealTimeTrader WatcherFacts LoaderFacts.

Lemma insert_by_open_time_In (b x : Bar) (l : list Bar) :
  In x (insert_by_open_time b l) <-> x = b \/ In x l.
Proof.
  induction l as [|a l IH]; cbn [insert_by_open_time].
  - simpl. intuition.
  - destruct (_ <=? _); simpl in *; intuition.
Qed.

Lemma sort_values_In (x : Bar) (l : list Bar) :
  In x (sort_values l) <-> In x l.
Proof.
  unfold sort_values. induction l as [|a l IH]; [done|].
  cbn [foldr]. rewrite insert_by_open_time_In. simpl. intuition.
Qed.

Lemma insert_by_open_time_ascending (b : Bar) (l : list Bar) :
  ascending l -> ascending (insert_by_open_time b l).
Proof.
  induction l as [|a l IH]; [done|]. intros [Hhd Hl].
  cbn [insert_by_open_time].
  destruct (Z.leb_spec (open_time b) (open_time a)) as [Hle|Hgt].
  - split; [exact Hle|]. by split.
  - split; [|by apply IH].
    destruct l as [|a' l']; cbn [insert_by_open_time]; [lia|].
    destruct (_ <=? _); [lia|exact Hhd].
Qed.

Lemma sort_values_sorted (l : list Bar) : ascending (sort_values l).
Proof.
  unfold sort_values. induction l as [|a l IH]; [done|].
  cbn [foldr]. by apply insert_by_open_time_ascending.
Qed.

Lemma tail_incl (k : Z) (l : list Bar) (x : Bar) : In x (tail k l) -> In x l.
Proof.
  unfold tail. destruct (0 <=? k).
  - apply lastn_incl.
  - intros H. rewrite <- (firstn_skipn (Z.to_nat (- k)) l).
    apply in_or_app. by right.
Qed.

Lemma tail_ascending (k : Z) (l : list Bar) :
  ascending l -> ascending (tail k l).
Proof.
  unfold tail. destruct (0 <=? k).
  - apply ascending_lastn.
  - intros H. rewrite <- (firstn_skipn (Z.to_nat (- k)) l) in H.
    by apply ascending_app in H as [_ H].
Qed.

Lemma bar_of_cons (f : string * CsvRead) (fs : Dir CsvRead) (b : Bar) :
  bar_of fs b -> bar_of (f :: fs) b.
Proof. intros (g & bars & Hin & Hb & Hx). exists g, bars. simpl. auto. Qed.

Lemma scan_chunks (n : Z) (fs : Dir CsvRead) :
  forall (chunks : list (list Bar)) (rows : Z) chunks' rows',
  scan n fs chunks rows = ScanEnd chunks' rows' ->
  forall b, In b (concat chunks') -> In b (concat chunks) \/ bar_of fs b.
Proof.
  induction fs as [|[name [|[] [|r rs]]] fs IH];
    intros chunks rows chunks' rows'; cbn [scan]; try discriminate.
  - intros [= <- <-] b Hb. by left.
  - intros H b Hb. destruct (IH _ _ _ _ H b Hb); [by left|].
    right. by apply bar_of_cons.
  - destruct (to_datetime_rows (r :: rs)) as [bars|] eqn:Hbars;
      [|discriminate].
    cbv zeta. destruct (n - rows <=? 0).
    { intros [= <- <-] b Hb. by left. }
    set (tl := tail (n - rows) (sort_values bars)).
    assert (Htl : forall b, In b tl -> bar_of ((name, DataFrame true (r :: rs)) :: fs) b).
    { intros b Hb. exists (name, DataFrame true (r :: rs)), bars.
      split; [by left|]. split; [exact Hbars|].
      apply (proj1 (sort_values_In _ _)). by apply (tail_incl (n - rows)). }
    assert (Hnew : forall b, In b (concat (chunks ++ [tl])) ->
              In b (concat chunks)
              \/ bar_of ((name, DataFrame true (r :: rs)) :: fs) b).
    { intros b. rewrite concat_app, in_app_iff. cbn [concat].
      rewrite app_nil_r. intros [H|H]; [by left|right; by apply Htl]. }
    destruct (n <=? rows + Z.of_nat (length tl)).
    + intros [= <- <-]. exact Hnew.
    + intros H b Hb. destruct (IH _ _ _ _ H b Hb) as [Hc|Hf].
      * by apply Hnew.
      * right. by apply bar_of_cons.
  - intros H b Hb. destruct (IH _ _ _ _ H b Hb); [by left|].
    right. by apply bar_of_cons.
Qed.

Lemma scan_raises (n : Z) (fs : Dir CsvRead) :
  forall (chunks : list (list Bar)) (rows : Z) e,
  scan n fs chunks rows = ScanRaise e ->
  e = MissingTimeColumns \/ e = DateParseError.
Proof.
  induction fs as [|[name [|[] [|r rs]]] fs IH];
    intros chunks rows e; cbn [scan]; try discriminate; try apply IH.
  - destruct (to_datetime_rows (r :: rs)) as [bars|];
      [|intros [= <-]; by right].
    cbv zeta. destruct (n - rows <=? 0); [discriminate|].
    destruct (n <=? _); [discriminate|apply IH].
  - intros [= <-]. by left.
Qed.

Lemma load_raises (dir : Dir CsvRead) (n : Z) (e : Error) :
  _load_latest_window dir n = Raise e -> load_error n e.
Proof.
  unfold _load_latest_window, load_error.
  destruct (sorted (glob_csv dir)) as [|f0 csvs]; [discriminate|].
  destruct (scan n (rev (f0 :: csvs)) [] 0) as [chunks rows| |e'] eqn:Hscan.
  - destruct (Z.ltb_spec rows n) as [Hlt|Hge]; [discriminate|].
    destruct (scan_rows n _ [] 0 chunks rows eq_refl ltac:(done) Hscan)
      as [Hrows Hpos].
    destruct (rev chunks) as [|c0 cs] eqn:Hrev; [|discriminate].
    intros [= <-]. right. right. split; [done|].
    assert (chunks = []) as ->.
    { apply (f_equal (@rev _)) in Hrev. by rewrite rev_involutive in Hrev. }
    simpl in Hrows. lia.
  - discriminate.
  - intros [= <-]. destruct (scan_raises _ _ _ _ _ Hscan); auto.
Qed.

Lemma load_positive (dir : Dir CsvRead) (n : Z) (w : list Bar) :
  _load_latest_window dir n = Return (Some w) ->
  1 <= n /\ ascending w /\ Forall (bar_of (glob_csv dir)) w.
Proof.
  unfold _load_latest_window.
  destruct (sorted (glob_csv dir)) as [|f0 csvs] eqn:Hls; [discriminate|].
  destruct (scan n (rev (f0 :: csvs)) [] 0) as [chunks rows| |e] eqn:Hscan;
    try discriminate.
  destruct (Z.ltb_spec rows n) as [Hlt|Hge]; [discriminate|].
  destruct (scan_rows n _ [] 0 chunks rows eq_refl ltac:(done) Hscan)
    as [Hrows Hpos].
  destruct (rev chunks) as [|c0 cs] eqn:Hrev; [discriminate|].
  intros Hw.
  assert (Hw' : tail n (sort_values (concat (c0 :: cs))) = w) by congruence.
  rewrite <- Hw', <- Hrev. clear Hw Hw'.
  assert (0 < n).
  { apply Hpos. intros ->. discriminate. }
  split; [lia|]. split.
  - apply tail_ascending, sort_values_sorted.
  - apply List.Forall_forall. intros b Hb.
    apply tail_incl in Hb. apply (proj1 (sort_values_In _ _)) in Hb.
    assert (Hb' : In b (concat chunks)).
    { apply in_concat in Hb as (ch & Hch & Hb). apply in_concat.
      exists ch. split; [|done]. by apply in_rev. }
    destruct (scan_chunks _ _ _ _ _ _ Hscan b Hb') as [[]|Hf].
    destruct Hf as (f & bars & Hin & Hfb & Hx).
    exists f, bars. split; [|done].
    apply in_rev in Hin. rewrite <- Hls in Hin.
    eapply Permutation_in; [apply sorted_perm|done].
Qed.

Lemma scan_bar_files (n : Z) (fs : Dir CsvRead) :
  Forall (fun f => bar_file (snd f)) fs ->
  forall (chunks : list (list Bar)) (rows : Z) (e : Error),
  scan n fs chunks rows <> ScanRaise e.
Proof.
  induction 1 as [|[name f] fs Hf Hfs IH]; intros chunks rows e;
    [discriminate|].
  destruct Hf as [Hf|[bars Hbars]]; cbn [snd] in *.
  - subst f. discriminate.
  - destruct f as [|[] [|r rs]]; cbn [scan]; try discriminate; try apply IH.
    cbn [file_bars] in Hbars. rewrite Hbars. cbv zeta.
    destruct (n - rows <=? 0); [discriminate|].
    destruct (n <=? _); [discriminate|apply IH].
Qed.

Lemma load_bar_files (dir : Dir CsvRead) (n : Z) :
  Forall (fun f => bar_file (snd f)) (sorted (glob_csv dir)) -> 1 <= n ->
  _load_latest_window dir n = Return None
  \/ exists w, _load_latest_window dir n = Return (Some w).
Proof.
  intros Hfiles Hn.
  destruct (_load_latest_window dir n) as [[w|]|e] eqn:Hload;
    [right; by exists w|by left|].
  exfalso. pose proof (load_raises dir n e Hload) as Herr.
  unfold _load_latest_window in Hload.
  destruct (sorted (glob_csv dir)) as [|f0 csvs]; [discriminate|].
  destruct (scan n (rev (f0 :: csvs)) [] 0) as [chunks rows| |e'] eqn:Hscan.
  - destruct Herr as [->|[->|[-> Hle]]]; [| |lia];
      destruct (rows <? n); try discriminate;
      destruct (rev chunks); discriminate.
  - discriminate.
  - apply (scan_bar_files n (rev (f0 :: csvs))) with (chunks := [])
      (rows := 0) (e := e'); [by apply Forall_rev|exact Hscan].
Qed.

Lemma scan_stops (n : Z) (newer : Dir CsvRead) (bs : list (list Bar)) :
  Forall2 (fun f b => file_bars (snd f) = Some b) newer bs ->
  forall (chunks : list (list Bar)) (rows : Z),
  0 <= rows < n ->
  n - rows <= Z.of_nat (length (concat bs)) ->
  exists chunks',
    forall rest, scan n (newer ++ rest) chunks rows = ScanEnd chunks' n.
Proof.
  induction 1 as [|f b newer bs Hf Hrest IH]; intros chunks rows Hrows Hneed.
  { simpl in Hneed. lia. }
  cbn [concat] in Hneed. rewrite length_app in Hneed.
  destruct b as [|b0 b].
  - destruct (IH chunks rows Hrows) as (chunks' & Hc); [simpl in Hneed; lia|].
    exists chunks'. intros rest. cbn [app].
    rewrite (scan_step n f [] _ chunks rows Hf) by lia. apply Hc.
  - set (tl := lastn (Z.to_nat (n - rows)) (sort_values (b0 :: b))).
    assert (Hlen : Z.of_nat (length tl)
                   = Z.min (n - rows) (Z.of_nat (length (b0 :: b)))).
    { subst tl. rewrite lastn_length, sort_values_length. lia. }
    destruct (Z.leb_spec n (rows + Z.of_nat (length tl))) as [Hle|Hgt].
    + exists (chunks ++ [tl]). intros rest. cbn [app].
      rewrite (scan_step n f (b0 :: b) _ chunks rows Hf) by lia.
      cbv zeta. fold tl.
      rewrite (proj2 (Z.leb_le _ _) Hle). f_equal. lia.
    + destruct (IH (chunks ++ [tl]) (rows + Z.of_nat (length tl)))
        as (chunks' & Hc); [lia|lia|].
      exists chunks'. intros rest. cbn [app].
      rewrite (scan_step n f (b0 :: b) _ chunks rows Hf) by lia.
      cbv zeta. fold tl.
      rewrite (proj2 (Z.leb_gt _ _) Hgt). apply Hc.
Qed.

Lemma load_short (dir : Dir CsvRead) (n : Z) :
  Forall (fun f => bar_file (snd f)) (sorted (glob_csv dir)) ->
  total_bars (sorted (glob_csv dir)) < n ->
  _load_latest_window dir n = Return None.
Proof.
  intros Hfiles Htot. unfold _load_latest_window.
  destruct (sorted (glob_csv dir)) as [|f0 csvs]; [done|].
  destruct (scan_short n (rev (f0 :: csvs))) with (chunks := @nil (list Bar))
                                                  (rows := 0)
    as [->|(chunks' & rows' & -> & Hlt)].
  - by apply Forall_rev.
  - lia.
  - by rewrite total_bars_rev.
  - done.
  - by rewrite (proj2 (Z.ltb_lt _ _) Hlt).
Qed.


(** X13: on a folder whose [*.csv] files each cannot be read yet or hold
    the time columns with timestamps that parse, a load of [n >= 1] bars
    never raises, and a window it returns has exactly [n] bars, is in
    ascending order of [open_time], and is made of bars of the [*.csv]
    files. *)
Theorem window_well_formed (dir : Dir CsvRead) (n : Z) :
  Forall (fun f => bar_file (snd f)) (sorted (glob_csv dir)) -> 1 <= n ->
  _load_latest_window dir n = Return None
  \/ exists w,
       _load_latest_window dir n = Return (Some w)
       /\ Z.of_nat (length w) = n /\ ascending w
       /\ Forall (bar_of (glob_csv dir)) w.
Proof.
  intros Hfiles Hn.
  destruct (load_bar_files dir n Hfiles Hn) as [H|[w H]]; [by left|].
  right. exists w. split; [done|].
  destruct (load_positive dir n w H) as (_ & Hasc & Hbars).
  split; [by apply never_short with dir|]. by split.
Qed.

Lemma window_well_formed_witness :
  _load_latest_window three_days 2 = Return None
  \/ exists w,
       _load_latest_window three_days 2 = Return (Some w)
       /\ Z.of_nat (length w) = 2 /\ ascending w
       /\ Forall (bar_of (glob_csv three_days)) w.
Proof.
  apply (window_well_formed three_days 2).
  - change (sorted (glob_csv three_days))
      with [(day1, bars_day1); (day2, bars_day2); (day3, bars_day3)].
    repeat (constructor; [right; vm_compute; eauto|]). constructor.
  - lia.
Defined.

(** X14: once the newest files give [n] bars, the older files are not read:
    the load is the same whatever they hold. *)
Theorem older_files_not_read (dir dir' : Dir CsvRead) (n : Z)
    (newer older older' : Dir CsvRead) (bs : list (list Bar)) :
  rev (sorted (glob_csv dir)) = newer ++ older ->
  rev (sorted (glob_csv dir')) = newer ++ older' ->
  files_bars newer = Some bs ->
  1 <= n <= Z.of_nat (length (concat bs)) ->
  _load_latest_window dir n = _load_latest_window dir' n
  /\ exists w, _load_latest_window dir n = Return (Some w).
Proof.
  intros Hdir Hdir' Hbs Hn.
  destruct (scan_stops n newer bs (files_bars_Forall2 _ _ Hbs) [] 0)
    as (chunks' & Hscan); [lia|lia|].
  assert (Hne : newer <> []).
  { intros ->. simpl in Hbs. injection Hbs as <-. simpl in Hn. lia. }
  assert (Hload : forall d rest, rev (sorted (glob_csv d)) = newer ++ rest ->
            _load_latest_window d n
            = match rev chunks' with
              | [] => Raise NoObjectsToConcatenate
              | cs => Return (Some (tail n (sort_values (concat cs))))
              end).
  { intros d rest Hd. unfold _load_latest_window.
    destruct (sorted (glob_csv d)) as [|f0 csvs] eqn:Hls.
    { simpl in Hd. destruct newer; [done|discriminate]. }
    rewrite Hd, Hscan. by rewrite Z.ltb_irrefl. }
  rewrite (Hload dir older Hdir), (Hload dir' older' Hdir').
  split; [done|].
  pose proof (Hscan older) as Hs.
  destruct (scan_rows n _ [] 0 chunks' n eq_refl ltac:(done) Hs)
    as [Hrows _].
  destruct (rev chunks') as [|c0 cs] eqn:Hrev; [|by eexists].
  assert (chunks' = []) as ->.
  { apply (f_equal (@rev _)) in Hrev. by rewrite rev_involutive in Hrev. }
  simpl in Hrows. lia.
Qed.

Lemma older_files_not_read_witness :
  _load_latest_window three_days 1
  = _load_latest_window [(day3, bars_day3); (day1, ReadError)] 1
  /\ exists w, _load_latest_window three_days 1 = Return (Some w).
Proof.
  apply (older_files_not_read three_days [(day3, bars_day3); (day1, ReadError)]
           1 [(day3, bars_day3)] [(day2, bars_day2); (day1, bars_day1)]
           [(day1, ReadError)]
           [[bar 1735862400000000000 1735866000000000000]]).
  - reflexivity.
  - reflexivity.
  - reflexivity.
  - simpl. lia.
Defined.

Section DriverFacts.

Variable RNG : Type.
Variable rng_choice : RNG -> Signal * RNG.

Lemma on_new_data_waits (dir : Dir CsvRead) (f : string) (line : text)
    (t : Trader RNG) :
  _load_latest_window dir (window_len t) = Return None ->
  on_new_data rng_choice dir f line t = Return t.
Proof. intros H. unfold on_new_data. by rewrite H. Qed.

Lemma deliver_waits (dir : Dir CsvRead) (fired : list Event)
    (t : Trader RNG) :
  _load_latest_window dir (window_len t) = Return None ->
  deliver rng_choice dir fired t = Return t.
Proof.
  intros H. induction fired as [|[f line] fired IH]; [done|].
  cbn [deliver]. by rewrite (on_new_data_waits dir f line t H).
Qed.

Lemma on_new_data_window (dir : Dir CsvRead) (f : string) (line : text)
    (t : Trader RNG) (window : list Bar) :
  _load_latest_window dir (window_len t) = Return (Some window) ->
  exists l, last window = Some l
    /\ on_new_data rng_choice dir f line t
       = Return {| window_len := window_len t;
                   strategy_rng := snd (rng_choice (strategy_rng t));
                   writer := _append_signal_row (open_time l) (close_time l)
                               (fst (rng_choice (strategy_rng t)))
                               (writer t) |}.
Proof.
  intros H. pose proof (never_short _ _ _ H) as Hlen.
  destruct (load_positive _ _ _ H) as (Hn & _).
  destruct (last window) as [l|] eqn:Hlast.
  2:{ apply last_None in Hlast. subst window. simpl in Hlen. lia. }
  exists l. split; [done|].
  unfold on_new_data, per_step. rewrite H.
  rewrite (proj2 (Z.ltb_ge _ _)) by lia.
  destruct (rng_choice (strategy_rng t)) as [sig rng]. by rewrite Hlast.
Qed.

Lemma on_new_data_newest (dir : Dir CsvRead) (per_file : list (list Bar))
    (f : string) (line : text) (t : Trader RNG) (newest : Bar) :
  files_bars (sorted (glob_csv dir)) = Some per_file ->
  ascending (concat per_file) ->
  1 <= window_len t <= Z.of_nat (length (concat per_file)) ->
  last (concat per_file) = Some newest ->
  on_new_data rng_choice dir f line t
  = Return {| window_len := window_len t;
              strategy_rng := snd (rng_choice (strategy_rng t));
              writer := _append_signal_row (open_time newest)
                          (close_time newest)
                          (fst (rng_choice (strategy_rng t))) (writer t) |}.
Proof.
  intros Hfiles Hasc Hn Hlast.
  pose proof (load_enough dir (window_len t) per_file Hfiles Hasc Hn) as Hload.
  destruct (on_new_data_window dir f line t _ Hload) as (l & Hl & ->).
  assert (l = newest) as ->; [|done].
  apply last_Some in Hlast as [pre Hpre]. rewrite Hpre in Hl.
  destruct (lastn_app_last (Z.to_nat (window_len t)) pre newest) as [l' E];
    [lia|].
  rewrite E, last_snoc in Hl. congruence.
Qed.

End DriverFacts.

(** X15: with enough bars in ascending order over the files, a call of
    [on_new_data] draws one signal and writes the row of the newest bar. *)
Theorem on_new_data_writes_newest_bar (RNG : Type)
    (rng_choice : RNG -> Signal * RNG) (dir : Dir CsvRead)
    (per_file : list (list Bar)) (filename : string) (line : text)
    (t : Trader RNG) (newest : Bar) :
  files_bars (sorted (glob_csv dir)) = Some per_file ->
  ascending (concat per_file) ->
  1 <= window_len t <= Z.of_nat (length (concat per_file)) ->
  last (concat per_file) = Some newest ->
  on_new_data rng_choice dir filename line t
  = Return {| window_len := window_len t;
              strategy_rng := snd (rng_choice (strategy_rng t));
              writer := _append_signal_row (open_time newest)
                          (close_time newest)
                          (fst (rng_choice (strategy_rng t))) (writer t) |}.
Proof.
  apply on_new_data_newest.
Qed.

Lemma on_new_data_writes_newest_bar_witness :
  on_new_data hold_always three_days day3 (txt "r") (trader_of 2)
  = Return {| window_len := 2;
              strategy_rng := tt;
              writer := _append_signal_row 1735862400000000000
                          1735866000000000000 HOLD fresh_writer |}.
Proof.
  apply (on_new_data_writes_newest_bar unit hold_always three_days
           three_days_bars day3 (txt "r") (trader_of 2)
           (bar 1735862400000000000 1735866000000000000)).
  - reflexivity.
  - vm_compute. intuition discriminate.
  - simpl. lia.
  - reflexivity.
Defined.

(** X16: on such a folder and for a window length of at least 1, what
    [on_new_data] does before it prints and writes raises nothing: the
    load returns [None] or a window; on a window the length test of
    [on_new_data] is false, [Strategy.per_step] accepts the window and
    returns its draw, and the window has a last row. *)
Theorem returned_window_accepted (RNG : Type)
    (rng_choice : RNG -> Signal * RNG) (dir : Dir CsvRead) (n : Z)
    (rng : RNG) :
  Forall (fun f => bar_file (snd f)) (sorted (glob_csv dir)) -> 1 <= n ->
  _load_latest_window dir n = Return None
  \/ exists w newest,
       _load_latest_window dir n = Return (Some w)
       /\ (Z.of_nat (length w) <? n) = false
       /\ per_step rng_choice n w rng = Return (rng_choice rng)
       /\ last w = Some newest.
Proof.
  intros Hfiles Hn.
  destruct (load_bar_files dir n Hfiles Hn) as [H|[w H]]; [by left|].
  right. pose proof (never_short dir n w H) as Hlen.
  destruct (last w) as [newest|] eqn:Hlast.
  2:{ apply last_None in Hlast. subst w. simpl in Hlen. lia. }
  exists w, newest. split; [done|].
  assert (Hge : (Z.of_nat (length w) <? n) = false)
    by (apply Z.ltb_ge; lia).
  split; [done|]. split; [|done]. unfold per_step. by rewrite Hge.
Qed.

Lemma returned_window_accepted_witness :
  _load_latest_window three_days 2 = Return None
  \/ exists w newest,
       _load_latest_window three_days 2 = Return (Some w)
       /\ (Z.of_nat (length w) <? 2) = false
       /\ per_step hold_always 2 w tt = Return (hold_always tt)
       /\ last w = Some newest.
Proof.
  apply (returned_window_accepted unit hold_always three_days 2 tt).
  - change (sorted (glob_csv three_days))
      with [(day1, bars_day1); (day2, bars_day2); (day3, bars_day3)].
    repeat (constructor; [right; vm_compute; eauto|]). constructor.
  - lia.
Defined.

(** X17: while every folder seen holds fewer bars than the window needs,
    the trader's loop goes on polling as the watcher alone does, draws no
    signal and writes nothing. *)
Theorem start_waits_for_bars (RNG : Type) (rng_choice : RNG -> Signal * RNG)
    (snapshots : list (option Snapshot)) (w : Watcher) (t : Trader RNG) :
  Forall (short_of_bars (window_len t)) snapshots ->
  start rng_choice snapshots w t
  = StillPolling
      (fst (LinearCSVFolderWatcher.start
              (map (option_map raw) snapshots) w)) t.
Proof.
  revert w. induction snapshots as [|folder later IH]; intros w Hall;
    [done|].
  apply Forall_cons in Hall as [Hshort Hlater].
  cbn [start map LinearCSVFolderWatcher.start].
  destruct (_poll_once (listdir (option_map raw folder)) w) as [w1 fired].
  rewrite (deliver_waits RNG rng_choice).
  - rewrite (IH w1 Hlater).
    by destruct (LinearCSVFolderWatcher.start _ w1).
  - destruct folder as [s|]; [|done].
    destruct Hshort as [Hfiles Htot]. by apply (load_short (frames s)).
Qed.

Lemma start_waits_for_bars_witness :
  start hold_always
    [None; Some {| raw := dir_day1; frames := three_days |};
     Some {| raw := append_to day1 (txt "r1,2" ++ [LF]) dir_day1;
             frames := three_days |}] init (trader_of 6)
  = StillPolling
      (fst (LinearCSVFolderWatcher.start
              (map (option_map raw)
                 [None; Some {| raw := dir_day1; frames := three_days |};
                  Some {| raw := append_to day1 (txt "r1,2" ++ [LF]) dir_day1;
                          frames := three_days |}]) init))
      (trader_of 6).
Proof.
  apply (start_waits_for_bars unit hold_always).
  assert (H : short_of_bars 6
                (Some {| raw := dir_day1; frames := three_days |})).
  { split.
    - change (sorted (glob_csv three_days))
        with [(day1, bars_day1); (day2, bars_day2); (day3, bars_day3)].
      repeat (constructor; [right; vm_compute; eauto|]). constructor.
    - vm_compute. reflexivity. }
  constructor; [exact I|]. constructor; [exact H|].
  constructor; [exact H|]. constructor.
Defined.

(** X18: end to end: after the first poll, a row appended to the active
    file makes one call, which draws one signal and writes the row of the
    newest bar. *)
Theorem appended_bar_gives_signal (RNG : Type)
    (rng_choice : RNG -> Signal * RNG) (dir : Dir text) (f : string)
    (c : text) (l : Line) (frames0 frames1 : Dir CsvRead)
    (per_file : list (list Bar)) (t : Trader RNG) (newest : Bar) :
  last (sorted (glob_csv dir)) = Some (f, c) ->
  data_line l ->
  files_bars (sorted (glob_csv frames1)) = Some per_file ->
  ascending (concat per_file) ->
  1 <= window_len t <= Z.of_nat (length (concat per_file)) ->
  last (concat per_file) = Some newest ->
  snd (_poll_once (append_to f (write_lines [l]) dir)
         (fst (_poll_once dir init)))
  = [(f, strip (fst l))]
  /\ start rng_choice
       [Some {| raw := dir; frames := frames0 |};
        Some {| raw := append_to f (write_lines [l]) dir;
                frames := frames1 |}] init t
     = StillPolling
         (fst (_poll_once (append_to f (write_lines [l]) dir)
                 (fst (_poll_once dir init))))
         {| window_len := window_len t;
            strategy_rng := snd (rng_choice (strategy_rng t));
            writer := _append_signal_row (open_time newest)
                        (close_time newest)
                        (fst (rng_choice (strategy_rng t))) (writer t) |}.
Proof.
  intros Hlast Hl Hfiles Hasc Hn Hnewest.
  pose proof (bootstrap_tracking f c dir Hlast) as Htr.
  assert (Hfired : snd (_poll_once (append_to f (write_lines [l]) dir)
                          (fst (_poll_once dir init)))
                   = [(f, strip (fst l))]).
  { pose proof (polls_with_appends_tracking f [[l]] dir _ Htr) as Hp.
    cbn [polls_with_appends concat map] in Hp.
    destruct (_poll_once (append_to f (write_lines [l]) dir)
                (fst (_poll_once dir init))) as [w' fired].
    rewrite !app_nil_r in Hp. apply Hp.
    constructor; [|constructor]. constructor; [exact Hl|constructor]. }
  split; [exact Hfired|].
  cbn [start listdir option_map raw frames].
  assert (Hfirst : snd (_poll_once dir init) = []).
  { unfold _poll_once. by rewrite Hlast. }
  destruct (_poll_once dir init) as [w0 fired0]. cbn [fst snd] in *.
  subst fired0. cbn [deliver].
  destruct (_poll_once (append_to f (write_lines [l]) dir) w0)
    as [w1 fired1]. cbn [fst snd] in *. subst fired1. cbn [deliver].
  by rewrite (on_new_data_newest RNG rng_choice frames1 per_file f
                (strip (fst l)) t newest Hfiles Hasc Hn Hnewest).
Qed.

Lemma appended_bar_gives_signal_witness :
  snd (_poll_once (append_to day1 (write_lines [(txt "r1,2", true)]) dir_day1)
         (fst (_poll_once dir_day1 init)))
  = [(day1, strip (txt "r1,2"))]
  /\ start hold_always
       [Some {| raw := dir_day1; frames := [] |};
        Some {| raw := append_to day1 (write_lines [(txt "r1,2", true)])
                         dir_day1;
                frames := three_days |}] init (trader_of 2)
     = StillPolling
         (fst (_poll_once
                 (append_to day1 (write_lines [(txt "r1,2", true)]) dir_day1)
                 (fst (_poll_once dir_day1 init))))
         {| window_len := 2;
            strategy_rng := tt;
            writer := _append_signal_row 1735862400000000000
                        1735866000000000000 HOLD fresh_writer |}.
Proof.
  apply (appended_bar_gives_signal unit hold_always dir_day1 day1
           (snd (hd (day1, []) dir_day1)) (txt "r1,2", true) []
           three_days three_days_bars (trader_of 2)
           (bar 1735862400000000000 1735866000000000000)).
  - reflexivity.
  - split; reflexivity.
  - reflexivity.
  - vm_compute. intuition discriminate.
  - simpl. lia.
  - reflexivity.
Defined.

End TraderBehaviour.

(** ** The backtest loop *)

Module BacktesterBehaviour.
Import LinearCSVFolderWatcher RealTimeTrader Backtester LoaderFacts.

Lemma window_at_lastn (window_len t : Z) (df : list Bar) :
  1 <= window_len -> window_len - 1 <= t < Z.of_nat (length df) ->
  window_at window_len t df
  = lastn (Z.to_nat window_len) (firstn (Z.to_nat (t + 1)) df).
Proof.
  intros Hw Ht. unfold window_at, iloc_slice, slice_bound, lastn.
  rewrite (proj2 (Z.ltb_ge _ _)) by lia.
  rewrite (proj2 (Z.ltb_ge _ _)) by lia.
  rewrite !Z.min_l by lia.
  rewrite length_firstn, skipn_firstn_comm.
  replace (Z.to_nat (t + 1) `min` length df)%nat with (Z.to_nat (t + 1))
    by lia.
  replace (Z.to_nat (t + 1) - Z.to_nat window_len)%nat
    with (Z.to_nat (t - window_len + 1)) by lia.
  f_equal. lia.
Qed.

Lemma window_at_length (window_len t : Z) (df : list Bar) :
  1 <= window_len -> window_len - 1 <= t < Z.of_nat (length df) ->
  Z.of_nat (length (window_at window_len t df)) = window_len.
Proof.
  intros Hw Ht. rewrite window_at_lastn by done.
  rewrite lastn_length, length_firstn. lia.
Qed.

Lemma range_cons (start stop : Z) :
  start < stop -> range start stop = start :: range (start + 1) stop.
Proof.
  intros H. unfold range.
  replace (Z.to_nat (stop - start)) with (S (Z.to_nat (stop - (start + 1))))
    by lia.
  rewrite <- cons_seq, <- seq_shift. cbn [map]. rewrite map_map.
  f_equal; [lia|]. apply map_ext. intros i. lia.
Qed.

Lemma range_nil (start stop : Z) : stop <= start -> range start stop = [].
Proof.
  intros H. unfold range. by replace (Z.to_nat (stop - start)) with 0%nat by lia.
Qed.

Lemma range_bounds (start stop t : Z) :
  In t (range start stop) -> start <= t < stop.
Proof.
  unfold range. intros H. apply in_map_iff in H as (i & <- & Hi).
  apply in_seq in Hi. lia.
Qed.

Section RunFacts.

Variable RNG : Type.
Variable rng_choice : RNG -> Signal * RNG.

Lemma loop_raised (window_len : Z) (df : list Bar) (l : list Z) (e : Error) :
  fold_left (loop_body rng_choice window_len df) l (Raise e) = Raise e.
Proof. induction l as [|t l IH]; [done|]. cbn [fold_left loop_body]. exact IH. Qed.

(** The loop on the rows from [t0] on, for a window length of at least 1. *)
Lemma loop_from (window_len : Z) (df : list Bar) (j : nat) :
  1 <= window_len ->
  forall (t0 : Z) (pre : list (option Signal)) (rng : RNG),
  window_len - 1 <= t0 ->
  Z.of_nat (length pre) = t0 ->
  t0 + Z.of_nat j = Z.of_nat (length df) ->
  fold_left (loop_body rng_choice window_len df)
    (range t0 (Z.of_nat (length df)))
    (Return (pre ++ repeat None j, rng))
  = Return (pre ++ map Some (fst (draws rng_choice j rng)),
            snd (draws rng_choice j rng)).
Proof.
  intros Hw. induction j as [|j IH]; intros t0 pre rng Ht0 Hpre Hn.
  - rewrite range_nil by lia. reflexivity.
  - rewrite range_cons by lia. cbn [fold_left loop_body].
    unfold per_step.
    rewrite window_at_length by lia.
    rewrite Z.ltb_irrefl. cbn [draws].
    destruct (rng_choice rng) as [s rng1].
    unfold setitem. rewrite length_app, repeat_length.
    rewrite (proj2 (Z.ltb_ge _ _)) by lia.
    rewrite (proj2 (Z.leb_gt _ _)) by lia.
    cbn [orb]. rewrite (proj2 (Z.ltb_ge t0 0)) by lia.
    rewrite insert_app_r_alt by lia.
    replace (Z.to_nat t0 - length pre)%nat with 0%nat by lia.
    cbn [repeat]. change (<[0%nat:=Some s]> (None :: repeat None j))
      with ([Some s] ++ repeat None j).
    rewrite app_assoc.
    rewrite (IH (t0 + 1) (pre ++ [Some s]) rng1);
      [|lia|rewrite length_app; simpl; lia|lia].
    destruct (draws rng_choice j rng1) as [rest rng2].
    cbn [fst snd map]. by rewrite <- app_assoc.
Qed.

(** The loop for a window length below 1: no call of the strategy raises,
    and no assignment does once the first index is in the array. *)
Lemma loop_nonpositive (window_len : Z) (df : list Bar) (l : list Z) :
  window_len <= 0 ->
  Forall (fun t => - Z.of_nat (length df) <= t < Z.of_nat (length df)) l ->
  forall (signals : list (option Signal)) (rng : RNG),
  length signals = length df ->
  exists signals' rng',
    fold_left (loop_body rng_choice window_len df) l (Return (signals, rng))
    = Return (signals', rng')
    /\ length signals' = length df.
Proof.
  intros Hw. induction 1 as [|t l Ht Hl IH]; intros signals rng Hlen.
  - by exists signals, rng.
  - cbn [fold_left loop_body]. unfold per_step.
    rewrite (proj2 (Z.ltb_ge _ _)) by lia.
    destruct (rng_choice rng) as [s rng1].
    unfold setitem. rewrite Hlen.
    rewrite (proj2 (Z.ltb_ge _ _)) by lia.
    rewrite (proj2 (Z.leb_gt _ _)) by lia.
    cbn [orb]. apply IH. by rewrite length_insert.
Qed.

Lemma run_positive (window_len : Z) (df : list Bar) (rng : RNG) :
  1 <= window_len ->
  run rng_choice window_len df rng
  = Return (repeat None
              (Z.to_nat (Z.min (window_len - 1) (Z.of_nat (length df))))
            ++ map Some
                 (fst (draws rng_choice
                         (Z.to_nat (Z.of_nat (length df) - window_len + 1))
                         rng)),
            snd (draws rng_choice
                   (Z.to_nat (Z.of_nat (length df) - window_len + 1)) rng)).
Proof.
  intros Hw. unfold run.
  destruct df as [|b0 df'] eqn:Hdf.
  { cbn [length]. change (Z.of_nat 0) with 0.
    replace (Z.to_nat (0 - window_len + 1)) with 0%nat by lia.
    rewrite Z.min_r by lia. reflexivity. }
  rewrite <- Hdf. clear Hdf. cbv zeta.
  destruct (Z.le_gt_cases (Z.of_nat (length df)) (window_len - 1))
    as [Hshort|Hlong].
  - rewrite range_nil by lia. cbn [fold_left].
    replace (Z.to_nat (Z.of_nat (length df) - window_len + 1)) with 0%nat
      by lia.
    cbn [draws fst snd map]. rewrite app_nil_r, Z.min_r by lia.
    by rewrite Nat2Z.id.
  - rewrite Z.min_l by lia.
    set (k := Z.to_nat (Z.of_nat (length df) - window_len + 1)).
    replace (repeat (@None Signal) (length df))
      with (repeat (@None Signal) (Z.to_nat (window_len - 1))
            ++ repeat None k)
      by (rewrite <- repeat_app; f_equal; lia).
    apply loop_from; [done|lia|rewrite repeat_length; lia|lia].
Qed.

Lemma run_nonpositive (window_len : Z) (df : list Bar) (rng : RNG) :
  window_len <= 0 ->
  - Z.of_nat (length df) <= window_len - 1 ->
  exists signals rng',
    run rng_choice window_len df rng = Return (signals, rng').
Proof.
  intros Hw Hfirst. unfold run.
  destruct df as [|b0 df'] eqn:Hdf; [by eexists _, _|].
  rewrite <- Hdf in *. clear Hdf. cbv zeta.
  destruct (loop_nonpositive window_len df
              (range (window_len - 1) (Z.of_nat (length df))) Hw)
    with (signals := repeat (@None Signal) (length df)) (rng := rng)
    as (signals & rng' & -> & _).
  - apply List.Forall_forall. intros t Ht. apply range_bounds in Ht. lia.
  - apply repeat_length.
  - by exists signals, rng'.
Qed.

Lemma run_index_error (window_len : Z) (df : list Bar) (rng : RNG) :
  df <> [] -> window_len - 1 < - Z.of_nat (length df) ->
  run rng_choice window_len df rng = Raise IndexError.
Proof.
  intros Hne Hfirst. unfold run.
  destruct df as [|b0 df'] eqn:Hdf; [done|].
  rewrite <- Hdf in *. clear Hdf Hne. cbv zeta.
  rewrite range_cons by lia. cbn [fold_left loop_body].
  unfold per_step. rewrite (proj2 (Z.ltb_ge _ _)) by lia.
  destruct (rng_choice rng) as [s rng1].
  unfold setitem. rewrite repeat_length.
  rewrite (proj2 (Z.ltb_lt _ _)) by lia. cbn [orb].
  apply loop_raised.
Qed.

End RunFacts.


(** X19: for a window length of at least 1 the backtest never raises: the
    first [window_len - 1] rows get no signal, and each later row gets the
    next draw of the strategy, one draw per row. *)
Theorem backtest_signals (RNG : Type) (rng_choice : RNG -> Signal * RNG)
    (window_len : Z) (df : list Bar) (rng : RNG) :
  1 <= window_len ->
  run rng_choice window_len df rng
  = Return (repeat None
              (Z.to_nat (Z.min (window_len - 1) (Z.of_nat (length df))))
            ++ map Some
                 (fst (draws rng_choice
                         (Z.to_nat (Z.of_nat (length df) - window_len + 1))
                         rng)),
            snd (draws rng_choice
                   (Z.to_nat (Z.of_nat (length df) - window_len + 1)) rng)).
Proof. apply run_positive. Qed.

Lemma backtest_signals_witness :
  run hold_always 2 (concat three_days_bars) tt
  = Return (repeat None
              (Z.to_nat (Z.min (2 - 1)
                           (Z.of_nat (length (concat three_days_bars)))))
            ++ map Some
                 (fst (draws hold_always
                         (Z.to_nat
                            (Z.of_nat (length (concat three_days_bars))
                             - 2 + 1)) tt)),
            snd (draws hold_always
                   (Z.to_nat
                      (Z.of_nat (length (concat three_days_bars)) - 2 + 1))
                   tt)).
Proof. apply (backtest_signals unit hold_always 2). lia. Defined.

(** X20: the backtest raises in one case only: a frame with rows and a
    window length below [1 - n], where the first assignment is out of the
    array; the strategy's own check of the window never fails. *)
Theorem backtest_raises_iff (RNG : Type) (rng_choice : RNG -> Signal * RNG)
    (window_len : Z) (df : list Bar) (rng : RNG) (e : Error) :
  run rng_choice window_len df rng = Raise e
  <-> df <> [] /\ window_len - 1 < - Z.of_nat (length df) /\ e = IndexError.
Proof.
  split.
  - intros H.
    destruct (Z.le_gt_cases 1 window_len) as [Hpos|Hnonpos].
    { rewrite run_positive in H by done. discriminate. }
    destruct (Z.le_gt_cases (- Z.of_nat (length df)) (window_len - 1))
      as [Hin|Hout].
    { destruct (run_nonpositive RNG rng_choice window_len df rng)
        as (signals & rng' & E); [lia|done|]. congruence. }
    assert (Hne : df <> []) by (intros ->; discriminate H).
    rewrite run_index_error in H by done.
    split; [done|]. split; [done|]. congruence.
  - intros (Hne & Hout & ->). by apply run_index_error.
Qed.

(** X21: on each row from [window_len - 1] on, the backtest hands the
    strategy the [window_len] rows that end at this row; for the last row
    this is the window the real-time load returns on files that hold the
    same bars in ascending order. *)
Theorem backtest_window_is_live_window (dir : Dir CsvRead) (n : Z)
    (per_file : list (list Bar)) (t : Z) :
  files_bars (sorted (glob_csv dir)) = Some per_file ->
  ascending (concat per_file) ->
  1 <= n ->
  n - 1 <= t < Z.of_nat (length (concat per_file)) ->
  window_at n t (concat per_file)
  = lastn (Z.to_nat n) (firstn (Z.to_nat (t + 1)) (concat per_file))
  /\ Z.of_nat (length (window_at n t (concat per_file))) = n
  /\ _load_latest_window dir n
     = Return (Some (window_at n (Z.of_nat (length (concat per_file)) - 1)
                       (concat per_file))).
Proof.
  intros Hfiles Hasc Hn Ht.
  split; [by apply window_at_lastn|]. split; [by apply window_at_length|].
  rewrite window_at_lastn by lia.
  replace (Z.to_nat (Z.of_nat (length (concat per_file)) - 1 + 1))
    with (length (concat per_file)) by lia.
  rewrite firstn_all. apply load_enough; [done|done|lia].
Qed.

Lemma backtest_window_is_live_window_witness :
  window_at 2 4 (concat three_days_bars)
  = lastn (Z.to_nat 2) (firstn (Z.to_nat (4 + 1)) (concat three_days_bars))
  /\ Z.of_nat (length (window_at 2 4 (concat three_days_bars))) = 2
  /\ _load_latest_window three_days 2
     = Return (Some (window_at 2
                       (Z.of_nat (length (concat three_days_bars)) - 1)
                       (concat three_days_bars))).
Proof.
  apply (backtest_window_is_live_window three_days 2 three_days_bars 4).
  - reflexivity.
  - vm_compute. intuition discriminate.
  - lia.
  - simpl. lia.
Defined.

End BacktesterBehaviour.
